(** * Static asset server (index.js): model and verified properties

    The server resolves [hostname + path] to a file below the host's document
    root, picks a pre-compressed variant of it and answers with caching and
    negotiation headers.  This file embeds [src/index.js] in Rocq:

    - JavaScript strings are [string]s, one [ascii] per code unit (Node hands
      the request target over as a string of code units below 256); file
      contents (Buffers) are [string]s too;
    - the functions of Node's [path] module used by the server ([join],
      [normalize], [extname], POSIX flavour) are modelled in [NodePath];
    - the regular-expression literals of the source are values of [Regex.re],
      run by a greedy backtracking matcher;
    - the filesystem is a sequence of disk snapshots, one per filesystem call
      of a request, so that a file may appear or vanish between two calls;
    - asynchronous functions run in a small monad that threads the log of
      filesystem calls and propagates thrown errors;
    - the Express middleware chain is the function [app]: the router visits
      the layers in the order of registration, decodes the wildcard of a
      route while it matches the layer and keeps a failed decoding as a
      pending error; [res.send] completes the response (entity headers,
      conditional requests, no body for HEAD). *)

From Stdlib Require Import String Ascii List ZArith Bool Arith Lia.
Import ListNotations.
Local Open Scope list_scope.
Local Open Scope string_scope.

(** ** JavaScript string primitives *)

Module JsString.

(** [s.substring(n)]: the characters of [s] from index [n] on. *)
Fixpoint substringFrom (n : nat) (s : string) : string :=
  match n, s with
  | O, _ => s
  | S _, EmptyString => EmptyString
  | S n', String _ s' => substringFrom n' s'
  end.

(** [s.slice(0, n)]: the first [n] characters of [s]. *)
Fixpoint take (n : nat) (s : string) : string :=
  match n, s with
  | O, _ => EmptyString
  | S _, EmptyString => EmptyString
  | S n', String c s' => String c (take n' s')
  end.

(** [s.indexOf(t) === 0]: [s] starts with [t]. *)
Fixpoint startsWith (t s : string) : bool :=
  match t, s with
  | EmptyString, _ => true
  | String _ _, EmptyString => false
  | String a t', String b s' => Ascii.eqb a b && startsWith t' s'
  end.

(** [s.charCodeAt(s.length - 1) === c]. *)
Fixpoint endsWithChar (c : ascii) (s : string) : bool :=
  match s with
  | EmptyString => false
  | String a EmptyString => Ascii.eqb a c
  | String _ s' => endsWithChar c s'
  end.

(** [arr.indexOf(x) !== -1] on an array of strings (strict equality). *)
Fixpoint includes (x : string) (arr : list string) : bool :=
  match arr with
  | [] => false
  | y :: arr' => String.eqb y x || includes x arr'
  end.

(** Every character of [s] satisfies [f]. *)
Fixpoint allChars (f : ascii -> bool) (s : string) : bool :=
  match s with
  | EmptyString => true
  | String c s' => f c && allChars f s'
  end.

Definition isDigit (c : ascii) : bool :=
  let n := nat_of_ascii c in ((48 <=? n) && (n <=? 57))%nat.

Definition isLower (c : ascii) : bool :=
  let n := nat_of_ascii c in ((97 <=? n) && (n <=? 122))%nat.

Definition isUpper (c : ascii) : bool :=
  let n := nat_of_ascii c in ((65 <=? n) && (n <=? 90))%nat.

(** [\w]: letters, digits and the underscore. *)
Definition isWord (c : ascii) : bool :=
  isLower c || isUpper c || isDigit c || Ascii.eqb c "_".

(** A character that the regular-expression dot matches. *)
Definition notLineTerminator (c : ascii) : bool :=
  negb (Ascii.eqb c "010" || Ascii.eqb c "013").

(** The canonical form compared under the [i] flag: ASCII lower-case letters
    are mapped to upper case, every other character is left alone. *)
Definition canonicalize (c : ascii) : ascii :=
  if isLower c then ascii_of_nat (nat_of_ascii c - 32)%nat else c.

(** [s.toUpperCase()] on ASCII letters. *)
Fixpoint toUpperCase (s : string) : string :=
  match s with
  | EmptyString => EmptyString
  | String c s' => String (canonicalize c) (toUpperCase s')
  end.

End JsString.

(** ** Node's [path] module (POSIX) *)

Module NodePath.
Import JsString.

(** [s.split('/')]. *)
Fixpoint split (s : string) : list string :=
  match s with
  | EmptyString => [EmptyString]
  | String c s' =>
      if Ascii.eqb c "/" then EmptyString :: split s'
      else match split s' with
           | seg :: segs => String c seg :: segs
           | [] => [String c EmptyString]
           end
  end.

(** One segment of [normalizeString]: empty and [.] segments are dropped,
    [..] removes the last kept segment (or is kept itself, for a relative
    path that climbs above its start), any other segment is kept.  The kept
    segments are held last-first. *)
Definition pushSegment (allowAboveRoot : bool) (kept : list string) (seg : string)
  : list string :=
  if String.eqb seg "" || String.eqb seg "." then kept
  else if String.eqb seg ".." then
    match kept with
    | top :: kept' =>
        if String.eqb top ".." then (if allowAboveRoot then ".." :: kept else kept)
        else kept'
    | [] => if allowAboveRoot then [".."] else []
    end
  else seg :: kept.

Definition keptSegments (allowAboveRoot : bool) (p : string) : list string :=
  fold_left (pushSegment allowAboveRoot) (split p) [].

Definition normalizeString (p : string) (allowAboveRoot : bool) : string :=
  String.concat "/" (rev (keptSegments allowAboveRoot p)).

Definition isAbsolute (p : string) : bool := startsWith "/" p.

(** [path.normalize(p)]. *)
Definition normalize (p : string) : string :=
  if String.eqb p "" then "."
  else
    let absolute := isAbsolute p in
    let trailingSeparator := endsWithChar "/" p in
    let p' := normalizeString p (negb absolute) in
    if String.eqb p' "" then
      if absolute then "/" else if trailingSeparator then "./" else "."
    else
      let p'' := if trailingSeparator then p' ++ "/" else p' in
      if absolute then "/" ++ p'' else p''.

(** [path.join(a, b)]: the non-empty arguments joined by [/], normalized. *)
Definition join (a b : string) : string :=
  match String.eqb a "", String.eqb b "" with
  | true, true => "."
  | true, false => normalize b
  | false, true => normalize a
  | false, false => normalize (a ++ "/" ++ b)
  end.

(** The last segment of [p], trailing separators ignored (the part of the
    path that [extname] inspects). *)
Fixpoint lastPart (segs : list string) : string :=
  match segs with
  | [] => ""
  | seg :: segs' =>
      let last := lastPart segs' in
      if String.eqb last "" then seg else last
  end.

(** [s.slice(s.lastIndexOf('.'))] when [s] has a dot. *)
Fixpoint fromLastDot (s : string) : option string :=
  match s with
  | EmptyString => None
  | String c s' =>
      match fromLastDot s' with
      | Some ext => Some ext
      | None => if Ascii.eqb c "." then Some s else None
      end
  end.

(** [path.extname(p)]: from the last dot of the last segment to its end;
    empty when that segment has no dot, starts with its only dot, or is
    [..]. *)
Definition extname (p : string) : string :=
  let base := lastPart (split p) in
  match fromLastDot base with
  | None => ""
  | Some ext =>
      if String.eqb ext base || String.eqb base ".." then "" else ext
  end.

(** A segment without separator. *)
Definition noSep (s : string) : bool :=
  allChars (fun c => negb (Ascii.eqb c "/")) s.

(** A segment that normalization keeps as it is. *)
Definition plain (s : string) : Prop :=
  noSep s = true /\ s <> "" /\ s <> "." /\ s <> "..".

(** A non-empty path that is not absolute. *)
Definition relative (p : string) : Prop := p <> "" /\ isAbsolute p = false.

End NodePath.

(** ** The regular expressions of the source

    The fragment of JavaScript regular expressions that [index.js] uses,
    with the backtracking semantics of the language: alternatives are tried
    in priority order (greedy quantifiers take the longer match first) and
    the first complete match wins. *)

Module Regex.
Import JsString.

Inductive re : Type :=
| Bol                         (* ^  (no m flag): start of input *)
| Eol                         (* $  (no m flag): end of input *)
| Chr (c : ascii)             (* a literal character *)
| Cls (f : ascii -> bool)     (* one character of a class: \d, [...], [^...] *)
| Plus (f : ascii -> bool)    (* class+ : one or more, greedy *)
| Seq (r1 r2 : re)            (* r1 r2 *)
| Opt (r : re)                (* (?:r)? and c? : greedy *)
| Group (r : re).             (* (r) : capture group 1 *)

(** A literal word, character by character. *)
Fixpoint Lit (w : string) (rest : re) : re :=
  match w with
  | EmptyString => rest
  | String c w' => Seq (Chr c) (Lit w' rest)
  end.

Section Matcher.
Variable ignoreCase : bool.     (* the i flag *)
Variable input : string.        (* the whole subject string *)
Variable A : Type.

Definition sameChar (a b : ascii) : bool :=
  if ignoreCase then Ascii.eqb (canonicalize a) (canonicalize b)
  else Ascii.eqb a b.

(** [class+] from [s] on: take one more character if possible, and only if
    the rest of the pattern then fails, stop here. *)
Fixpoint plusLoop (f : ascii -> bool) (k : string -> option A) (s : string)
  : option A :=
  match s with
  | EmptyString => None
  | String a s' =>
      if f a then
        match plusLoop f k s' with
        | Some x => Some x
        | None => k s'
        end
      else None
  end.

(** [run r s cap k]: match [r] at the suffix [s] of [input], then continue
    with [k] on what is left; [cap] is the text of group 1 so far. *)
Fixpoint run (r : re) (s : string) (cap : option string)
  (k : string -> option string -> option A) : option A :=
  match r with
  | Bol => if Nat.eqb (String.length s) (String.length input) then k s cap else None
  | Eol => match s with EmptyString => k s cap | String _ _ => None end
  | Chr c =>
      match s with
      | String a s' => if sameChar c a then k s' cap else None
      | EmptyString => None
      end
  | Cls f =>
      match s with
      | String a s' => if f a then k s' cap else None
      | EmptyString => None
      end
  | Plus f => plusLoop f (fun s' => k s' cap) s
  | Seq r1 r2 => run r1 s cap (fun s' cap' => run r2 s' cap' k)
  | Opt r1 =>
      match run r1 s cap k with
      | Some x => Some x
      | None => k s cap
      end
  | Group r1 =>
      run r1 s cap
        (fun s' _ => k s' (Some (take (String.length s - String.length s') s)))
  end.

End Matcher.

Arguments plusLoop {A} f k s.
Arguments run ignoreCase input {A} r s cap k.

(** A match attempt at every start index, leftmost first. *)
Fixpoint searchFrom (ignoreCase : bool) (input : string) (r : re) (s : string)
  : option (option string) :=
  match run ignoreCase input r s None (fun _ cap => Some cap) with
  | Some cap => Some cap
  | None =>
      match s with
      | EmptyString => None
      | String _ s' => searchFrom ignoreCase input r s'
      end
  end.

(** [regex.exec(input)]: [None] when there is no match, otherwise the text of
    capture group 1 ([None] inside when the pattern has no group). *)
Definition exec (ignoreCase : bool) (r : re) (input : string)
  : option (option string) :=
  searchFrom ignoreCase input r input.

(** [regex.test(input)]. *)
Definition test (ignoreCase : bool) (r : re) (input : string) : bool :=
  match exec ignoreCase r input with Some _ => true | None => false end.

(** [input.match(regex)] for a pattern with one group: the text of group 1. *)
Definition matchGroup1 (r : re) (input : string) : option string :=
  match exec false r input with
  | Some (Some g) => Some g
  | _ => None
  end.

End Regex.

(** ** [decodeURIComponent]

    Express decodes what a route's wildcard captured with
    [decodeURIComponent], which throws a [URIError] on a malformed escape
    sequence.  Only whether it throws matters to the server.  The decoder
    goes through the string once: a character other than [%] stands for
    itself; [%] must be followed by two hexadecimal digits, an octet; an
    octet below 128 is a character; any other octet must begin a well-formed
    UTF-8 sequence whose remaining octets follow at once, each written as an
    escape. *)

Module Uri.

Definition hexValue (c : ascii) : option nat :=
  let n := nat_of_ascii c in
  (if (48 <=? n) && (n <=? 57) then Some (n - 48)
   else if (65 <=? n) && (n <=? 70) then Some (n - 55)
   else if (97 <=? n) && (n <=? 102) then Some (n - 87)
   else None)%nat.

(** Where the decoder is: between escapes, after a [%], or after a [%] and
    one digit; [need] continuation octets of a UTF-8 sequence are still due,
    the next of them between [lo] and [hi]. *)
Inductive State : Type :=
| Plain (need lo hi : nat)
| Percent (need lo hi : nat)
| Digit (need lo hi d : nat).

(** The first octet of a sequence: how many octets follow, and the range of
    the next one (the ranges that exclude overlong forms, surrogates and
    code points above 10FFFF). *)
Definition leadOctet (b : nat) : option State :=
  (if b <? 128 then Some (Plain 0 128 191)
   else if (194 <=? b) && (b <=? 223) then Some (Plain 1 128 191)
   else if b =? 224 then Some (Plain 2 160 191)
   else if b =? 237 then Some (Plain 2 128 159)
   else if (225 <=? b) && (b <=? 239) then Some (Plain 2 128 191)
   else if b =? 240 then Some (Plain 3 144 191)
   else if (241 <=? b) && (b <=? 243) then Some (Plain 3 128 191)
   else if b =? 244 then Some (Plain 3 128 143)
   else None)%nat.

(** One character; [None] when the decoder throws. *)
Definition step (st : State) (c : ascii) : option State :=
  match st with
  | Plain need lo hi =>
      if Ascii.eqb c "%" then Some (Percent need lo hi)
      else if Nat.eqb need 0 then Some (Plain need lo hi) else None
  | Percent need lo hi =>
      match hexValue c with
      | Some d => Some (Digit need lo hi d)
      | None => None
      end
  | Digit need lo hi d =>
      match hexValue c with
      | Some e =>
          let b := (16 * d + e)%nat in
          if Nat.eqb need 0 then leadOctet b
          else if ((lo <=? b) && (b <=? hi))%nat
               then Some (Plain (need - 1) 128 191) else None
      | None => None
      end
  end.

Fixpoint decodeFrom (st : State) (s : string) : bool :=
  match s with
  | EmptyString =>
      match st with
      | Plain O _ _ => true
      | _ => false
      end
  | String c s' =>
      match step st c with
      | Some st' => decodeFrom st' s'
      | None => false
      end
  end.

(** [decodeURIComponent(s)] returns (it does not throw). *)
Definition decodable (s : string) : bool := decodeFrom (Plain 0 128 191) s.

End Uri.

(** ** Filesystem, asynchronous calls and HTTP messages *)

Inductive Kind : Type := RegularFile | Directory | Special.

(** What [fs.stat] resolves to: the fields the server reads. *)
Record Stats : Type := { kind : Kind; mtime : Z }.

Definition isDirectory (st : Stats) : bool :=
  match kind st with Directory => true | _ => false end.

Definition isFile (st : Stats) : bool :=
  match kind st with RegularFile => true | _ => false end.

(** A directory entry: its stats and the bytes [fs.readFile] yields for it
    ([None] when reading it fails). *)
Record Node : Type := { stats : Stats; data : option string }.

(** A disk snapshot: the entry at each path ([None]: [fs.stat] fails). *)
Definition Disk : Type := string -> option Node.

(** The disk as the [n]-th filesystem call of a request sees it. *)
Definition World : Type := nat -> Disk.

Inductive FsCall : Type := StatCall (p : string) | ReadCall (p : string).

Definition callPath (c : FsCall) : string :=
  match c with StatCall p => p | ReadCall p => p end.

Inductive Error : Type :=
| FsError        (* a rejected fs promise *)
| TypeError      (* thrown by the language itself *)
| URIError.      (* thrown by [decodeURIComponent] *)

Inductive Outcome (A : Type) : Type :=
| Ok (a : A)
| Throw (e : Error).
Arguments Ok {A} a.
Arguments Throw {A} e.

(** An [async] computation: it extends the log of filesystem calls made so
    far and either returns or throws. *)
Definition Async (A : Type) : Type := list FsCall -> Outcome A * list FsCall.

Definition ret {A} (a : A) : Async A := fun log => (Ok a, log).

Definition throw {A} (e : Error) : Async A := fun log => (Throw e, log).

Definition bind {A B} (m : Async A) (f : A -> Async B) : Async B :=
  fun log =>
    match m log with
    | (Ok a, log') => f a log'
    | (Throw e, log') => (Throw e, log')
    end.

(** [try { m } catch (e) { h e }]. *)
Definition tryCatch {A} (m : Async A) (h : Error -> Async A) : Async A :=
  fun log =>
    match m log with
    | (Ok a, log') => (Ok a, log')
    | (Throw e, log') => h e log'
    end.

Notation "x <- m ;; k" := (bind m (fun x => k))
  (at level 61, m at next level, right associativity).

Inductive HeaderValue : Type :=
| Text (s : string)
| HttpDate (t : Z)         (* [date.toUTCString()] of the instant [t] *)
| Length (n : nat)         (* the decimal numeral of [n] *)
| ETagOf (body : string).  (* the strong entity tag of the bytes [body] *)

Definition Headers : Type := list (string * HeaderValue).

Fixpoint getHeader (name : string) (hs : Headers) : option HeaderValue :=
  match hs with
  | [] => None
  | (n, v) :: hs' => if String.eqb n name then Some v else getHeader name hs'
  end.

Fixpoint setHeader (name : string) (v : HeaderValue) (hs : Headers) : Headers :=
  match hs with
  | [] => [(name, v)]
  | (n, v') :: hs' =>
      if String.eqb n name then (n, v) :: hs' else (n, v') :: setHeader name v hs'
  end.

Fixpoint dropHeader (name : string) (hs : Headers) : Headers :=
  match hs with
  | [] => []
  | (n, v) :: hs' =>
      if String.eqb n name then dropHeader name hs' else (n, v) :: dropHeader name hs'
  end.

(** The response object while handlers work on it. *)
Record Res : Type := { statusCode : nat; headers : Headers }.

Definition newRes : Res := {| statusCode := 200; headers := [] |}.

Definition status (code : nat) (res : Res) : Res :=
  {| statusCode := code; headers := headers res |}.

Definition header (name : string) (v : HeaderValue) (res : Res) : Res :=
  {| statusCode := statusCode res; headers := setHeader name v (headers res) |}.

Definition removeHeader (name : string) (res : Res) : Res :=
  {| statusCode := statusCode res; headers := dropHeader name (headers res) |}.

(** The media types to which Express adds a character set. *)
Definition hasCharset (t : string) : bool :=
  JsString.startsWith "text/" t
  || JsString.startsWith "application/javascript" t
  || JsString.startsWith "application/json" t.

(** [res.contentType(t)], for a media type [t] written without parameters:
    Express appends the character set to a textual type. *)
Definition contentType (t : string) (res : Res) : Res :=
  header "Content-Type" (Text (if hasCharset t then t ++ "; charset=utf-8" else t)) res.

(** The response as sent: [resBody] is what follows the headers on the wire,
    empty when no body is sent. *)
Record Response : Type :=
  { resStatus : nat; resHeaders : Headers; resBody : string }.

Inductive Method : Type := GET | HEAD | POST | OtherMethod.

(** [freshFor] stands for the cache validators of the request
    ([If-None-Match], [If-Modified-Since], [Cache-Control]): it is the
    verdict of the [fresh] package on them, given the [ETag] and the
    [Last-Modified] of the response.  A request without validators has the
    constant [false]. *)
Record Request : Type :=
  { method : Method;
    hostname : string;
    path : string;
    acceptsEncodings : list string;
    freshFor : option HeaderValue -> option HeaderValue -> bool }.

(** [req.fresh]: only a GET or HEAD request that is about to be answered
    with a 2xx or 304 status can be fresh. *)
Definition fresh (req : Request) (res : Res) : bool :=
  match method req with
  | GET | HEAD =>
      if (((200 <=? statusCode res) && (statusCode res <? 300))
          || (statusCode res =? 304))%nat
      then freshFor req (getHeader "ETag" (headers res))
             (getHeader "Last-Modified" (headers res))
      else false
  | _ => false
  end.

(** [res.get('Content-Type')] is falsy. *)
Definition lacksContentType (res : Res) : bool :=
  match getHeader "Content-Type" (headers res) with
  | None => true
  | Some (Text t) => String.eqb t ""
  | Some _ => false
  end.

(** What [res.send] does once the chunk has a content type: it sets
    [Content-Length] and, unless the handler set one, the [ETag] of the
    chunk; a fresh request turns the status into 304; a 204 or 304 response
    loses its entity headers and its body; a HEAD request gets the headers
    only. *)
Definition endWith (req : Request) (chunk : string) (res : Res) : Response :=
  let res := header "Content-Length" (Length (String.length chunk)) res in
  let res := match getHeader "ETag" (headers res) with
             | None => header "ETag" (ETagOf chunk) res
             | Some _ => res
             end in
  let res := if fresh req res then status 304 res else res in
  let bare := ((statusCode res =? 204) || (statusCode res =? 304))%nat in
  let res := if bare
             then removeHeader "Transfer-Encoding"
                    (removeHeader "Content-Length" (removeHeader "Content-Type" res))
             else res in
  {| resStatus := statusCode res;
     resHeaders := headers res;
     resBody := match method req with
                | HEAD => ""
                | _ => if bare then "" else chunk
                end |}.

(** [res.send(body)] for a string (the server only sends ASCII messages,
    one byte per character, after [res.contentType] has put the character
    set into [Content-Type]). *)
Definition send (req : Request) (body : string) (res : Res) : Response :=
  endWith req body (if lacksContentType res then contentType "text/html" res else res).

(** [res.send(body)] for a [Buffer]. *)
Definition sendBuffer (req : Request) (body : string) (res : Res) : Response :=
  endWith req body
    (if lacksContentType res then contentType "application/octet-stream" res else res).

(** ** Configuration: [hosts.js] and [types.js] *)

Record Host : Type := { root : string; branches : bool }.

Record Encoding : Type := { name : string; extension : string }.

(** An entry of [types.js] as written: [encodings] is optional. *)
Record FileTypeEntry : Type :=
  { entryType : string; entryEncodings : option (list Encoding) }.

Record FileType : Type := { type : string; encodings : list Encoding }.

(** ** The server *)

Module Patterns.
Import JsString Regex.

(** [[\w\d_-]] *)
Definition branchChar (c : ascii) : bool :=
  isWord c || isDigit c || Ascii.eqb c "_" || Ascii.eqb c "-".

(** [/^\/([\w\d_-]+)\//] *)
Definition branchRe : re :=
  Seq Bol (Seq (Chr "/") (Seq (Group (Plus branchChar)) (Chr "/"))).

(** [/^\/(?:\d+\/?)?$/] *)
Definition indexRe : re :=
  Seq Bol (Seq (Chr "/") (Seq (Opt (Seq (Plus isDigit) (Opt (Chr "/")))) Eol)).

(** [/^\/(?:\d+\/)?editor\/?$/i] *)
Definition editorRe : re :=
  Seq Bol (Seq (Chr "/") (Seq (Opt (Seq (Plus isDigit) (Chr "/")))
    (Lit "editor" (Seq (Opt (Chr "/")) Eol)))).

(** [/^\/(?:\d+\/)?fullscreen\/?$/i] *)
Definition fullscreenRe : re :=
  Seq Bol (Seq (Chr "/") (Seq (Opt (Seq (Plus isDigit) (Chr "/")))
    (Lit "fullscreen" (Seq (Opt (Chr "/")) Eol)))).

(** The common form of the two patterns above, for the word [w]. *)
Definition aliasRe (w : string) : re :=
  Seq Bol (Seq (Chr "/") (Seq (Opt (Seq (Plus isDigit) (Chr "/")))
    (Lit w (Seq (Opt (Chr "/")) Eol)))).

(** [[a-zA-Z0-9.\-\/~]] *)
Definition pathChar (c : ascii) : bool :=
  isLower c || isUpper c || isDigit c || Ascii.eqb c "." || Ascii.eqb c "-"
  || Ascii.eqb c "/" || Ascii.eqb c "~".

(** [/[^a-zA-Z0-9.\-\/~]/] *)
Definition forbiddenRe : re := Cls (fun c => negb (pathChar c)).

(** The pattern Express compiles a wildcard route to (routing is neither
    case sensitive nor strict): the literal text before the star, then a
    group that takes any run of characters the dot matches, an optional
    slash and the end of the path, under the i flag.  [prefix] is the
    literal text before the star. *)
Definition routeRe (prefix : string) : re :=
  Seq Bol (Lit prefix
    (Seq (Group (Opt (Plus notLineTerminator))) (Seq (Opt (Chr "/")) Eol))).

End Patterns.

Section Server.
Import JsString Patterns.

Variable hostsTable : string -> option Host.          (* require('./hosts') *)
Variable typesTable : string -> option FileTypeEntry. (* require('./types') *)
Variable world : World.

(** Start-up: every root gets a trailing separator. *)
Definition hosts (hostname : string) : option Host :=
  match hostsTable hostname with
  | Some host =>
      Some {| root := NodePath.join (root host) "/"; branches := branches host |}
  | None => None
  end.

(** Start-up: a missing [encodings] property becomes the empty list. *)
Definition fileTypes (extensionName : string) : option FileType :=
  match typesTable extensionName with
  | Some entry =>
      Some {| type := entryType entry;
              encodings := match entryEncodings entry with
                           | Some es => es
                           | None => []
                           end |}
  | None => None
  end.

Definition statFile (p : string) : Async Stats :=
  fun log =>
    (match world (List.length log) p with
     | Some node => Ok (stats node)
     | None => Throw FsError
     end, (log ++ [StatCall p])%list).

Definition readFile (p : string) : Async string :=
  fun log =>
    (match world (List.length log) p with
     | Some node =>
         match data node with
         | Some contents => Ok contents
         | None => Throw FsError
         end
     | None => Throw FsError
     end, (log ++ [ReadCall p])%list).

Definition safeJoin (root file : string) : option string :=
  let newPath := NodePath.join root file in
  if negb (startsWith root newPath) then None else Some newPath.

(** The object [findFile] returns. *)
Record File : Type := { filePath : string; fileStat : Stats }.

Definition findFile (file : string) : Async (option File) :=
  tryCatch
    (stat <- statFile file ;;
     if isDirectory stat then
       let indexFile := NodePath.join file "index.html" in
       indexStat <- statFile indexFile ;;
       if isFile indexStat
       then ret (Some {| filePath := indexFile; fileStat := indexStat |})
       else ret None
     else if isFile stat
     then ret (Some {| filePath := file; fileStat := stat |})
     else ret None)
    (fun _ => ret None).

Definition getFileType (file : string) : option FileType :=
  let extensionName := NodePath.extname file in
  fileTypes extensionName.

(** The object [chooseEncoding] returns. *)
Record Encoded : Type :=
  { encodedName : string; encodedPath : string; encodedStat : Stats }.

Fixpoint chooseEncoding (acceptedEncodings : list string)
  (fileEncodings : list Encoding) (filePath : string) : Async (option Encoded) :=
  match fileEncodings with
  | [] => ret None
  | encoding :: others =>
      let name := name encoding in
      if negb (includes name acceptedEncodings)
      then chooseEncoding acceptedEncodings others filePath
      else
        let encodedFilePath := filePath ++ "." ++ extension encoding in
        found <- tryCatch
                   (encodedFileStat <- statFile encodedFilePath ;;
                    if isFile encodedFileStat
                    then ret (Some {| encodedName := name;
                                      encodedPath := encodedFilePath;
                                      encodedStat := encodedFileStat |})
                    else ret None)
                   (fun _ => ret None) ;;
        match found with
        | Some best => ret (Some best)
        | None => chooseEncoding acceptedEncodings others filePath
        end
  end.

(** What the first middleware leaves on the request object. *)
Record Resolved : Type := { logicalPath : option string; reqRoot : string }.

(** The branch prefix and the rest of the path. *)
Definition splitBranch (branches : bool) (path : string) : string * string :=
  if branches then
    match Regex.matchGroup1 branchRe path with
    | Some branchName =>
        let prefix := "/" ++ branchName in
        (prefix, substringFrom (String.length prefix) path)
    | None => ("", path)
    end
  else ("", path).

Definition mapLogicalPath (branches : bool) (path : string) : option string :=
  let '(prefix, path) := splitBranch branches path in
  if Regex.test false indexRe path then Some (prefix ++ "/index.html")
  else if Regex.test true editorRe path then Some (prefix ++ "/editor.html")
  else if Regex.test true fullscreenRe path then Some (prefix ++ "/fullscreen.html")
  else None.

(** The first middleware: host lookup and logical path. *)
Definition hostMiddleware (req : Request) (res : Res) : Response + Resolved :=
  match hosts (hostname req) with
  | None => inl (send req "Invalid Host" (contentType "text/plain" (status 400 res)))
  | Some host =>
      inr {| logicalPath := mapLogicalPath (branches host) (path req);
             reqRoot := root host |}
  end.

(** The router matches the layer of a route against the path: the pattern
    is run and, when it matches, the text of the wildcard is decoded. *)
Inductive Match : Type :=
| NoMatch
| Matched
| MatchError.      (* the text of the wildcard cannot be decoded *)

Definition matchLayer (prefix : string) (path : string) : Match :=
  match Regex.exec true (routeRe prefix) path with
  | None => NoMatch
  | Some None => Matched
  | Some (Some wildcard) => if Uri.decodable wildcard then Matched else MatchError
  end.

(** What the router does at the layer of [app.get(route, ...)]. *)
Inductive Dispatch : Type :=
| Handle                              (* the handler of the route runs *)
| Skip (layerError : option Error).   (* the router goes on to the next layer *)

(** The layer is matched first; a failed decoding is kept as the pending
    error of this pass, and a route is passed over while an error is
    pending; the method is tested last ([app.get] also serves HEAD). *)
Definition routeLayer (prefix : string) (req : Request) (layerError : option Error)
  : Dispatch :=
  match matchLayer prefix (path req) with
  | NoMatch => Skip layerError
  | MatchError =>
      Skip (Some match layerError with
                 | Some err => err
                 | None => URIError
                 end)
  | Matched =>
      match layerError with
      | Some err => Skip (Some err)
      | None =>
          match method req with
          | GET | HEAD => Handle
          | _ => Skip None
          end
      end
  end.

Definition cacheForever : HeaderValue := Text "public, max-age=315360000, immutable".
Definition cacheHour : HeaderValue := Text "public, max-age=3600, immutable".

(** One of the three [Cache-Control] routes: its handler sets the header and
    calls [next()], which starts a new pass without pending error. *)
Definition cacheRoute (prefix : string) (policy : HeaderValue) (req : Request)
  (chain : Res * option Error) : Res * option Error :=
  match routeLayer prefix req (snd chain) with
  | Handle => (header "Cache-Control" policy (fst chain), None)
  | Skip layerError => (fst chain, layerError)
  end.

(** The three [Cache-Control] routes, in the order of registration: the
    response object and the pending error they leave. *)
Definition cacheMiddlewares (req : Request) (res : Res) : Res * option Error :=
  cacheRoute "/static/blocks-media/" cacheHour req
    (cacheRoute "/static/assets/" cacheForever req
       (cacheRoute "/js/" cacheForever req (res, None))).

(** [req.logicalPath || req.path] *)
Definition pathName (req : Request) (rq : Resolved) : string :=
  match logicalPath rq with
  | Some l => l
  | None => path req
  end.

(** The main handler; [None] stands for a call of [next()]. *)
Definition fileHandler (req : Request) (rq : Resolved) (res : Res)
  : Async (option Response) :=
  let pathName := pathName req rq in
  if Regex.test false forbiddenRe pathName then ret None
  else
    match safeJoin (reqRoot rq) pathName with
    | None => ret None
    | Some requestPathName =>
        found <- findFile requestPathName ;;
        match found with
        | None => throw TypeError       (* destructuring [null] *)
        | Some file =>
            let fileLastModified := mtime (fileStat file) in
            if String.eqb (filePath file) "" then ret None
            else
              match getFileType (filePath file) with
              | None => ret None
              | Some fileType =>
                  let fileEncodings := encodings fileType in
                  bestEncoding <-
                    (if Nat.ltb 0 (List.length fileEncodings)
                     then chooseEncoding (acceptsEncodings req) fileEncodings
                            (filePath file)
                     else ret None) ;;
                  let '(filePath, contentEncoding) :=
                    match bestEncoding with
                    | Some best => (encodedPath best, Some (encodedName best))
                    | None => (filePath file, None)
                    end in
                  read <- tryCatch
                            (contents <- readFile filePath ;; ret (Some contents))
                            (fun _ => ret None) ;;
                  match read with
                  | None => ret None
                  | Some contents =>
                      let res := header "Content-Type" (Text (type fileType)) res in
                      let res := header "Last-Modified" (HttpDate fileLastModified) res in
                      let res := match contentEncoding with
                                 | Some enc => header "Content-Encoding" (Text enc) res
                                 | None => res
                                 end in
                      let res := if Nat.ltb 0 (List.length fileEncodings)
                                 then header "Vary" (Text "Accept-Encoding") res
                                 else res in
                      let res := match getHeader "Cache-Control" (headers res) with
                                 | None => header "Cache-Control" (Text "no-cache") res
                                 | Some _ => res
                                 end in
                      ret (Some (sendBuffer req contents res))
                  end
              end
        end
    end.

(** The terminal middleware. *)
Definition notFound (req : Request) (res : Res) : Response :=
  send req "404 Not Found" (contentType "text/plain" (status 404 res)).

(** The error-handling middleware. *)
Definition errorHandler (req : Request) (err : Error) (res : Res) : Response :=
  send req "Internal server error" (contentType "text/plain" (status 500 res)).

(** The middleware chain: the response and the filesystem calls made, in
    order.  A handler that throws (or whose promise rejects) hands the error
    to the error-handling middleware, and so does the router when the pass
    that reaches the end of the routes has a pending error: the terminal
    middleware takes two arguments and is passed over then. *)
Definition app (req : Request) : Response * list FsCall :=
  match hostMiddleware req newRes with
  | inl response => (response, [])
  | inr rq =>
      let chain := cacheMiddlewares req newRes in
      let res := fst chain in
      match routeLayer "/" req (snd chain) with
      | Handle =>
          match fileHandler req rq res [] with
          | (Ok (Some response), log) => (response, log)
          | (Ok None, log) => (notFound req res, log)
          | (Throw err, log) => (errorHandler req err res, log)
          end
      | Skip None => (notFound req res, [])
      | Skip (Some err) => (errorHandler req err res, [])
      end
  end.

End Server.

(** ** Specifications of asynchronous computations *)

(** [confined P m Q]: started on a log whose calls all satisfy [P], [m]
    only adds calls that satisfy [P], and a value it returns satisfies [Q]. *)
Definition confined {A} (P : FsCall -> Prop) (m : Async A) (Q : A -> Prop) : Prop :=
  forall log, Forall P log ->
    Forall P (snd (m log)) /\ (forall a, fst (m log) = Ok a -> Q a).

(** The path of the call satisfies [ok]. *)
Definition onPath (ok : string -> Prop) (c : FsCall) : Prop := ok (callPath c).

(** The call stays below [root]. *)
Definition below (root : string) (c : FsCall) : Prop :=
  JsString.startsWith root (callPath c) = true.

(** The [Encoded] object for the variant [e] of [basePath] on [disk]. *)
Definition variantOf (disk : Disk) (basePath : string) (e : Encoding)
  : option Encoded :=
  match disk (basePath ++ "." ++ extension e) with
  | Some node =>
      Some {| encodedName := name e;
              encodedPath := basePath ++ "." ++ extension e;
              encodedStat := stats node |}
  | None => None
  end.

(** ** A small installation, used to exercise the theorems *)

Module Demo.

Definition hostsTable (h : string) : option Host :=
  if String.eqb h "example.com"
  then Some {| root := "/srv/www"; branches := false |}
  else if String.eqb h "dev.example.com"
  then Some {| root := "/srv/dev"; branches := true |}
  else None.

Definition br : Encoding := {| name := "br"; extension := "br" |}.
Definition gzip : Encoding := {| name := "gzip"; extension := "gz" |}.

Definition typesTable (e : string) : option FileTypeEntry :=
  if String.eqb e ".html"
  then Some {| entryType := "text/html"; entryEncodings := Some [br; gzip] |}
  else if String.eqb e ".png"
  then Some {| entryType := "image/png"; entryEncodings := None |}
  else None.

Definition file (m : Z) (d : string) : option Node :=
  Some {| stats := {| kind := RegularFile; mtime := m |}; data := Some d |}.

Definition dir (m : Z) : option Node :=
  Some {| stats := {| kind := Directory; mtime := m |}; data := None |}.

Definition disk : Disk := fun p =>
  if String.eqb p "/srv/www/index.html" then file 1000 "<html>home</html>"
  else if String.eqb p "/srv/www/index.html.gz" then file 1001 "GZ(home)"
  else if String.eqb p "/srv/www/blog/" then dir 5
  else if String.eqb p "/srv/www/blog/index.html" then file 7 "<html>blog</html>"
  else if String.eqb p "/srv/www/blog/index.html.br" then file 8 "BR(blog)"
  else if String.eqb p "/srv/www/empty/" then dir 6
  else if String.eqb p "/srv/www/logo.png" then file 9 "PNG"
  else if String.eqb p "/srv/dev/my_branch/index.html" then file 10 "branch"
  else if String.eqb p "/srv/dev/123/index.html" then file 11 "b123"
  else None.

Definition world : World := fun _ => disk.

(** A request without cache validators. *)
Definition request (m : Method) (h p : string) (accepted : list string) : Request :=
  {| method := m; hostname := h; path := p; acceptsEncodings := accepted;
     freshFor := fun _ _ => false |}.

Definition get (h p : string) (accepted : list string) : Request :=
  request GET h p accepted.


Definition serve (req : Request) : Response * list FsCall :=
  app hostsTable typesTable world req.

End Demo.

(** ** The rules of the specification, in its own words

    These definitions follow the text of the specification; the theorems
    below compare them with the code. *)

Module Spec.
Import JsString.

(** [<digits>]: a non-empty run of decimal digits. *)
Definition digits (ds : string) : Prop :=
  ds <> "" /\ allChars isDigit ds = true.

(** An optional trailing slash. *)
Definition optionalSlash (t : string) : Prop := t = "" \/ t = "/".

(** [/] or [/<digits>], with an optional trailing slash. *)
Definition indexShape (p : string) : Prop :=
  p = "/" \/ exists ds t, digits ds /\ optionalSlash t /\ p = "/" ++ ds ++ t.

(** [/<word>] or [/<digits>/<word>], with an optional trailing slash, the
    word compared without regard to case. *)
Definition aliasShape (word : string) (p : string) : Prop :=
  exists w t,
    toUpperCase w = toUpperCase word /\ optionalSlash t /\
    (p = "/" ++ w ++ t \/ exists ds, digits ds /\ p = "/" ++ ds ++ "/" ++ w ++ t).

(** The characters of [s] other than digits and slashes, in upper case. *)
Fixpoint letters (s : string) : string :=
  match s with
  | EmptyString => EmptyString
  | String c s' =>
      if isDigit c || Ascii.eqb c "/" then letters s'
      else String (canonicalize c) (letters s')
  end.

(** A branch name: a non-empty run of word characters, digits, underscores
    and hyphens. *)
Definition branchName (b : string) : Prop :=
  b <> "" /\ allChars Patterns.branchChar b = true.

(** A path that starts with a branch segment bounded by slashes. *)
Definition branchShape (p : string) : Prop :=
  exists b rest, branchName b /\ p = "/" ++ b ++ "/" ++ rest.

(** The characters the source's filter lets through: [a-zA-Z0-9.\-/~]. *)
Definition filterAlphabet : string :=
  "abcdefghijklmnopqrstuvwxyzABCDEFGHIJKLMNOPQRSTUVWXYZ0123456789.-/~".

(** The characters the specification lists: [a-zA-Z0-9._\-/~]. *)
Definition claimedAlphabet : string :=
  "abcdefghijklmnopqrstuvwxyzABCDEFGHIJKLMNOPQRSTUVWXYZ0123456789._-/~".

(** [c] occurs in [s]. *)
Fixpoint occurs (c : ascii) (s : string) : bool :=
  match s with
  | EmptyString => false
  | String a s' => Ascii.eqb a c || occurs c s'
  end.

(** A variant that can be served from [disk]: the client accepts its name
    and [<basePath>.<suffix>] is a regular file. *)
Definition servable (disk : Disk) (accepted : list string) (basePath : string)
  (e : Encoding) : bool :=
  includes (name e) accepted &&
  match disk (basePath ++ "." ++ extension e) with
  | Some node => isFile (stats node)
  | None => false
  end.

(** The first servable variant in configured order. *)
Definition firstServable (disk : Disk) (accepted : list string)
  (basePath : string) (configured : list Encoding) : option Encoding :=
  find (servable disk accepted basePath) configured.

End Spec.

(** ** The ways a request can end

    One constructor per exit of the middleware chain, with what the chain
    had established when it left and the response it sent. *)

(** The path of the pre-encoded variant [e] of [basePath]. *)
Definition variantPath (basePath : string) (e : Encoding) : string :=
  basePath ++ "." ++ extension e.

(** The configured encodings whose name the client accepts, in configured
    order. *)
Definition acceptedOf (accepted : list string) (configured : list Encoding)
  : list Encoding :=
  filter (fun e => JsString.includes (name e) accepted) configured.

(** The path the body is read from. *)
Definition servedPath (file : File) (best : option Encoded) : string :=
  match best with
  | Some b => encodedPath b
  | None => filePath file
  end.

(** The [Resolved] record the first middleware leaves for [host]. *)
Definition resolvedFor (host : Host) (req : Request) : Resolved :=
  {| logicalPath := mapLogicalPath (branches host) (path req);
     reqRoot := root host |}.

(** The headers the main handler sets on [res] before it sends the file. *)
Definition fileHeaders (fileType : FileType) (fileLastModified : Z)
  (contentEncoding : option string) (res : Res) : Res :=
  let res := header "Content-Type" (Text (type fileType)) res in
  let res := header "Last-Modified" (HttpDate fileLastModified) res in
  let res := match contentEncoding with
             | Some enc => header "Content-Encoding" (Text enc) res
             | None => res
             end in
  let res := if Nat.ltb 0 (List.length (encodings fileType))
             then header "Vary" (Text "Accept-Encoding") res
             else res in
  match getHeader "Cache-Control" (headers res) with
  | None => header "Cache-Control" (Text "no-cache") res
  | Some _ => res
  end.

(** The name of the chosen variant, if any. *)
Definition servedEncoding (best : option Encoded) : option string :=
  match best with
  | Some b => Some (encodedName b)
  | None => None
  end.

(** The response object when the router reaches the main route, and the
    error that is pending then. *)
Definition routeRes (req : Request) : Res := fst (cacheMiddlewares req newRes).

Definition routeError (req : Request) : option Error :=
  snd (cacheMiddlewares req newRes).

Inductive Run (hostsTable : string -> option Host)
  (typesTable : string -> option FileTypeEntry) (world : World) (req : Request)
  : Response -> list FsCall -> Prop :=
| RunUnknownHost :
    hosts hostsTable (hostname req) = None ->
    Run hostsTable typesTable world req
      (send req "Invalid Host" (contentType "text/plain" (status 400 newRes))) []
| RunUndecodable host err :
    hosts hostsTable (hostname req) = Some host ->
    routeLayer "/" req (routeError req) = Skip (Some err) ->
    Run hostsTable typesTable world req (errorHandler req err (routeRes req)) []
| RunNotRouted host :
    hosts hostsTable (hostname req) = Some host ->
    routeLayer "/" req (routeError req) = Skip None ->
    Run hostsTable typesTable world req (notFound req (routeRes req)) []
| RunRejected host :
    hosts hostsTable (hostname req) = Some host ->
    routeLayer "/" req (routeError req) = Handle ->
    (Regex.test false Patterns.forbiddenRe (pathName req (resolvedFor host req)) = true
     \/ safeJoin (root host) (pathName req (resolvedFor host req)) = None) ->
    Run hostsTable typesTable world req (notFound req (routeRes req)) []
| RunResolutionFailed host candidate log1 :
    hosts hostsTable (hostname req) = Some host ->
    routeLayer "/" req (routeError req) = Handle ->
    Regex.test false Patterns.forbiddenRe (pathName req (resolvedFor host req)) = false ->
    safeJoin (root host) (pathName req (resolvedFor host req)) = Some candidate ->
    findFile world candidate [] = (Ok None, log1) ->
    Run hostsTable typesTable world req
      (errorHandler req TypeError (routeRes req)) log1
| RunUnsupportedType host candidate file log1 :
    hosts hostsTable (hostname req) = Some host ->
    routeLayer "/" req (routeError req) = Handle ->
    Regex.test false Patterns.forbiddenRe (pathName req (resolvedFor host req)) = false ->
    safeJoin (root host) (pathName req (resolvedFor host req)) = Some candidate ->
    findFile world candidate [] = (Ok (Some file), log1) ->
    getFileType typesTable (filePath file) = None ->
    Run hostsTable typesTable world req (notFound req (routeRes req)) log1
| RunReadFailed host candidate file ft best log1 log2 err :
    hosts hostsTable (hostname req) = Some host ->
    routeLayer "/" req (routeError req) = Handle ->
    Regex.test false Patterns.forbiddenRe (pathName req (resolvedFor host req)) = false ->
    safeJoin (root host) (pathName req (resolvedFor host req)) = Some candidate ->
    findFile world candidate [] = (Ok (Some file), log1) ->
    getFileType typesTable (filePath file) = Some ft ->
    chooseEncoding world (acceptsEncodings req) (encodings ft) (filePath file) log1
      = (Ok best, log2) ->
    readFile world (servedPath file best) log2
      = (Throw err, (log2 ++ [ReadCall (servedPath file best)])%list) ->
    Run hostsTable typesTable world req (notFound req (routeRes req))
      (log2 ++ [ReadCall (servedPath file best)])%list
| RunServed host candidate file ft best log1 log2 contents :
    hosts hostsTable (hostname req) = Some host ->
    routeLayer "/" req (routeError req) = Handle ->
    Regex.test false Patterns.forbiddenRe (pathName req (resolvedFor host req)) = false ->
    safeJoin (root host) (pathName req (resolvedFor host req)) = Some candidate ->
    findFile world candidate [] = (Ok (Some file), log1) ->
    getFileType typesTable (filePath file) = Some ft ->
    chooseEncoding world (acceptsEncodings req) (encodings ft) (filePath file) log1
      = (Ok best, log2) ->
    readFile world (servedPath file best) log2
      = (Ok contents, (log2 ++ [ReadCall (servedPath file best)])%list) ->
    Run hostsTable typesTable world req
      (sendBuffer req contents
         (fileHeaders ft (mtime (fileStat file)) (servedEncoding best) (routeRes req)))
      (log2 ++ [ReadCall (servedPath file best)])%list.

(** The segments of a path that normalization keeps, first to last. *)
Definition segments (p : string) : list string :=
  rev (NodePath.keptSegments false p).

(** [l1] is an initial part of [l2]. *)
Definition initialPart {A} (l1 l2 : list A) : Prop :=
  exists rest, l2 = (l1 ++ rest)%list.

(** ** The requests a route serves

    The router's treatment of the wildcard routes of the server, told by
    the request path alone. *)

(** [p] begins with [prefix], letter case aside. *)
Definition beginsWith (prefix p : string) : bool :=
  String.eqb (JsString.toUpperCase (JsString.take (String.length prefix) p))
    (JsString.toUpperCase prefix).

(** [p] begins with [prefix], letter case aside, and has no line terminator
    after it: the pattern of the route [prefix*] matches [p]. *)
Definition underRoute (prefix p : string) : bool :=
  beginsWith prefix p
  && JsString.allChars JsString.notLineTerminator
       (JsString.substringFrom (String.length prefix) p).

(** The text of a route before the star: it has no percent sign and no
    line terminator, and a slash first. *)
Definition literal (prefix : string) : Prop :=
  Spec.occurs "%" prefix = false
  /\ JsString.allChars JsString.notLineTerminator prefix = true
  /\ JsString.startsWith "/" prefix = true.

(** The router fails on [p]: a route matches it and its escapes cannot be
    decoded. *)
Definition undecodable (p : string) : bool :=
  underRoute "/" p && negb (Uri.decodable p).

(** The methods [app.get] serves. *)
Definition isGetOrHead (m : Method) : bool :=
  match m with
  | GET | HEAD => true
  | _ => false
  end.

(** The handler of the route [prefix*] runs for [req]. *)
Definition handled (prefix : string) (req : Request) : bool :=
  isGetOrHead (method req) && underRoute prefix (path req) && Uri.decodable (path req).

(** The [Cache-Control] header the three cache routes leave. *)
Definition cachePolicy (req : Request) : option HeaderValue :=
  if handled "/static/blocks-media/" req then Some cacheHour
  else if handled "/static/assets/" req || handled "/js/" req then Some cacheForever
  else None.

(** [p] is a regular file on [disk]. *)
Definition regularOn (disk : Disk) (p : string) : bool :=
  match disk p with
  | Some node => isFile (stats node)
  | None => false
  end.

(** ** Facts about strings *)

Module StringFacts.
Import JsString.

Lemma append_assoc (a b c : string) : (a ++ b) ++ c = a ++ (b ++ c).
Proof. induction a as [|x a IH]; simpl; [reflexivity | now rewrite IH]. Qed.

Lemma append_empty_r (a : string) : a ++ "" = a.
Proof. induction a as [|x a IH]; simpl; [reflexivity | now rewrite IH]. Qed.

Lemma append_eq_empty (a b : string) : a ++ b = "" -> a = "" /\ b = "".
Proof. destruct a; simpl; intros H; [now split | discriminate]. Qed.

Lemma length_append (a b : string) :
  String.length (a ++ b) = String.length a + String.length b.
Proof. induction a as [|x a IH]; simpl; [reflexivity | now rewrite IH]. Qed.

Lemma startsWith_append (a b : string) : startsWith a (a ++ b) = true.
Proof.
  induction a as [|x a IH]; simpl; [reflexivity|].
  now rewrite Ascii.eqb_refl, IH.
Qed.

Lemma startsWith_split (a s : string) :
  startsWith a s = true -> exists b, s = a ++ b.
Proof.
  revert s; induction a as [|x a IH]; intros s H.
  - now exists s.
  - destruct s as [|y s]; simpl in H; [discriminate|].
    apply andb_true_iff in H as [Hxy Hs].
    apply Ascii.eqb_eq in Hxy; subst y.
    destruct (IH _ Hs) as [b ->]. now exists b.
Qed.

Lemma startsWith_trans (a b c : string) :
  startsWith a b = true -> startsWith b c = true -> startsWith a c = true.
Proof.
  intros Hab Hbc.
  destruct (startsWith_split _ _ Hab) as [x ->].
  destruct (startsWith_split _ _ Hbc) as [y ->].
  rewrite append_assoc. apply startsWith_append.
Qed.

Lemma startsWith_refl (a : string) : startsWith a a = true.
Proof. rewrite <- (append_empty_r a) at 2. apply startsWith_append. Qed.

Lemma endsWithChar_append (c : ascii) (a : string) :
  endsWithChar c (a ++ String c "") = true.
Proof.
  induction a as [|x a IH]; simpl.
  - apply Ascii.eqb_refl.
  - destruct (a ++ String c "") eqn:E; [discriminate IH | exact IH].
Qed.

Lemma endsWithChar_append_nonempty (c : ascii) (a b : string) :
  b <> "" -> endsWithChar c (a ++ b) = endsWithChar c b.
Proof.
  intros Hb. induction a as [|x a IH]; simpl; [reflexivity|].
  destruct (a ++ b) eqn:E; [|exact IH].
  apply append_eq_empty in E as [_ E]. contradiction.
Qed.

Lemma allChars_append (f : ascii -> bool) (a b : string) :
  allChars f (a ++ b) = allChars f a && allChars f b.
Proof.
  induction a as [|x a IH]; simpl; [reflexivity|].
  now rewrite IH, andb_assoc.
Qed.

Lemma substringFrom_append (a b : string) :
  substringFrom (String.length a) (a ++ b) = b.
Proof. induction a as [|x a IH]; simpl; [reflexivity | exact IH]. Qed.

Lemma take_append (a b : string) : take (String.length a) (a ++ b) = a.
Proof. induction a as [|x a IH]; simpl; [reflexivity | now rewrite IH]. Qed.

End StringFacts.

(** ** Facts about [path.join] *)

Module PathFacts.
Import JsString NodePath StringFacts.

(** [path.extname] on sample paths. *)
Example extname_examples :
  NodePath.extname "/srv/www/index.html" = ".html" /\
  NodePath.extname "/srv/www/.bashrc" = "" /\
  NodePath.extname "/srv/a.b/c" = "" /\
  NodePath.extname "/srv/www/x.tar.gz" = ".gz" /\
  NodePath.extname "/srv/www/dir.d/" = ".d" /\
  NodePath.extname "/srv/.." = "" /\
  NodePath.extname "a." = "." /\
  NodePath.extname "..." = ".".
Proof. repeat split; reflexivity. Qed.

(** [path.join] on sample paths. *)
Example join_examples :
  NodePath.join "/srv/www" "/" = "/srv/www/" /\
  NodePath.join "/srv/www/" "/a/../b//c.js" = "/srv/www/b/c.js" /\
  NodePath.join "/srv/www/" "/../www-secret/x" = "/srv/www-secret/x" /\
  NodePath.join "/srv/www/" "/../../../../etc/passwd" = "/etc/passwd" /\
  NodePath.join "." "/" = "./" /\
  NodePath.join "./" "/./" = "./" /\
  NodePath.join "./" "index.html" = "index.html" /\
  NodePath.join "../x" "/../../y/" = "../../y/" /\
  NodePath.join "/srv/www/blog/" "index.html" = "/srv/www/blog/index.html".
Proof. repeat split; reflexivity. Qed.

Lemma split_nonempty (s : string) : split s <> [].
Proof.
  induction s as [|c s IH]; simpl; [discriminate|].
  destruct (Ascii.eqb c "/"); [discriminate|].
  destruct (split s); discriminate.
Qed.

Lemma split_append_sep (a b : string) :
  split (a ++ String "/" b) = (split a ++ split b)%list.
Proof.
  induction a as [|c a IH]; simpl; [reflexivity|].
  destruct (Ascii.eqb c "/"); rewrite IH; [reflexivity|].
  destruct (split a) eqn:E; [now apply split_nonempty in E | reflexivity].
Qed.

Lemma split_noSep (s : string) : Forall (fun seg => noSep seg = true) (split s).
Proof.
  induction s as [|c s IH]; simpl.
  - now constructor.
  - destruct (Ascii.eqb c "/") eqn:Ec.
    + now constructor.
    + destruct (split s) as [|seg segs]; inversion IH; subst;
        constructor; auto; unfold noSep in *; simpl; now rewrite Ec.
Qed.

Lemma split_single (s : string) : noSep s = true -> split s = [s].
Proof.
  unfold noSep. induction s as [|c s IH]; simpl; [reflexivity|].
  intros H. apply andb_true_iff in H as [Hc Hs].
  apply negb_true_iff in Hc. rewrite Hc, (IH Hs). reflexivity.
Qed.

Lemma split_concat (segs : list string) :
  segs <> [] -> Forall (fun seg => noSep seg = true) segs ->
  split (String.concat "/" segs) = segs.
Proof.
  induction segs as [|x segs IH]; [congruence|].
  intros _ H. inversion H as [|? ? Hx Hsegs]; subst.
  destruct segs as [|y segs].
  - simpl. now apply split_single.
  - change (String.concat "/" (x :: y :: segs))
      with (x ++ String "/" (String.concat "/" (y :: segs))).
    rewrite split_append_sep, split_single by assumption.
    rewrite IH by (assumption || discriminate). reflexivity.
Qed.

Lemma concat_snoc (l : list string) (x : string) :
  l <> [] ->
  String.concat "/" (l ++ [x]) = String.concat "/" l ++ "/" ++ x.
Proof.
  induction l as [|a l IH]; [congruence|]. intros _.
  destruct l as [|b l]; [reflexivity|].
  change (String.concat "/" ((a :: b :: l) ++ [x]))
    with (a ++ "/" ++ String.concat "/" ((b :: l) ++ [x])).
  rewrite IH by discriminate.
  change (String.concat "/" (a :: b :: l))
    with (a ++ "/" ++ String.concat "/" (b :: l)).
  now rewrite !append_assoc.
Qed.

Lemma concat_plain_nonempty (l : list string) :
  l <> [] -> Forall plain l -> String.concat "/" l <> "".
Proof.
  destruct l as [|a l]; [congruence|]. intros _ H.
  inversion H as [|? ? (_ & Ha & _) _]; subst.
  destruct l; simpl; [exact Ha|].
  intros E. apply append_eq_empty in E as [E _]. contradiction.
Qed.

Lemma pushSegment_plain (allowAboveRoot : bool) (kept : list string) (seg : string) :
  plain seg -> pushSegment allowAboveRoot kept seg = seg :: kept.
Proof.
  intros (_ & H0 & H1 & H2). unfold pushSegment.
  apply String.eqb_neq in H0, H1, H2. now rewrite H0, H1, H2.
Qed.

Lemma pushSegment_keeps_plain (kept : list string) (seg : string) :
  Forall plain kept -> noSep seg = true ->
  Forall plain (pushSegment false kept seg).
Proof.
  intros Hk Hs. unfold pushSegment.
  destruct (String.eqb_spec seg ""); [assumption|].
  destruct (String.eqb_spec seg "."); [assumption|]. simpl.
  destruct (String.eqb_spec seg "..").
  - destruct kept as [|top kept']; [constructor|].
    inversion Hk; subst. destruct (String.eqb top ".."); assumption.
  - constructor; [repeat split|]; assumption.
Qed.

Lemma fold_keeps_plain (segs kept : list string) :
  Forall plain kept -> Forall (fun seg => noSep seg = true) segs ->
  Forall plain (fold_left (pushSegment false) segs kept).
Proof.
  revert kept. induction segs as [|seg segs IH]; intros kept Hk Hs; simpl.
  - assumption.
  - inversion Hs; subst. apply IH; [|assumption].
    now apply pushSegment_keeps_plain.
Qed.

Lemma keptSegments_plain (p : string) : Forall plain (keptSegments false p).
Proof. apply fold_keeps_plain; [constructor | apply split_noSep]. Qed.

Lemma fold_plain (allowAboveRoot : bool) (kept : list string) :
  Forall plain kept ->
  fold_left (pushSegment allowAboveRoot) (rev kept) [] = kept.
Proof.
  induction kept as [|seg kept IH]; intros H; [reflexivity|].
  inversion H; subst. simpl. rewrite fold_left_app. simpl.
  rewrite IH by assumption. now apply pushSegment_plain.
Qed.

Lemma isAbsolute_cons (x : string) :
  isAbsolute x = true -> exists x', x = String "/" x'.
Proof.
  destruct x as [|c x']; [discriminate|].
  unfold isAbsolute. cbn [startsWith].
  destruct (Ascii.eqb_spec "/" c) as [<-|]; [|discriminate].
  intros _. now exists x'.
Qed.

(** The shape of a normalized absolute path. *)
Lemma normalize_absolute (x : string) :
  isAbsolute x = true ->
  normalize x =
    match keptSegments false x with
    | [] => "/"
    | kept => "/" ++ String.concat "/" (rev kept)
                  ++ (if endsWithChar "/" x then "/" else "")
    end.
Proof.
  intros Habs. destruct (isAbsolute_cons _ Habs) as [x' Hx].
  unfold normalize. rewrite Habs.
  replace (String.eqb x "") with false by (subst x; reflexivity).
  unfold normalizeString. simpl negb.
  pose proof (keptSegments_plain x) as Hplain.
  destruct (keptSegments false x) as [|seg kept] eqn:Ek; [reflexivity|].
  assert (Hne : String.concat "/" (rev (seg :: kept)) <> "").
  { apply concat_plain_nonempty.
    - simpl. intros E. now apply app_eq_nil in E as [_ E].
    - now apply Forall_rev. }
  apply String.eqb_neq in Hne. rewrite Hne.
  destruct (endsWithChar "/" x); [reflexivity|].
  now rewrite append_empty_r.
Qed.

Lemma normalize_isAbsolute (x : string) :
  isAbsolute x = true -> isAbsolute (normalize x) = true.
Proof.
  intros H. rewrite (normalize_absolute _ H).
  destruct (keptSegments false x); reflexivity.
Qed.

(** Normalizing twice keeps the same segments. *)
Lemma keptSegments_normalize (x : string) :
  isAbsolute x = true ->
  keptSegments false (normalize x) = keptSegments false x.
Proof.
  intros Habs. rewrite (normalize_absolute _ Habs).
  pose proof (keptSegments_plain x) as Hplain.
  destruct (keptSegments false x) as [|seg kept] eqn:Ek; [reflexivity|].
  assert (Hrev : rev (seg :: kept) <> [])
    by (simpl; intros E; now apply app_eq_nil in E as [_ E]).
  remember (seg :: kept) as st eqn:Est. clear Est.
  assert (Hsplit : split (String.concat "/" (rev st)) = rev st).
  { apply split_concat.
    - exact Hrev.
    - apply Forall_rev. eapply Forall_impl; [|exact Hplain].
      now intros a (Ha & _). }
  unfold keptSegments.
  change ("/" ++ String.concat "/" (rev st) ++ (if endsWithChar "/" x then "/" else ""))
    with ("" ++ String "/" (String.concat "/" (rev st)
                              ++ (if endsWithChar "/" x then "/" else ""))).
  rewrite split_append_sep. simpl split at 1.
  destruct (endsWithChar "/" x).
  - change (String.concat "/" (rev st) ++ "/")
      with (String.concat "/" (rev st) ++ String "/" "").
    rewrite split_append_sep, Hsplit. simpl split.
    rewrite !fold_left_app. cbn [fold_left].
    change (pushSegment false [] "") with (@nil string).
    rewrite fold_plain by assumption. reflexivity.
  - rewrite append_empty_r, Hsplit, fold_left_app. cbn [fold_left].
    change (pushSegment false [] "") with (@nil string).
    now apply fold_plain.
Qed.

(** [path.join(file, 'index.html')] extends a normalized absolute [file]. *)
Lemma join_index_extends (x : string) :
  isAbsolute x = true ->
  startsWith (normalize x) (join (normalize x) "index.html") = true.
Proof.
  intros Habs.
  pose proof (normalize_isAbsolute _ Habs) as Hfabs.
  pose proof (keptSegments_normalize _ Habs) as Hidem.
  pose proof (keptSegments_plain x) as Hplain.
  destruct (isAbsolute_cons _ Hfabs) as [f' Hf].
  unfold join.
  replace (String.eqb (normalize x) "") with false by (rewrite Hf; reflexivity).
  simpl String.eqb.
  assert (Habs' : isAbsolute (normalize x ++ "/" ++ "index.html") = true)
    by (rewrite Hf; reflexivity).
  rewrite (normalize_absolute _ Habs').
  assert (Hkept : keptSegments false (normalize x ++ "/" ++ "index.html")
                  = "index.html" :: keptSegments false x).
  { unfold keptSegments at 1.
    change (normalize x ++ "/" ++ "index.html")
      with (normalize x ++ String "/" "index.html").
    rewrite split_append_sep, fold_left_app.
    fold (keptSegments false (normalize x)). rewrite Hidem. reflexivity. }
  rewrite Hkept.
  rewrite endsWithChar_append_nonempty by discriminate.
  simpl endsWithChar. rewrite append_empty_r.
  rewrite (normalize_absolute _ Habs).
  destruct (keptSegments false x) as [|seg kept] eqn:Ek; [reflexivity|].
  change (rev ("index.html" :: seg :: kept))
    with (rev (seg :: kept) ++ ["index.html"])%list.
  rewrite concat_snoc
    by (simpl; intros E; now apply app_eq_nil in E as [_ E]).
  destruct (endsWithChar "/" x).
  - replace ("/" ++ String.concat "/" (rev (seg :: kept)) ++ "/" ++ "index.html")
      with (("/" ++ String.concat "/" (rev (seg :: kept)) ++ "/") ++ "index.html")
      by (now rewrite !append_assoc).
    apply startsWith_append.
  - replace ("/" ++ String.concat "/" (rev (seg :: kept)) ++ "/" ++ "index.html")
      with (("/" ++ String.concat "/" (rev (seg :: kept)) ++ "") ++ "/index.html")
      by (now rewrite !append_assoc).
    apply startsWith_append.
Qed.

(** Joining onto an absolute root normalizes an absolute path. *)
Lemma join_absolute (r p : string) :
  isAbsolute r = true ->
  exists x, isAbsolute x = true /\ join r p = normalize x.
Proof.
  intros Habs. destruct (isAbsolute_cons _ Habs) as [r' ->].
  unfold join. simpl String.eqb.
  destruct (String.eqb p "").
  - now exists (String "/" r').
  - now exists (String "/" r' ++ "/" ++ p).
Qed.

Lemma relative_append (base suffix : string) :
  relative base -> relative (base ++ suffix).
Proof.
  intros [Hne Hrel]. destruct base as [|c base]; [congruence|].
  split; [discriminate | exact Hrel].
Qed.

Lemma pushSegment_keeps_segments (allowAboveRoot : bool) (kept : list string)
  (seg : string) :
  Forall (fun s => noSep s = true /\ s <> "") kept -> noSep seg = true ->
  Forall (fun s => noSep s = true /\ s <> "") (pushSegment allowAboveRoot kept seg).
Proof.
  intros Hk Hs. unfold pushSegment.
  destruct (String.eqb_spec seg ""); [assumption|].
  destruct (String.eqb_spec seg "."); [assumption|]. simpl.
  destruct (String.eqb_spec seg "..").
  - destruct kept as [|top kept'].
    + destruct allowAboveRoot; repeat constructor. discriminate.
    + inversion Hk; subst. destruct (String.eqb top ".."); [|assumption].
      destruct allowAboveRoot; [|assumption].
      constructor; [split; [reflexivity | discriminate] | assumption].
  - constructor; [split|]; assumption.
Qed.

Lemma keptSegments_segments (allowAboveRoot : bool) (p : string) :
  Forall (fun s => noSep s = true /\ s <> "") (keptSegments allowAboveRoot p).
Proof.
  unfold keptSegments.
  assert (H : forall segs kept,
    Forall (fun s => noSep s = true /\ s <> "") kept ->
    Forall (fun s => noSep s = true) segs ->
    Forall (fun s => noSep s = true /\ s <> "")
      (fold_left (pushSegment allowAboveRoot) segs kept)).
  { induction segs as [|seg segs IH]; intros kept Hk Hs; simpl; [assumption|].
    inversion Hs; subst. apply IH; [|assumption].
    now apply pushSegment_keeps_segments. }
  apply H; [constructor | apply split_noSep].
Qed.

(** Normalization keeps a relative path relative. *)
Lemma normalize_relative (x : string) : relative x -> relative (normalize x).
Proof.
  intros [Hne Hrel]. unfold normalize.
  apply String.eqb_neq in Hne. rewrite Hne, Hrel. simpl negb.
  unfold normalizeString.
  pose proof (keptSegments_segments true x) as Hsegs.
  apply Forall_rev in Hsegs.
  destruct (rev (keptSegments true x)) as [|seg segs].
  - simpl. destruct (endsWithChar "/" x); split; (discriminate || reflexivity).
  - assert (Hp : relative (String.concat "/" (seg :: segs))).
    { inversion Hsegs as [|? ? [Hsep Hseg] _]; subst.
      assert (Hs : relative seg).
      { destruct seg as [|c seg]; [congruence|]. split; [discriminate|].
        unfold noSep in Hsep. simpl in Hsep.
        apply andb_true_iff in Hsep as [Hc _]. apply negb_true_iff in Hc.
        unfold isAbsolute. cbn [startsWith].
        destruct (Ascii.eqb_spec "/" c) as [<-|]; [discriminate Hc | reflexivity]. }
      destruct segs; [exact Hs | now apply relative_append]. }
    destruct Hp as [Hp1 Hp2]. apply String.eqb_neq in Hp1. rewrite Hp1.
    apply String.eqb_neq in Hp1.
    destruct (endsWithChar "/" x); [apply relative_append|]; now split.
Qed.

Lemma join_relative (r p : string) : relative r -> relative (join r p).
Proof.
  intros Hr. pose proof Hr as [Hne _]. unfold join.
  apply String.eqb_neq in Hne. rewrite Hne.
  destruct (String.eqb p ""); apply normalize_relative;
    [exact Hr | now apply relative_append].
Qed.

(** Start-up leaves every root with a trailing separator. *)
Lemma join_root_trailing (r : string) : endsWithChar "/" (join r "/") = true.
Proof.
  assert (Hn : forall y, y <> "" -> endsWithChar "/" y = true ->
                         endsWithChar "/" (normalize y) = true).
  { intros y Hy Ht. unfold normalize.
    apply String.eqb_neq in Hy. rewrite Hy, Ht.
    destruct (String.eqb (normalizeString y (negb (isAbsolute y))) "");
      [destruct (isAbsolute y); reflexivity|].
    destruct (isAbsolute y).
    - change ("/" ++ normalizeString y (negb true) ++ "/")
        with (("/" ++ normalizeString y (negb true)) ++ String "/" "").
      apply endsWithChar_append.
    - apply (endsWithChar_append "/"). }
  unfold join. simpl String.eqb. destruct (String.eqb r "").
  - reflexivity.
  - apply Hn.
    + intros E. apply append_eq_empty in E as [_ E]. discriminate.
    + rewrite endsWithChar_append_nonempty by discriminate. reflexivity.
Qed.

End PathFacts.

(** ** Facts about the matcher *)

Module RegexFacts.
Import JsString Regex StringFacts.

Section Run.
Variable ignoreCase : bool.
Variable input : string.
Variable A : Type.
Implicit Types (k : string -> option A) (f : ascii -> bool).

(** What [class+] consumed when the match succeeded. *)
Lemma plusLoop_some f k s x :
  plusLoop f k s = Some x ->
  exists ds rest, s = ds ++ rest /\ ds <> "" /\ allChars f ds = true /\ k rest = Some x.
Proof.
  revert x. induction s as [|a s IH]; intros x; simpl; [discriminate|].
  destruct (f a) eqn:Ea; [|discriminate].
  destruct (plusLoop f k s) as [y|] eqn:Ey.
  - intros [= <-]. destruct (IH _ eq_refl) as (ds & rest & -> & _ & Hds & Hk).
    exists (String a ds), rest. simpl. rewrite Ea, Hds. repeat split; auto.
    discriminate.
  - intros Hk. exists (String a ""), s. simpl. rewrite Ea.
    repeat split; auto. discriminate.
Qed.

(** [class+] succeeds as soon as some split of the input lets the rest of
    the pattern succeed. *)
Lemma plusLoop_complete f k ds rest x :
  ds <> "" -> allChars f ds = true -> k rest = Some x ->
  exists y, plusLoop f k (ds ++ rest) = Some y.
Proof.
  induction ds as [|a ds IH]; [congruence|]. intros _ H Hk.
  simpl in H. apply andb_true_iff in H as [Ha Hds]. simpl. rewrite Ha.
  destruct ds as [|b ds].
  - simpl. destruct (plusLoop f k rest) as [y|]; [now exists y | now exists x].
  - destruct (IH ltac:(discriminate) Hds Hk) as [y ->]. now exists y.
Qed.

(** When the class cannot go past [ds], the longest match is tried first. *)
Lemma plusLoop_longest f k ds rest x :
  ds <> "" -> allChars f ds = true ->
  (forall a r, rest = String a r -> f a = false) ->
  k rest = Some x ->
  plusLoop f k (ds ++ rest) = Some x.
Proof.
  intros Hne H Hrest Hk.
  assert (Hstop : plusLoop f k rest = None).
  { destruct rest as [|a r]; [reflexivity|]. simpl.
    now rewrite (Hrest a r eq_refl). }
  induction ds as [|a ds IH]; [congruence|].
  simpl in H. apply andb_true_iff in H as [Ha Hds]. simpl. rewrite Ha.
  destruct ds as [|b ds].
  - simpl. now rewrite Hstop.
  - now rewrite (IH ltac:(discriminate) Hds).
Qed.

(** No proper suffix of the input is at its start. *)
Lemma run_Bol_later (r : re) s cap (k : string -> option string -> option A) :
  String.length s < String.length input ->
  run ignoreCase input (Seq Bol r) s cap k = None.
Proof.
  intros H. simpl.
  replace (Nat.eqb (String.length s) (String.length input)) with false; [reflexivity|].
  symmetry. apply Nat.eqb_neq. lia.
Qed.

End Run.

Lemma searchFrom_Bol_later ignoreCase input r s :
  String.length s < String.length input ->
  searchFrom ignoreCase input (Seq Bol r) s = None.
Proof.
  induction s as [|a s IH]; intros H.
  - cbn [searchFrom]. now rewrite run_Bol_later.
  - cbn [searchFrom]. rewrite run_Bol_later by assumption.
    apply IH. simpl in H. lia.
Qed.

(** A pattern that begins with [^] is tried at index 0 only. *)
Lemma exec_Bol ignoreCase r input :
  exec ignoreCase (Seq Bol r) input
  = run ignoreCase input r input None (fun _ cap => Some cap).
Proof.
  unfold exec.
  assert (Hrun : run ignoreCase input (Seq Bol r) input None (fun _ cap => Some cap)
                 = run ignoreCase input r input None (fun _ cap => Some cap)).
  { simpl. now rewrite Nat.eqb_refl. }
  destruct input as [|a s] eqn:E.
  - cbn [searchFrom]. rewrite Hrun.
    now destruct (run ignoreCase "" r "" None _).
  - cbn [searchFrom]. rewrite Hrun.
    destruct (run ignoreCase (String a s) r (String a s) None _); [reflexivity|].
    apply searchFrom_Bol_later. simpl. lia.
Qed.

(** Under the [i] flag a slash still matches only a slash. *)
Lemma sameChar_slash ignoreCase (a : ascii) :
  sameChar ignoreCase "/" a = Ascii.eqb "/" a.
Proof.
  destruct ignoreCase; [|reflexivity].
  destruct a as [b0 b1 b2 b3 b4 b5 b6 b7].
  destruct b0, b1, b2, b3, b4, b5, b6, b7; reflexivity.
Qed.

(** Case folding leaves digits alone. *)
Lemma canonicalize_digit (a : ascii) : isDigit a = true -> canonicalize a = a.
Proof.
  destruct a as [b0 b1 b2 b3 b4 b5 b6 b7].
  destruct b0, b1, b2, b3, b4, b5, b6, b7; (discriminate || reflexivity).
Qed.

(** A literal word consumes a word equal to it up to case. *)
Lemma run_Lit_some {A} input w r s cap (k : string -> option string -> option A) x :
  run true input (Lit w r) s cap k = Some x ->
  exists w' s', s = w' ++ s' /\ toUpperCase w' = toUpperCase w
                /\ run true input r s' cap k = Some x.
Proof.
  revert s. induction w as [|c w IH]; intros s H.
  - exists "", s. auto.
  - cbn [Lit run] in H. destruct s as [|a s]; [discriminate|].
    unfold sameChar in H.
    destruct (Ascii.eqb_spec (canonicalize c) (canonicalize a)) as [E|]; [|discriminate].
    destruct (IH _ H) as (w' & s' & -> & Hw & Hr).
    exists (String a w'), s'. simpl. rewrite Hw, E. auto.
Qed.

Lemma run_Lit_match {A} input w w' r s cap (k : string -> option string -> option A) :
  toUpperCase w' = toUpperCase w ->
  run true input (Lit w r) (w' ++ s) cap k = run true input r s cap k.
Proof.
  revert w'. induction w as [|c w IH]; intros w' H.
  - destruct w'; [reflexivity | discriminate].
  - destruct w' as [|a w']; [discriminate|].
    simpl in H. injection H as Hc Hw.
    cbn [Lit run append]. unfold sameChar. rewrite Hc, Ascii.eqb_refl.
    now apply IH.
Qed.

End RegexFacts.

(** ** What the patterns of the source match *)

Module PatternFacts.
Import JsString Regex Patterns Spec StringFacts RegexFacts.

(** [\/?$]: an optional slash, then the end of the input. *)
Lemma run_tail {A} ignoreCase input s cap (k : string -> option string -> option A) :
  run ignoreCase input (Seq (Opt (Chr "/")) Eol) s cap k
  = if String.eqb s "" || String.eqb s "/" then k "" cap else None.
Proof.
  destruct s as [|a [|b s]]; cbn [run]; rewrite ?sameChar_slash.
  - reflexivity.
  - destruct (Ascii.eqb_spec "/" a) as [<-|Hn].
    + simpl. now destruct (k "" cap).
    + replace (String.eqb (String a "") "/") with false; [reflexivity|].
      symmetry. apply String.eqb_neq. intros [= E]. now apply Hn.
  - replace (String.eqb (String a (String b s)) "/") with false.
    + now destruct (Ascii.eqb "/" a).
    + symmetry. apply String.eqb_neq. discriminate.
Qed.

Lemma optionalSlash_eqb (t : string) :
  String.eqb t "" || String.eqb t "/" = true <-> optionalSlash t.
Proof.
  unfold optionalSlash. rewrite orb_true_iff, !String.eqb_eq. reflexivity.
Qed.

(** The index pattern matches exactly the paths of [indexShape]. *)
Lemma test_indexRe (p : string) :
  Regex.test false indexRe p = true <-> indexShape p.
Proof.
  unfold Regex.test, indexRe. rewrite exec_Bol. split.
  - destruct (run false p _ p None _) as [x|] eqn:E; [intros _|discriminate].
    cbn [run] in E. destruct p as [|a s]; [discriminate|].
    rewrite sameChar_slash in E.
    destruct (Ascii.eqb_spec "/" a) as [<-|]; [|discriminate].
    match type of E with
    | match ?m with _ => _ end = _ => destruct m as [y|] eqn:Ep
    end.
    + apply plusLoop_some in Ep as (ds & rest & -> & Hne & Hds & Hk).
      pose proof (run_tail false (String "/" (ds ++ rest)) rest None
                    (fun _ cap => Some cap)) as Ht.
      cbn [run] in Ht. cbn [run] in Hk. rewrite Ht in Hk.
      destruct (String.eqb rest "" || String.eqb rest "/") eqn:Er; [|discriminate].
      right. exists ds, rest. repeat split; auto. now apply optionalSlash_eqb.
    + destruct s; [now left | discriminate].
  - intros [-> | (ds & t & (Hne & Hds) & Ht & ->)]; [reflexivity|].
    cbn [run append]. rewrite sameChar_slash. simpl Ascii.eqb. cbv iota.
    assert (Hk : exists y,
      plusLoop isDigit
        (fun s' => run false (String "/" (ds ++ t)) (Opt (Chr "/")) s' None
                     (fun s'' cap' => run false (String "/" (ds ++ t)) Eol s'' cap'
                                        (fun _ cap => Some cap)))
        (ds ++ t) = Some y).
    { apply plusLoop_complete with (x := None); auto.
      destruct Ht as [-> | ->]; reflexivity. }
    destruct Hk as [y Hy]. cbn [run] in Hy. now rewrite Hy.
Qed.

(** The alias pattern for [w] matches exactly the paths of [aliasShape w]. *)
Lemma test_aliasRe (w p : string) :
  Regex.test true (aliasRe w) p = true <-> aliasShape w p.
Proof.
  unfold Regex.test, aliasRe. rewrite exec_Bol. split.
  - destruct (run true p _ p None _) as [x|] eqn:E; [intros _|discriminate].
    cbn [run] in E. destruct p as [|a s]; [discriminate|].
    rewrite sameChar_slash in E.
    destruct (Ascii.eqb_spec "/" a) as [<-|]; [|discriminate].
    match type of E with
    | match ?m with _ => _ end = _ => destruct m as [y|] eqn:Ep
    end.
    + apply plusLoop_some in Ep as (ds & rest & -> & Hne & Hds & Hk).
      destruct rest as [|b r]; [discriminate|].
      rewrite sameChar_slash in Hk.
      destruct (Ascii.eqb_spec "/" b) as [<-|]; [|discriminate].
      apply run_Lit_some in Hk as (w' & t & -> & Hw & Hk).
      rewrite run_tail in Hk.
      destruct (String.eqb t "" || String.eqb t "/") eqn:Et; [|discriminate].
      exists w', t. repeat split; auto; [now apply optionalSlash_eqb|].
      right. exists ds. repeat split; auto.
    + apply run_Lit_some in E as (w' & t & -> & Hw & Hk).
      rewrite run_tail in Hk.
      destruct (String.eqb t "" || String.eqb t "/") eqn:Et; [|discriminate].
      exists w', t. repeat split; auto. now apply optionalSlash_eqb.
  - intros (w' & t & Hw & Ht & Hp).
    apply optionalSlash_eqb in Ht.
    destruct Hp as [-> | (ds & (Hne & Hds) & ->)].
    + cbn [run append]. rewrite sameChar_slash. simpl Ascii.eqb. cbv iota.
      match goal with
      | |- match match ?m with _ => _ end with _ => _ end = _ => destruct m
      end; [reflexivity|].
      now rewrite run_Lit_match, run_tail, Ht.
    + cbn [run append]. rewrite sameChar_slash. simpl Ascii.eqb. cbv iota.
      set (input := String "/" (ds ++ String "/" (w' ++ t))).
      assert (Hk : exists y,
        plusLoop isDigit
          (fun s' => run true input (Chr "/") s' None
                       (fun s'' cap' =>
                          run true input (Lit w (Seq (Opt (Chr "/")) Eol)) s'' cap'
                            (fun _ cap => Some cap)))
          (ds ++ String "/" (w' ++ t)) = Some y).
      { apply plusLoop_complete with (x := None); auto.
        cbn [run]. rewrite sameChar_slash. simpl Ascii.eqb. cbv iota.
        now rewrite run_Lit_match, run_tail, Ht. }
      destruct Hk as [y Hy]. cbn [run] in Hy. now rewrite Hy.
Qed.

Lemma test_editorRe (p : string) :
  Regex.test true editorRe p = true <-> aliasShape "editor" p.
Proof. exact (test_aliasRe "editor" p). Qed.

Lemma test_fullscreenRe (p : string) :
  Regex.test true fullscreenRe p = true <-> aliasShape "fullscreen" p.
Proof. exact (test_aliasRe "fullscreen" p). Qed.

Lemma branchChar_slash : branchChar "/" = false.
Proof. reflexivity. Qed.

(** The branch pattern captures the branch name of a path of [branchShape]. *)
Lemma matchGroup1_branch (b rest : string) :
  branchName b ->
  Regex.matchGroup1 branchRe ("/" ++ b ++ "/" ++ rest) = Some b.
Proof.
  intros (Hne & Hb). unfold Regex.matchGroup1, branchRe. rewrite exec_Bol.
  cbn [run append]. simpl sameChar. cbv iota.
  rewrite plusLoop_longest with (x := Some b); auto.
  - intros a r [= <- _]. reflexivity.
  - cbn [run]. simpl sameChar. cbv iota. do 2 f_equal.
    replace (String.length (b ++ String "/" rest)
             - String.length (String "/" rest))
      with (String.length b) by (rewrite length_append; simpl; lia).
    apply take_append.
Qed.

(** It matches nothing else. *)
Lemma matchGroup1_branch_inv (p g : string) :
  Regex.matchGroup1 branchRe p = Some g ->
  exists rest, branchName g /\ p = "/" ++ g ++ "/" ++ rest.
Proof.
  unfold Regex.matchGroup1, branchRe. rewrite exec_Bol.
  destruct (run false p _ p None _) as [[x|]|] eqn:E; try discriminate.
  intros [= ->]. cbn [run] in E.
  destruct p as [|a s]; [discriminate|].
  rewrite sameChar_slash in E.
  destruct (Ascii.eqb_spec "/" a) as [<-|]; [|discriminate].
  apply plusLoop_some in E as (ds & r & -> & Hne & Hds & Hk).
  destruct r as [|c r]; [discriminate|].
  rewrite sameChar_slash in Hk.
  destruct (Ascii.eqb_spec "/" c) as [<-|]; [|discriminate].
  assert (Ht : take (String.length (ds ++ String "/" r)
                      - String.length (String "/" r)) (ds ++ String "/" r) = ds).
  { replace (String.length (ds ++ String "/" r) - String.length (String "/" r))
      with (String.length ds) by (rewrite length_append; simpl; lia).
    apply take_append. }
  rewrite Ht in Hk. injection Hk as <-.
  exists r. repeat split; auto.
Qed.

Lemma matchGroup1_branch_none (p : string) :
  ~ branchShape p -> Regex.matchGroup1 branchRe p = None.
Proof.
  intros Hn. destruct (Regex.matchGroup1 branchRe p) as [g|] eqn:E; [|reflexivity].
  destruct (matchGroup1_branch_inv _ _ E) as (rest & Hg & ->).
  exfalso. apply Hn. now exists g, rest.
Qed.

(** The filter pattern finds a character outside the class, if any. *)
Lemma test_forbiddenRe (p : string) :
  Regex.test false forbiddenRe p = negb (allChars pathChar p).
Proof.
  unfold Regex.test, exec, forbiddenRe. generalize p at 1 as input.
  induction p as [|a s IH]; intros input; [reflexivity|].
  cbn [searchFrom run allChars].
  destruct (pathChar a); simpl; [apply IH | reflexivity].
Qed.

(** The class of the filter, character by character. *)
Lemma pathChar_alphabet (c : ascii) : pathChar c = occurs c filterAlphabet.
Proof.
  destruct c as [b0 b1 b2 b3 b4 b5 b6 b7].
  destruct b0, b1, b2, b3, b4, b5, b6, b7; reflexivity.
Qed.

Lemma allChars_false (f : ascii -> bool) (p : string) :
  allChars f p = false <-> exists c, occurs c p = true /\ f c = false.
Proof.
  induction p as [|a s IH]; simpl.
  - split; [discriminate | intros (c & H & _); discriminate].
  - rewrite andb_false_iff, IH. split.
    + intros [Ha | (c & Hc & Hf)].
      * exists a. now rewrite Ascii.eqb_refl.
      * exists c. rewrite Hc, orb_true_r. auto.
    + intros (c & Hc & Hf). apply orb_true_iff in Hc as [Hc | Hc].
      * apply Ascii.eqb_eq in Hc. subst c. now left.
      * right. now exists c.
Qed.

(** Digits are branch characters. *)
Lemma digits_branchName (ds : string) : digits ds -> branchName ds.
Proof.
  intros (Hne & Hds). split; [assumption|].
  clear Hne. induction ds as [|a ds IH]; [reflexivity|].
  simpl in *. apply andb_true_iff in Hds as [Ha Hds].
  rewrite (IH Hds), andb_true_r.
  unfold branchChar, isWord. rewrite Ha. now rewrite !orb_true_r.
Qed.

End PatternFacts.

(** ** The logical path mapper *)

Module MapperFacts.
Import JsString Regex Patterns Spec StringFacts PatternFacts.

Lemma splitBranch_disabled (p : string) : splitBranch false p = ("", p).
Proof. reflexivity. Qed.

Lemma splitBranch_branch (b rest : string) :
  branchName b ->
  splitBranch true ("/" ++ b ++ "/" ++ rest) = ("/" ++ b, "/" ++ rest).
Proof.
  intros Hb. unfold splitBranch. rewrite (matchGroup1_branch b rest Hb).
  f_equal.
  change ("/" ++ b ++ "/" ++ rest) with (("/" ++ b) ++ ("/" ++ rest)).
  apply substringFrom_append.
Qed.

Lemma splitBranch_no_branch (p : string) :
  ~ branchShape p -> splitBranch true p = ("", p).
Proof. intros H. unfold splitBranch. now rewrite matchGroup1_branch_none. Qed.

(** The alias rules, on the remaining path. *)
Lemma mapLogicalPath_rules (branches : bool) (p : string) :
  let prefix := fst (splitBranch branches p) in
  let rest := snd (splitBranch branches p) in
  (indexShape rest -> mapLogicalPath branches p = Some (prefix ++ "/index.html")) /\
  (~ indexShape rest -> aliasShape "editor" rest ->
     mapLogicalPath branches p = Some (prefix ++ "/editor.html")) /\
  (~ indexShape rest -> ~ aliasShape "editor" rest -> aliasShape "fullscreen" rest ->
     mapLogicalPath branches p = Some (prefix ++ "/fullscreen.html")) /\
  (~ indexShape rest -> ~ aliasShape "editor" rest -> ~ aliasShape "fullscreen" rest ->
     mapLogicalPath branches p = None).
Proof.
  unfold mapLogicalPath. destruct (splitBranch branches p) as [prefix rest]. simpl.
  pose proof (test_indexRe rest) as Hi.
  pose proof (test_editorRe rest) as He.
  pose proof (test_fullscreenRe rest) as Hf.
  destruct (Regex.test false indexRe rest);
    destruct (Regex.test true editorRe rest);
    destruct (Regex.test true fullscreenRe rest);
    repeat split; intros; try reflexivity;
    repeat match goal with
    | H : ~ _ |- _ => (exfalso; apply H; tauto) || clear H
    | H : indexShape _ |- _ => apply Hi in H; discriminate
    | H : aliasShape "editor" _ |- _ => apply He in H; discriminate
    | H : aliasShape "fullscreen" _ |- _ => apply Hf in H; discriminate
    end.
Qed.

Lemma letters_append (a b : string) : letters (a ++ b) = letters a ++ letters b.
Proof.
  induction a as [|c a IH]; simpl; [reflexivity|].
  destruct (isDigit c || Ascii.eqb c "/"); simpl; now rewrite IH.
Qed.

Lemma letters_digits (ds : string) : allChars isDigit ds = true -> letters ds = "".
Proof.
  induction ds as [|c ds IH]; simpl; [reflexivity|].
  intros H. apply andb_true_iff in H as [Hc Hds]. rewrite Hc. simpl. auto.
Qed.

Lemma letters_optionalSlash (t : string) : optionalSlash t -> letters t = "".
Proof. intros [-> | ->]; reflexivity. Qed.

(** A word of letters only is what [letters] finds in any spelling of it. *)
Lemma letters_spelling (w w' : string) :
  letters w = toUpperCase w ->
  toUpperCase w' = toUpperCase w -> letters w' = toUpperCase w.
Proof.
  revert w'. induction w as [|c w IH]; intros w' Hl Hw.
  - destruct w'; [reflexivity | discriminate].
  - destruct w' as [|a w']; [discriminate|].
    simpl in Hw. injection Hw as Ha Hw'.
    simpl in Hl. destruct (isDigit c || Ascii.eqb c "/") eqn:Ec.
    + exfalso. assert (Hlen : forall u, String.length (letters u) <= String.length u).
      { induction u as [|d u IHu]; simpl; [lia|].
        destruct (isDigit d || Ascii.eqb d "/"); simpl; lia. }
      assert (Hup : forall u, String.length (toUpperCase u) = String.length u).
      { induction u as [|d u IHu]; simpl; [reflexivity | now rewrite IHu]. }
      pose proof (Hlen w) as H1. rewrite Hl in H1. simpl in H1.
      rewrite Hup in H1. lia.
    + injection Hl as Hl. simpl.
      assert (Ea : isDigit a || Ascii.eqb a "/" = false).
      { assert (Hfold : forall x, isDigit x || Ascii.eqb x "/"
                                  = isDigit (canonicalize x)
                                    || Ascii.eqb (canonicalize x) "/").
        { intros [x0 x1 x2 x3 x4 x5 x6 x7].
          destruct x0, x1, x2, x3, x4, x5, x6, x7; reflexivity. }
        now rewrite Hfold, Ha, <- Hfold. }
      rewrite Ea. simpl. rewrite Ha. f_equal. now apply IH.
Qed.

Lemma letters_index (p : string) : indexShape p -> letters p = "".
Proof.
  intros [-> | (ds & t & (_ & Hds) & Ht & ->)]; [reflexivity|].
  simpl. now rewrite letters_append, letters_digits, letters_optionalSlash.
Qed.

Lemma letters_alias (w p : string) :
  letters w = toUpperCase w -> aliasShape w p -> letters p = toUpperCase w.
Proof.
  intros Hl (w' & t & Hw & Ht & Hp).
  pose proof (letters_spelling _ _ Hl Hw) as Hw'.
  destruct Hp as [-> | (ds & (_ & Hds) & ->)]; simpl;
    rewrite ?letters_append; simpl; rewrite ?letters_append, ?letters_digits by assumption;
    rewrite Hw', letters_optionalSlash by assumption; simpl;
    now rewrite append_empty_r.
Qed.

(** The alias rules with their targets; the shapes exclude one another, so
    each rule can be read without the ones before it. *)
Lemma mapLogicalPath_aliases (branches : bool) (p : string) :
  let prefix := fst (splitBranch branches p) in
  let rest := snd (splitBranch branches p) in
  (indexShape rest -> mapLogicalPath branches p = Some (prefix ++ "/index.html")) /\
  (aliasShape "editor" rest ->
     mapLogicalPath branches p = Some (prefix ++ "/editor.html")) /\
  (aliasShape "fullscreen" rest ->
     mapLogicalPath branches p = Some (prefix ++ "/fullscreen.html")) /\
  (~ indexShape rest -> ~ aliasShape "editor" rest -> ~ aliasShape "fullscreen" rest ->
     mapLogicalPath branches p = None).
Proof.
  destruct (mapLogicalPath_rules branches p) as (Hi & He & Hf & Hn).
  cbv zeta in *. repeat split; auto.
  - intros H. apply He; [|assumption].
    intros Hx. apply letters_index in Hx.
    apply (letters_alias "editor") in H; [|reflexivity].
    rewrite Hx in H. discriminate.
  - intros H. pose proof (letters_alias "fullscreen" _ eq_refl H) as Hl.
    apply Hf; [| |assumption].
    + intros Hx. apply letters_index in Hx. rewrite Hx in Hl. discriminate.
    + intros Hx. apply (letters_alias "editor") in Hx; [|reflexivity].
      rewrite Hx in Hl. discriminate.
Qed.

End MapperFacts.


Import JsString Patterns Spec.

(** ** More about the joined paths *)

Module JoinFacts.
Import NodePath StringFacts PathFacts.

Lemma concat_app (l1 l2 : list string) :
  l1 <> [] -> l2 <> [] ->
  String.concat "/" (l1 ++ l2) = String.concat "/" l1 ++ "/" ++ String.concat "/" l2.
Proof.
  intros H1 H2. induction l1 as [|a l1 IH]; [congruence|].
  destruct l1 as [|b l1].
  - destruct l2; [congruence | reflexivity].
  - change (String.concat "/" ((a :: b :: l1) ++ l2))
      with (a ++ "/" ++ String.concat "/" ((b :: l1) ++ l2)).
    rewrite IH by discriminate.
    change (String.concat "/" (a :: b :: l1))
      with (a ++ "/" ++ String.concat "/" (b :: l1)).
    now rewrite !append_assoc.
Qed.

Lemma fold_push_plain (allowAboveRoot : bool) (segs kept : list string) :
  Forall plain segs ->
  fold_left (pushSegment allowAboveRoot) segs kept = (rev segs ++ kept)%list.
Proof.
  revert kept. induction segs as [|seg segs IH]; intros kept H; [reflexivity|].
  inversion H; subst. simpl. rewrite pushSegment_plain by assumption.
  rewrite IH by assumption. now rewrite <- app_assoc.
Qed.

Lemma fold_push_kept_or_dropped (allowAboveRoot : bool) (segs kept : list string) :
  Forall (fun s => s = "" \/ plain s) segs ->
  exists more, fold_left (pushSegment allowAboveRoot) segs kept = (more ++ kept)%list.
Proof.
  revert kept. induction segs as [|seg segs IH]; intros kept H; [now exists []|].
  inversion H as [|? ? Hseg Hsegs]; subst. simpl.
  destruct Hseg as [-> | Hplain].
  - now apply IH.
  - rewrite pushSegment_plain by assumption.
    destruct (IH (seg :: kept) Hsegs) as [more ->].
    exists (more ++ [seg])%list. now rewrite <- app_assoc.
Qed.

Lemma plain_no_trailing_separator (segs : list string) :
  segs <> [] -> Forall plain segs -> endsWithChar "/" (String.concat "/" segs) = false.
Proof.
  assert (Hseg : forall s, noSep s = true -> endsWithChar "/" s = false).
  { unfold noSep. induction s as [|c s IH]; [reflexivity|]. simpl.
    intros H. apply andb_true_iff in H as [Hc Hs]. apply negb_true_iff in Hc.
    destruct s; [exact Hc | now apply IH]. }
  induction segs as [|a segs IH]; [congruence|]. intros _ H.
  inversion H as [|? ? Ha Hsegs]; subst.
  destruct segs as [|b segs].
  - simpl. apply Hseg, Ha.
  - change (String.concat "/" (a :: b :: segs))
      with (a ++ String "/" (String.concat "/" (b :: segs))).
    rewrite endsWithChar_append_nonempty by discriminate.
    assert (Hrest : endsWithChar "/" (String.concat "/" (b :: segs)) = false)
      by (apply IH; [discriminate | assumption]).
    cbn [endsWithChar].
    destruct (String.concat "/" (b :: segs)) eqn:E; [|exact Hrest].
    exfalso. apply (concat_plain_nonempty (b :: segs)); [discriminate | assumption | exact E].
Qed.

(** The segments of a normalized absolute path, as [split] finds them. *)
Lemma split_normalize (x : string) :
  isAbsolute x = true ->
  Forall (fun s => s = "" \/ plain s) (split (normalize x)).
Proof.
  intros Habs. rewrite (normalize_absolute _ Habs).
  pose proof (keptSegments_plain x) as Hplain.
  destruct (keptSegments false x) as [|seg kept] eqn:Ek.
  - repeat constructor; now left.
  - assert (Hrev : rev (seg :: kept) <> [])
      by (simpl; intros E; now apply app_eq_nil in E as [_ E]).
    remember (seg :: kept) as st eqn:Est. clear Est.
    assert (Hsplit : split (String.concat "/" (rev st)) = rev st).
    { apply split_concat; [exact Hrev|]. apply Forall_rev.
      eapply Forall_impl; [|exact Hplain]. now intros a (Ha & _). }
    change ("/" ++ String.concat "/" (rev st) ++ (if endsWithChar "/" x then "/" else ""))
      with ("" ++ String "/" (String.concat "/" (rev st)
                                ++ (if endsWithChar "/" x then "/" else ""))).
    rewrite split_append_sep. simpl split at 1.
    assert (Hst : Forall (fun s => s = "" \/ plain s) (rev st)).
    { apply Forall_rev. eapply Forall_impl; [|exact Hplain]. intros a Ha. now right. }
    constructor; [now left|].
    destruct (endsWithChar "/" x).
    + change (String.concat "/" (rev st) ++ "/")
        with (String.concat "/" (rev st) ++ String "/" "").
      rewrite split_append_sep, Hsplit. apply Forall_app. split; [exact Hst|].
      repeat constructor.
    + now rewrite append_empty_r, Hsplit.
Qed.

(** The root after start-up, for an absolute configured root. *)
Lemma root_shape (r : string) :
  isAbsolute r = true ->
  let kept := keptSegments false (join r "/") in
  Forall plain kept /\
  isAbsolute (join r "/") = true /\
  join r "/" = match kept with
               | [] => "/"
               | _ :: _ => "/" ++ String.concat "/" (rev kept) ++ "/"
               end.
Proof.
  intros Habs. destruct (isAbsolute_cons _ Habs) as [r' ->].
  assert (Ejoin : join (String "/" r') "/" = normalize (String "/" r' ++ "/" ++ "/"))
    by reflexivity.
  assert (Habs' : isAbsolute (String "/" r' ++ "/" ++ "/") = true) by reflexivity.
  cbv zeta. rewrite Ejoin.
  rewrite (keptSegments_normalize _ Habs').
  split; [apply keptSegments_plain|]. split; [now apply normalize_isAbsolute|].
  rewrite (normalize_absolute _ Habs').
  replace (endsWithChar "/" (String "/" r' ++ "/" ++ "/")) with true.
  - now destruct (keptSegments false (String "/" r' ++ "/" ++ "/")).
  - symmetry. change (String "/" r' ++ "/" ++ "/")
      with (String "/" r' ++ String "/" (String "/" "")).
    now rewrite endsWithChar_append_nonempty by discriminate.
Qed.

(** What [path.join(root, '/' + segments)] is for plain segments. *)
Lemma join_plain (r : string) (segs : list string) :
  isAbsolute r = true -> Forall plain segs ->
  join (join r "/") ("/" ++ String.concat "/" segs)
  = join r "/" ++ String.concat "/" segs.
Proof.
  intros Habs Hsegs.
  destruct (root_shape r Habs) as (Hplain & Hrabs & Hshape). cbv zeta in *.
  set (rootDir := join r "/") in *.
  set (P := String.concat "/" segs).
  destruct (isAbsolute_cons _ Hrabs) as [d Hd].
  assert (Ejoin : join rootDir ("/" ++ P) = normalize (rootDir ++ String "/" (String "/" P)))
    by (rewrite Hd; reflexivity).
  assert (Hxabs : isAbsolute (rootDir ++ String "/" (String "/" P)) = true)
    by (rewrite Hd; reflexivity).
  assert (Hidem : fold_left (pushSegment false) (split rootDir) []
                  = keptSegments false rootDir) by reflexivity.
  assert (Hkept : keptSegments false (rootDir ++ String "/" (String "/" P))
                  = fold_left (pushSegment false) (split P) (keptSegments false rootDir)).
  { unfold keptSegments at 1. rewrite split_append_sep. cbn [split].
    replace (Ascii.eqb "/" "/") with true by reflexivity.
    now rewrite fold_left_app, Hidem. }
  rewrite Ejoin, (normalize_absolute _ Hxabs), Hkept.
  destruct segs as [|seg segs].
  - subst P. cbn [String.concat split fold_left].
    change (pushSegment false (keptSegments false rootDir) "")
      with (keptSegments false rootDir).
    rewrite append_empty_r.
    change (rootDir ++ String "/" (String "/" ""))
      with (rootDir ++ String "/" "/").
    rewrite endsWithChar_append_nonempty by discriminate. cbn [endsWithChar].
    symmetry. etransitivity; [exact Hshape|].
    now destruct (keptSegments false rootDir).
  - assert (Hne : seg :: segs <> []) by discriminate.
    assert (HP : split P = seg :: segs).
    { apply split_concat; [exact Hne|].
      eapply Forall_impl; [|exact Hsegs]. now intros a (Ha & _). }
    assert (HPne : P <> "") by (now apply concat_plain_nonempty).
    rewrite HP, fold_push_plain by assumption.
    replace (endsWithChar "/" (rootDir ++ String "/" (String "/" P))) with false.
    2:{ symmetry. rewrite endsWithChar_append_nonempty by discriminate.
        change (String "/" (String "/" P)) with ("//" ++ P).
        rewrite endsWithChar_append_nonempty by assumption.
        now apply plain_no_trailing_separator. }
    remember (keptSegments false rootDir) as K eqn:EK.
    remember (rev (seg :: segs) ++ K)%list as all eqn:Eall.
    destruct all as [|s l].
    { exfalso. symmetry in Eall. apply app_eq_nil in Eall as [E _].
      simpl in E. now apply app_eq_nil in E as [_ E]. }
    rewrite append_empty_r, Eall, rev_app_distr, rev_involutive.
    rewrite Hshape. destruct K as [|k kept].
    + reflexivity.
    + rewrite concat_app;
        [| simpl; intros F; now apply app_eq_nil in F as [_ F] | exact Hne].
      fold P. cbn [append]. now rewrite !append_assoc.
Qed.

(** The index file looked up below a normalized absolute path. *)
Lemma join_index_path (x : string) :
  isAbsolute x = true ->
  join (normalize x) "index.html"
  = "/" ++ String.concat "/" (rev ("index.html" :: keptSegments false x)).
Proof.
  intros Habs.
  pose proof (normalize_isAbsolute _ Habs) as Hfabs.
  destruct (isAbsolute_cons _ Hfabs) as [f' Hf].
  unfold join.
  replace (String.eqb (normalize x) "") with false by (rewrite Hf; reflexivity).
  simpl String.eqb.
  assert (Habs' : isAbsolute (normalize x ++ "/" ++ "index.html") = true)
    by (rewrite Hf; reflexivity).
  rewrite (normalize_absolute _ Habs').
  assert (Hkept : keptSegments false (normalize x ++ "/" ++ "index.html")
                  = "index.html" :: keptSegments false x).
  { unfold keptSegments at 1.
    change (normalize x ++ "/" ++ "index.html")
      with (normalize x ++ String "/" "index.html").
    rewrite split_append_sep, fold_left_app.
    fold (keptSegments false (normalize x)).
    now rewrite (keptSegments_normalize _ Habs). }
  rewrite Hkept, endsWithChar_append_nonempty by discriminate.
  simpl endsWithChar. now rewrite append_empty_r.
Qed.

End JoinFacts.

(** ** Decoding and the wildcard routes *)

Module UriFacts.

(** A string without a percent sign decodes (to itself). *)
Lemma decodeFrom_plain (lo hi : nat) (s : string) :
  occurs "%" s = false -> Uri.decodeFrom (Uri.Plain 0 lo hi) s = true.
Proof.
  induction s as [|a s IH]; [reflexivity|]. cbn [occurs Uri.decodeFrom Uri.step].
  intros H. apply orb_false_iff in H as [Ha Hs]. rewrite Ha. cbn. now apply IH.
Qed.

(** A start without a percent sign makes no difference. *)
Lemma decodeFrom_skip (lo hi : nat) (w s : string) :
  occurs "%" w = false ->
  Uri.decodeFrom (Uri.Plain 0 lo hi) (w ++ s) = Uri.decodeFrom (Uri.Plain 0 lo hi) s.
Proof.
  induction w as [|a w IH]; [reflexivity|]. cbn [occurs append Uri.decodeFrom Uri.step].
  intros H. apply orb_false_iff in H as [Ha Hw]. rewrite Ha. cbn. now apply IH.
Qed.

Lemma decodable_plain (s : string) : occurs "%" s = false -> Uri.decodable s = true.
Proof. apply decodeFrom_plain. Qed.

Lemma decodable_skip (w s : string) :
  occurs "%" w = false -> Uri.decodable (w ++ s) = Uri.decodable s.
Proof. apply decodeFrom_skip. Qed.

End UriFacts.

Module RouteFacts.
Import Regex StringFacts RegexFacts PatternFacts UriFacts.

Lemma length_toUpperCase (s : string) :
  String.length (toUpperCase s) = String.length s.
Proof. induction s as [|a s IH]; simpl; [reflexivity | now rewrite IH]. Qed.

Lemma take_substringFrom (n : nat) (s : string) : take n s ++ substringFrom n s = s.
Proof.
  revert s. induction n as [|n IH]; intros s; [reflexivity|].
  destruct s as [|a s]; [reflexivity|]. simpl. now rewrite IH.
Qed.

Lemma length_take (n : nat) (s : string) :
  String.length (take n s) = Nat.min n (String.length s).
Proof.
  revert s. induction n as [|n IH]; intros s; [reflexivity|].
  destruct s as [|a s]; [reflexivity|]. simpl. now rewrite IH.
Qed.

(** [p] begins with [prefix], letter case aside: [p] is a spelling of
    [prefix] followed by the rest. *)
Lemma beginsWith_split (prefix p : string) :
  beginsWith prefix p = true <->
  exists w rest, p = w ++ rest /\ toUpperCase w = toUpperCase prefix.
Proof.
  unfold beginsWith. rewrite String.eqb_eq. split.
  - intros H. exists (take (String.length prefix) p),
      (substringFrom (String.length prefix) p).
    split; [symmetry; apply take_substringFrom | exact H].
  - intros (w & rest & -> & Hw).
    assert (Hlen : String.length prefix = String.length w).
    { rewrite <- (length_toUpperCase prefix), <- Hw. apply length_toUpperCase. }
    now rewrite Hlen, take_append.
Qed.

Lemma beginsWith_rest (prefix w rest : string) :
  toUpperCase w = toUpperCase prefix ->
  substringFrom (String.length prefix) (w ++ rest) = rest.
Proof.
  intros Hw.
  assert (Hlen : String.length prefix = String.length w).
  { rewrite <- (length_toUpperCase prefix), <- Hw. apply length_toUpperCase. }
  rewrite Hlen. apply substringFrom_append.
Qed.

(** What the pattern of a wildcard route matches, and what its group
    captures: everything after the literal text. *)
Lemma exec_routeRe (prefix p : string) :
  Regex.exec true (routeRe prefix) p
  = if underRoute prefix p
    then Some (Some (substringFrom (String.length prefix) p))
    else None.
Proof.
  unfold routeRe. rewrite exec_Bol.
  destruct (underRoute prefix p) eqn:Eunder.
  - unfold underRoute in Eunder. apply andb_true_iff in Eunder as [Hb Hrest].
    apply beginsWith_split in Hb as (w & rest & -> & Hw).
    rewrite (beginsWith_rest _ _ _ Hw) in Hrest |- *.
    rewrite run_Lit_match by assumption. cbn [run].
    destruct rest as [|a rest].
    + cbn. reflexivity.
    + assert (Hk :
        plusLoop notLineTerminator
          (fun s' =>
             run true (w ++ String a rest) (Seq (Opt (Chr "/")) Eol) s'
               (Some (take (String.length (String a rest) - String.length s')
                        (String a rest)))
               (fun _ cap => Some cap))
          (String a rest ++ "") = Some (Some (String a rest))).
      { apply plusLoop_longest; [discriminate | assumption | discriminate|].
        rewrite run_tail. cbn [String.eqb orb].
        rewrite Nat.sub_0_r.
        replace (String.length (String a rest)) with (String.length (String a rest) + 0)
          by lia.
        rewrite <- (append_empty_r (String a rest)) at 2.
        now rewrite Nat.add_0_r, take_append. }
      rewrite append_empty_r in Hk. cbn [run] in Hk. now rewrite Hk.
  - destruct (run true p _ p None _) as [x|] eqn:E; [|reflexivity].
    exfalso. apply run_Lit_some in E as (w & s & -> & Hw & Hrun).
    assert (Htail : forall s' cap,
      run true (w ++ s) (Seq (Opt (Chr "/")) Eol) s' cap (fun _ c => Some c) <> None ->
      allChars notLineTerminator s' = true).
    { intros s' cap. rewrite run_tail.
      destruct (String.eqb_spec s' "") as [->|_]; [reflexivity|].
      destruct (String.eqb_spec s' "/") as [->|_]; [reflexivity | simpl; congruence]. }
    assert (Hrest : allChars notLineTerminator s = true).
    { cbn [run] in Hrun.
      match type of Hrun with
      | match ?m with _ => _ end = _ => destruct m as [y|] eqn:Ep
      end.
      - apply plusLoop_some in Ep as (ds & rest & -> & _ & Hds & Hk).
        rewrite allChars_append, Hds. eapply Htail. cbn [run]. rewrite Hk. discriminate.
      - eapply Htail. cbn [run]. rewrite Hrun. discriminate. }
    unfold underRoute in Eunder.
    rewrite (beginsWith_rest _ _ _ Hw), Hrest, andb_true_r in Eunder.
    assert (Hb : beginsWith prefix (w ++ s) = true)
      by (apply beginsWith_split; now exists w, s).
    congruence.
Qed.

(** Folding to upper case neither makes nor removes a percent sign or a
    line terminator. *)
Lemma canonicalize_percent (a : ascii) :
  Ascii.eqb (canonicalize a) "%" = Ascii.eqb a "%".
Proof.
  destruct a as [b0 b1 b2 b3 b4 b5 b6 b7].
  destruct b0, b1, b2, b3, b4, b5, b6, b7; reflexivity.
Qed.

Lemma canonicalize_notLineTerminator (a : ascii) :
  notLineTerminator (canonicalize a) = notLineTerminator a.
Proof.
  destruct a as [b0 b1 b2 b3 b4 b5 b6 b7].
  destruct b0, b1, b2, b3, b4, b5, b6, b7; reflexivity.
Qed.

Lemma occurs_toUpperCase (s : string) :
  occurs "%" (toUpperCase s) = occurs "%" s.
Proof.
  induction s as [|a s IH]; [reflexivity|]. simpl.
  now rewrite canonicalize_percent, IH.
Qed.

Lemma allChars_toUpperCase (s : string) :
  allChars notLineTerminator (toUpperCase s) = allChars notLineTerminator s.
Proof.
  induction s as [|a s IH]; [reflexivity|]. simpl.
  now rewrite canonicalize_notLineTerminator, IH.
Qed.

Lemma literal_routes :
  literal "/" /\ literal "/js/" /\ literal "/static/assets/"
  /\ literal "/static/blocks-media/".
Proof. repeat split. Qed.

(** Under a route, the wildcard decodes exactly when the whole path does. *)
Lemma underRoute_decodable (prefix p : string) :
  literal prefix -> underRoute prefix p = true ->
  Uri.decodable (substringFrom (String.length prefix) p) = Uri.decodable p.
Proof.
  intros (Hpct & _ & _) Hunder. unfold underRoute in Hunder.
  apply andb_true_iff in Hunder as [Hb _].
  apply beginsWith_split in Hb as (w & rest & -> & Hw).
  rewrite (beginsWith_rest _ _ _ Hw). symmetry. apply decodable_skip.
  now rewrite <- occurs_toUpperCase, Hw, occurs_toUpperCase.
Qed.

(** The router at the layer of a route. *)
Lemma matchLayer_spec (prefix p : string) :
  literal prefix ->
  matchLayer prefix p
  = if underRoute prefix p
    then if Uri.decodable p then Matched else MatchError
    else NoMatch.
Proof.
  intros Hlit. unfold matchLayer. rewrite exec_routeRe.
  destruct (underRoute prefix p) eqn:E; [|reflexivity].
  now rewrite (underRoute_decodable prefix p Hlit E).
Qed.

Lemma toUpperCase_slash (w : string) (prefix : string) :
  startsWith "/" prefix = true -> toUpperCase w = toUpperCase prefix ->
  startsWith "/" w = true.
Proof.
  intros Hp Hw. destruct prefix as [|c prefix]; [discriminate|].
  cbn [startsWith] in Hp. apply andb_true_iff in Hp as [Hc _].
  apply Ascii.eqb_eq in Hc. subst c.
  destruct w as [|a w]; [discriminate|]. cbn [toUpperCase] in Hw. injection Hw as Ha _.
  cbn [startsWith]. rewrite andb_true_r, <- (sameChar_slash true a).
  unfold sameChar. rewrite Ha. apply Ascii.eqb_refl.
Qed.

(** The pattern of [/*]: a slash first and no line terminator. *)
Lemma underRoute_root (p : string) :
  underRoute "/" p = startsWith "/" p && allChars notLineTerminator p.
Proof.
  unfold underRoute, beginsWith. destruct p as [|a p]; [reflexivity|].
  cbn [String.length take substringFrom toUpperCase startsWith allChars].
  pose proof (sameChar_slash true a) as Hs. unfold sameChar in Hs.
  destruct (Ascii.eqb_spec "/"%char a) as [<-|Hne]; [reflexivity|].
  cbn [andb].
  replace (String.eqb (String (canonicalize a) "") (String (canonicalize "/") ""))
    with false; [reflexivity|].
  symmetry. apply String.eqb_neq. intros [= E].
  rewrite E, Ascii.eqb_refl in Hs. discriminate Hs.
Qed.

(** A path under a route is under [/*]. *)
Lemma underRoute_weaken (prefix p : string) :
  literal prefix -> underRoute prefix p = true -> underRoute "/" p = true.
Proof.
  intros (_ & Hnlt & Hslash) Hunder. rewrite underRoute_root.
  unfold underRoute in Hunder. apply andb_true_iff in Hunder as [Hb Hrest].
  apply beginsWith_split in Hb as (w & rest & -> & Hw).
  rewrite (beginsWith_rest _ _ _ Hw) in Hrest.
  pose proof (toUpperCase_slash w prefix Hslash Hw) as Hw1.
  destruct (startsWith_split _ _ Hw1) as [w' ->].
  rewrite allChars_append, Hrest, andb_true_r.
  rewrite <- allChars_toUpperCase, Hw, allChars_toUpperCase, Hnlt. reflexivity.
Qed.

(** What the three cache routes leave, and the router at the main route. *)
Lemma route_chain (req : Request) :
  routeRes req = match cachePolicy req with
                 | Some policy => header "Cache-Control" policy newRes
                 | None => newRes
                 end /\
  routeLayer "/" req (routeError req)
  = if undecodable (path req) then Skip (Some URIError)
    else if handled "/" req then Handle else Skip None.
Proof.
  destruct literal_routes as (L0 & L1 & L2 & L3).
  pose proof (underRoute_weaken _ (path req) L1) as W1.
  pose proof (underRoute_weaken _ (path req) L2) as W2.
  pose proof (underRoute_weaken _ (path req) L3) as W3.
  unfold routeRes, routeError, cachePolicy, handled, undecodable, cacheMiddlewares,
    cacheRoute, routeLayer.
  cbn [fst snd].
  rewrite !matchLayer_spec by assumption.
  destruct (underRoute "/js/" (path req));
    destruct (underRoute "/static/assets/" (path req));
    destruct (underRoute "/static/blocks-media/" (path req));
    destruct (underRoute "/" (path req));
    try (discriminate (W1 eq_refl)); try (discriminate (W2 eq_refl));
    try (discriminate (W3 eq_refl));
    destruct (Uri.decodable (path req)); destruct (method req);
    cbn; split; reflexivity.
Qed.

Lemma routeRes_policy (req : Request) :
  routeRes req = match cachePolicy req with
                 | Some policy => header "Cache-Control" policy newRes
                 | None => newRes
                 end.
Proof. apply route_chain. Qed.

Lemma routeLayer_main (req : Request) :
  routeLayer "/" req (routeError req)
  = if undecodable (path req) then Skip (Some URIError)
    else if handled "/" req then Handle else Skip None.
Proof. apply route_chain. Qed.

(** A path of filter characters has neither escapes nor line terminators. *)
Lemma pathChar_plain (c : ascii) :
  pathChar c = true -> Ascii.eqb c "%" = false /\ notLineTerminator c = true.
Proof.
  destruct c as [b0 b1 b2 b3 b4 b5 b6 b7].
  destruct b0, b1, b2, b3, b4, b5, b6, b7; intros H;
    (discriminate H || (split; reflexivity)).
Qed.

Lemma pathChars_plain (p : string) :
  allChars pathChar p = true ->
  occurs "%" p = false /\ allChars notLineTerminator p = true.
Proof.
  induction p as [|a p IH]; [now split|]. simpl.
  intros H. apply andb_true_iff in H as [Ha Hp].
  destruct (pathChar_plain a Ha) as [-> ->]. now apply IH.
Qed.

End RouteFacts.
(** ** Filesystem calls stay below the root *)

Module ConfinementFacts.
Import JsString StringFacts PathFacts.

Section Confinement.
Variable typesTable : string -> option FileTypeEntry.
Variable world : World.
Variable P : FsCall -> Prop.

Lemma confined_ret {A} (a : A) (Q : A -> Prop) : Q a -> confined P (ret a) Q.
Proof. intros Ha log Hlog. split; [exact Hlog|]. now intros b [= <-]. Qed.

Lemma confined_throw {A} (e : Error) (Q : A -> Prop) : confined P (throw e) Q.
Proof. intros log Hlog. split; [exact Hlog|]. discriminate. Qed.

Lemma confined_bind {A B} (m : Async A) (f : A -> Async B)
  (Q : A -> Prop) (R : B -> Prop) :
  confined P m Q -> (forall a, Q a -> confined P (f a) R) ->
  confined P (bind m f) R.
Proof.
  intros Hm Hf log Hlog. destruct (Hm log Hlog) as [Hlog' Hq].
  unfold bind. destruct (m log) as [[a|e] log']; simpl in *.
  - apply (Hf a); auto.
  - split; [assumption | discriminate].
Qed.

Lemma confined_tryCatch {A} (m : Async A) (h : Error -> Async A) (Q : A -> Prop) :
  confined P m Q -> (forall e, confined P (h e) Q) ->
  confined P (tryCatch m h) Q.
Proof.
  intros Hm Hh log Hlog. destruct (Hm log Hlog) as [Hlog' Hq].
  unfold tryCatch. destruct (m log) as [[a|e] log']; simpl in *.
  - split; [assumption|]. intros b [= <-]. now apply Hq.
  - now apply Hh.
Qed.

Lemma confined_statFile (p : string) :
  P (StatCall p) -> confined P (statFile world p) (fun _ => True).
Proof.
  intros Hp log Hlog. unfold statFile. simpl. split; [|trivial].
  apply Forall_app. split; [assumption | now constructor].
Qed.

Lemma confined_readFile (p : string) :
  P (ReadCall p) -> confined P (readFile world p) (fun _ => True).
Proof.
  intros Hp log Hlog. unfold readFile. simpl. split; [|trivial].
  apply Forall_app. split; [assumption | now constructor].
Qed.

End Confinement.

Section Below.
Variable typesTable : string -> option FileTypeEntry.
Variable world : World.
Variable ok : string -> Prop.
Hypothesis ok_append : forall base suffix, ok base -> ok (base ++ suffix).

Lemma confined_findFile (file : string) :
  ok file -> ok (NodePath.join file "index.html") ->
  confined (onPath ok) (findFile world file)
    (fun found => forall f, found = Some f -> ok (filePath f)).
Proof.
  intros Hfile Hindex. unfold findFile.
  apply confined_tryCatch; [|intros e; now apply confined_ret].
  eapply confined_bind; [now apply confined_statFile|].
  intros stat _. destruct (isDirectory stat).
  - eapply confined_bind; [now apply confined_statFile|].
    intros indexStat _. destruct (isFile indexStat);
      apply confined_ret; [|discriminate].
    now intros f [= <-].
  - destruct (isFile stat); apply confined_ret; [|discriminate].
    now intros f [= <-].
Qed.

Lemma confined_chooseEncoding (accepted : list string) (encs : list Encoding)
  (basePath : string) :
  ok basePath ->
  confined (onPath ok) (chooseEncoding world accepted encs basePath)
    (fun best => forall b, best = Some b -> ok (encodedPath b)).
Proof.
  intros Hbase.
  induction encs as [|e encs IH]; cbn [chooseEncoding].
  - now apply confined_ret.
  - destruct (negb (includes (name e) accepted)); [exact IH|].
    eapply confined_bind
      with (Q := fun best => forall b, best = Some b -> ok (encodedPath b)).
    + apply confined_tryCatch; [|intros err; now apply confined_ret].
      eapply confined_bind;
        [apply confined_statFile; unfold onPath; simpl; now apply ok_append|].
      intros st _. destruct (isFile st); apply confined_ret; [|discriminate].
      intros b [= <-]. simpl. now apply ok_append.
    + intros [b|] Hb; [now apply confined_ret | exact IH].
Qed.

Lemma confined_fileHandler (req : Request) (rq : Resolved) (res : Res) :
  (forall candidate,
     safeJoin (reqRoot rq) (pathName req rq) = Some candidate ->
     ok candidate /\ ok (NodePath.join candidate "index.html")) ->
  confined (onPath ok) (fileHandler typesTable world req rq res) (fun _ => True).
Proof.
  intros Hcand. unfold fileHandler. cbv zeta.
  destruct (Regex.test false Patterns.forbiddenRe _); [now apply confined_ret|].
  destruct (safeJoin (reqRoot rq) _) as [candidate|] eqn:Ejoin;
    [|now apply confined_ret].
  destruct (Hcand candidate eq_refl) as [Hok Hindex].
  eapply confined_bind; [now apply confined_findFile|].
  intros [file|] Hfile; [|apply confined_throw].
  specialize (Hfile file eq_refl).
  destruct (String.eqb (filePath file) ""); [now apply confined_ret|].
  destruct (getFileType typesTable (filePath file)) as [ft|];
    [|now apply confined_ret].
  eapply confined_bind
    with (Q := fun best => forall b, best = Some b -> ok (encodedPath b)).
  - destruct (Nat.ltb 0 (List.length (encodings ft)));
      [now apply confined_chooseEncoding | apply confined_ret; discriminate].
  - intros best Hbest.
    destruct best as [b|].
    + eapply confined_bind with (Q := fun _ => True).
      * apply confined_tryCatch; [|intros e; now apply confined_ret].
        eapply confined_bind; [apply confined_readFile; now apply Hbest|].
        intros contents _. now apply confined_ret.
      * intros [contents|] _; now apply confined_ret.
    + eapply confined_bind with (Q := fun _ => True).
      * apply confined_tryCatch; [|intros e; now apply confined_ret].
        eapply confined_bind; [now apply confined_readFile|].
        intros contents _. now apply confined_ret.
      * intros [contents|] _; now apply confined_ret.
Qed.

(** The calls of a whole request. *)
Lemma confined_app (hostsTable : string -> option Host) (req : Request) :
  (forall host candidate,
     hosts hostsTable (hostname req) = Some host ->
     safeJoin (root host)
       (pathName req {| logicalPath := mapLogicalPath (branches host) (path req);
                        reqRoot := root host |}) = Some candidate ->
     ok candidate /\ ok (NodePath.join candidate "index.html")) ->
  Forall (onPath ok) (snd (app hostsTable typesTable world req)).
Proof.
  intros Hcand. unfold app, hostMiddleware.
  destruct (hosts hostsTable (hostname req)) as [host|] eqn:Ehost; [|constructor].
  cbv zeta.
  destruct (routeLayer "/" req _) as [|[err|]]; [|constructor|constructor].
  pose proof (confined_fileHandler req
                {| logicalPath := mapLogicalPath (branches host) (path req);
                   reqRoot := root host |}
                (fst (cacheMiddlewares req newRes))
                (fun candidate => Hcand host candidate eq_refl)
                [] (Forall_nil _)) as [Hlog _].
  destruct (fileHandler _ _ _ _ _ []) as [[[response|]|err] log]; exact Hlog.
Qed.

End Below.

Lemma safeJoin_some (root file candidate : string) :
  safeJoin root file = Some candidate ->
  candidate = NodePath.join root file /\ startsWith root candidate = true.
Proof.
  unfold safeJoin. destruct (startsWith root (NodePath.join root file)) eqn:E;
    simpl; [|discriminate].
  intros [= <-]. auto.
Qed.

(** With a relative root, the candidate and its index file are relative. *)
Lemma candidate_relative (rootDir file candidate : string) :
  NodePath.relative rootDir ->
  safeJoin rootDir file = Some candidate ->
  NodePath.relative candidate /\
  NodePath.relative (NodePath.join candidate "index.html").
Proof.
  intros Hrel Hjoin. apply safeJoin_some in Hjoin as [-> _].
  pose proof (join_relative rootDir file Hrel) as Hcand.
  split; [exact Hcand | now apply join_relative].
Qed.

(** Below an absolute root, the candidate and its index file. *)
Lemma candidate_below (rootDir file candidate : string) :
  NodePath.isAbsolute rootDir = true ->
  safeJoin rootDir file = Some candidate ->
  startsWith rootDir candidate = true /\
  startsWith rootDir (NodePath.join candidate "index.html") = true.
Proof.
  intros Habs Hjoin. apply safeJoin_some in Hjoin as [Ecand Hcand].
  split; [exact Hcand|].
  destruct (join_absolute rootDir file Habs) as (x & Hx & Ex).
  apply startsWith_trans with candidate; [exact Hcand|].
  rewrite Ecand, Ex. now apply join_index_extends.
Qed.

End ConfinementFacts.

(** ** Responses of the server *)

Module ServerFacts.
Import JsString StringFacts RouteFacts.

Lemma getHeader_setHeader_same (n : string) (v : HeaderValue) (hs : Headers) :
  getHeader n (setHeader n v hs) = Some v.
Proof.
  induction hs as [|[m w] hs IH]; simpl.
  - now rewrite String.eqb_refl.
  - destruct (String.eqb m n) eqn:E; simpl; now rewrite E.
Qed.

Lemma getHeader_setHeader_other (n m : string) (v : HeaderValue) (hs : Headers) :
  n <> m -> getHeader n (setHeader m v hs) = getHeader n hs.
Proof.
  intros Hnm. induction hs as [|[k w] hs IH]; simpl.
  - apply not_eq_sym in Hnm. apply String.eqb_neq in Hnm. now rewrite Hnm.
  - destruct (String.eqb_spec k m) as [->|Hkm]; simpl.
    + apply not_eq_sym in Hnm. apply String.eqb_neq in Hnm. now rewrite Hnm.
    + now rewrite IH.
Qed.

Lemma getHeader_header_same (n : string) (v : HeaderValue) (res : Res) :
  getHeader n (headers (header n v res)) = Some v.
Proof. apply getHeader_setHeader_same. Qed.

Lemma getHeader_header_other (n m : string) (v : HeaderValue) (res : Res) :
  n <> m -> getHeader n (headers (header m v res)) = getHeader n (headers res).
Proof. apply getHeader_setHeader_other. Qed.

Lemma statusCode_header (n : string) (v : HeaderValue) (res : Res) :
  statusCode (header n v res) = statusCode res.
Proof. reflexivity. Qed.

Lemma getHeader_dropHeader_same (n : string) (hs : Headers) :
  getHeader n (dropHeader n hs) = None.
Proof.
  induction hs as [|[m w] hs IH]; [reflexivity|]. simpl.
  destruct (String.eqb m n) eqn:E; [exact IH|]. simpl. now rewrite E.
Qed.

Lemma getHeader_dropHeader_other (n m : string) (hs : Headers) :
  n <> m -> getHeader n (dropHeader m hs) = getHeader n hs.
Proof.
  intros Hnm. induction hs as [|[k w] hs IH]; [reflexivity|]. simpl.
  destruct (String.eqb_spec k m) as [->|Hkm]; simpl.
  - apply not_eq_sym in Hnm. apply String.eqb_neq in Hnm. now rewrite Hnm.
  - now rewrite IH.
Qed.

Lemma getHeader_removeHeader_same (n : string) (res : Res) :
  getHeader n (headers (removeHeader n res)) = None.
Proof. apply getHeader_dropHeader_same. Qed.

Lemma getHeader_removeHeader_other (n m : string) (res : Res) :
  n <> m -> getHeader n (headers (removeHeader m res)) = getHeader n (headers res).
Proof. apply getHeader_dropHeader_other. Qed.

(** The response object that reaches the main route: status 200 and at most
    a [Cache-Control] header. *)
Lemma routeRes_status (req : Request) : statusCode (routeRes req) = 200.
Proof. rewrite routeRes_policy. now destruct (cachePolicy req). Qed.

Lemma routeRes_other (req : Request) (n : string) :
  n <> "Cache-Control" -> getHeader n (headers (routeRes req)) = None.
Proof.
  intros Hn. rewrite routeRes_policy. destruct (cachePolicy req); [|reflexivity].
  now rewrite getHeader_header_other.
Qed.

Lemma routeRes_cache (req : Request) :
  getHeader "Cache-Control" (headers (routeRes req)) = cachePolicy req.
Proof.
  rewrite routeRes_policy. destruct (cachePolicy req); [|reflexivity].
  apply getHeader_header_same.
Qed.

Lemma contentType_plain (res : Res) :
  contentType "text/plain" res
  = header "Content-Type" (Text "text/plain; charset=utf-8") res.
Proof. reflexivity. Qed.

(** A plain-text message with an error status, as [res.send] completes it. *)
Lemma message_response (req : Request) (code : nat) (body : string) (res : Res) :
  code = 400 \/ code = 404 \/ code = 500 ->
  getHeader "ETag" (headers res) = None ->
  let resp := send req body (contentType "text/plain" (status code res)) in
  resStatus resp = code /\
  resBody resp = match method req with HEAD => "" | _ => body end /\
  getHeader "Content-Type" (resHeaders resp) = Some (Text "text/plain; charset=utf-8") /\
  getHeader "Content-Length" (resHeaders resp) = Some (Length (String.length body)) /\
  getHeader "ETag" (resHeaders resp) = Some (ETagOf body) /\
  (forall n, n <> "Content-Type" -> n <> "Content-Length" -> n <> "ETag" ->
             getHeader n (resHeaders resp) = getHeader n (headers res)).
Proof.
  intros Hcode Hetag. cbv zeta. rewrite contentType_plain.
  set (res0 := header "Content-Type" (Text "text/plain; charset=utf-8") (status code res)).
  assert (Hlacks : lacksContentType res0 = false)
    by (unfold lacksContentType, res0; now rewrite getHeader_header_same).
  unfold send. rewrite Hlacks. unfold endWith. cbv zeta.
  set (res1 := header "Content-Length" (Length (String.length body)) res0).
  assert (Hetag1 : getHeader "ETag" (headers res1) = None).
  { unfold res1, res0. now rewrite !getHeader_header_other by discriminate. }
  rewrite Hetag1.
  set (res2 := header "ETag" (ETagOf body) res1).
  assert (Hstatus : statusCode res2 = code) by reflexivity.
  assert (Hfresh : fresh req res2 = false).
  { unfold fresh. rewrite Hstatus.
    destruct Hcode as [-> | [-> | ->]]; now destruct (method req). }
  rewrite Hfresh.
  assert (Hbare : ((statusCode res2 =? 204) || (statusCode res2 =? 304))%nat = false)
    by (rewrite Hstatus; destruct Hcode as [-> | [-> | ->]]; reflexivity).
  rewrite Hbare. cbn [resStatus resBody resHeaders]. unfold res2, res1, res0.
  split; [reflexivity|]. split; [reflexivity|].
  split; [now rewrite !getHeader_header_other, getHeader_header_same by discriminate|].
  split; [now rewrite getHeader_header_other, getHeader_header_same by discriminate|].
  split; [apply getHeader_header_same|].
  intros n H1 H2 H3. now rewrite !getHeader_header_other by assumption.
Qed.

(** The header block of the main handler. *)
Lemma fileHeaders_other (ft : FileType) (m : Z) (enc : option string) (res : Res)
  (n : string) :
  n <> "Content-Type" -> n <> "Last-Modified" -> n <> "Content-Encoding" ->
  n <> "Vary" -> n <> "Cache-Control" ->
  getHeader n (headers (fileHeaders ft m enc res)) = getHeader n (headers res).
Proof.
  intros H1 H2 H3 H4 H5. unfold fileHeaders. cbv zeta.
  match goal with
  | |- getHeader n (headers match getHeader _ (headers ?r) with _ => _ end) = _ =>
      destruct (getHeader "Cache-Control" (headers r));
      [|rewrite getHeader_header_other by assumption]
  end;
    destruct (encodings ft) as [|e0 encs], enc as [e|];
    cbn [List.length Nat.ltb Nat.leb];
    now rewrite ?getHeader_header_other by assumption.
Qed.

Lemma fileHeaders_spec (ft : FileType) (m : Z) (enc : option string) (res : Res) :
  let res' := fileHeaders ft m enc res in
  statusCode res' = statusCode res /\
  getHeader "Content-Type" (headers res') = Some (Text (type ft)) /\
  getHeader "Last-Modified" (headers res') = Some (HttpDate m) /\
  getHeader "Content-Encoding" (headers res')
    = match enc with
      | Some e => Some (Text e)
      | None => getHeader "Content-Encoding" (headers res)
      end /\
  getHeader "Vary" (headers res')
    = match encodings ft with
      | [] => getHeader "Vary" (headers res)
      | _ :: _ => Some (Text "Accept-Encoding")
      end /\
  getHeader "Cache-Control" (headers res')
    = Some match getHeader "Cache-Control" (headers res) with
           | Some policy => policy
           | None => Text "no-cache"
           end.
Proof.
  cbv zeta. unfold fileHeaders. cbv zeta.
  assert (Hcc : forall r n, n <> "Cache-Control" ->
    getHeader n (headers match getHeader "Cache-Control" (headers r) with
                         | None => header "Cache-Control" (Text "no-cache") r
                         | Some _ => r
                         end) = getHeader n (headers r)).
  { intros r n Hn. destruct (getHeader "Cache-Control" (headers r));
      [reflexivity | now apply getHeader_header_other]. }
  assert (Hcc' : forall r,
    getHeader "Cache-Control"
      (headers match getHeader "Cache-Control" (headers r) with
               | None => header "Cache-Control" (Text "no-cache") r
               | Some _ => r
               end)
    = Some match getHeader "Cache-Control" (headers r) with
           | Some policy => policy
           | None => Text "no-cache"
           end).
  { intros r. destruct (getHeader "Cache-Control" (headers r)) eqn:E;
      [exact E | apply getHeader_header_same]. }
  assert (Hst : forall r,
    statusCode match getHeader "Cache-Control" (headers r) with
               | None => header "Cache-Control" (Text "no-cache") r
               | Some _ => r
               end = statusCode r)
    by (intros r; now destruct (getHeader "Cache-Control" (headers r))).
  rewrite Hst, Hcc', !Hcc by discriminate.
  destruct (encodings ft) as [|e0 encs], enc as [e|];
    cbn [List.length Nat.ltb Nat.leb];
    rewrite ?statusCode_header;
    repeat first [ rewrite getHeader_header_same
                 | rewrite getHeader_header_other by discriminate ];
    repeat split; reflexivity.
Qed.

(** A request is fresh for the file about to be sent. *)
Lemma fresh_file (req : Request) (res : Res) :
  statusCode res = 200 ->
  fresh req res
  = isGetOrHead (method req)
    && freshFor req (getHeader "ETag" (headers res))
         (getHeader "Last-Modified" (headers res)).
Proof. intros Hst. unfold fresh. rewrite Hst. now destruct (method req). Qed.

(** The file as [res.send] completes it: a fresh request gets 304 without
    entity headers and body, any other request 200. *)
Lemma file_response (req : Request) (contents t : string) (res : Res) :
  statusCode res = 200 ->
  getHeader "ETag" (headers res) = None ->
  getHeader "Content-Type" (headers res) = Some (Text t) ->
  let resp := sendBuffer req contents res in
  let isFresh := isGetOrHead (method req)
                 && freshFor req (Some (ETagOf contents))
                      (getHeader "Last-Modified" (headers res)) in
  resStatus resp = (if isFresh then 304 else 200) /\
  resBody resp = (if isFresh then ""
                  else match method req with HEAD => "" | _ => contents end) /\
  getHeader "Content-Type" (resHeaders resp)
    = (if isFresh then None
       else Some (Text (if String.eqb t "" then "application/octet-stream" else t))) /\
  getHeader "Content-Length" (resHeaders resp)
    = (if isFresh then None else Some (Length (String.length contents))) /\
  getHeader "ETag" (resHeaders resp) = Some (ETagOf contents) /\
  (forall n, n <> "Content-Type" -> n <> "Content-Length" -> n <> "ETag" ->
             n <> "Transfer-Encoding" ->
             getHeader n (resHeaders resp) = getHeader n (headers res)).
Proof.
  intros Hst Hetag Hct. cbv zeta. unfold sendBuffer, lacksContentType. rewrite Hct.
  set (res0 := if String.eqb t "" then contentType "application/octet-stream" res
               else res).
  assert (H0 : statusCode res0 = 200 /\
               getHeader "Content-Type" (headers res0)
               = Some (Text (if String.eqb t "" then "application/octet-stream" else t)) /\
               forall n, n <> "Content-Type" ->
                         getHeader n (headers res0) = getHeader n (headers res)).
  { unfold res0. destruct (String.eqb t "").
    - split; [exact Hst|]. split; [apply getHeader_header_same|].
      intros n Hn. unfold contentType. now rewrite getHeader_header_other.
    - auto. }
  destruct H0 as (Hst0 & Hct0 & Hother0). clearbody res0.
  unfold endWith. cbv zeta.
  set (res1 := header "Content-Length" (Length (String.length contents)) res0).
  assert (Hetag1 : getHeader "ETag" (headers res1) = None).
  { unfold res1. rewrite getHeader_header_other by discriminate.
    now rewrite Hother0 by discriminate. }
  rewrite Hetag1.
  set (res2 := header "ETag" (ETagOf contents) res1).
  assert (Hfresh : fresh req res2
                   = isGetOrHead (method req)
                     && freshFor req (Some (ETagOf contents))
                          (getHeader "Last-Modified" (headers res))).
  { rewrite fresh_file by exact Hst0. unfold res2, res1.
    rewrite getHeader_header_same, !getHeader_header_other by discriminate.
    now rewrite Hother0 by discriminate. }
  rewrite Hfresh.
  destruct (isGetOrHead (method req) && freshFor req _ _).
  - cbn [statusCode status Nat.eqb orb resStatus resBody resHeaders].
    split; [reflexivity|]. split; [now destruct (method req)|].
    split; [now rewrite !getHeader_removeHeader_other, getHeader_removeHeader_same
              by discriminate|].
    split; [now rewrite getHeader_removeHeader_other, getHeader_removeHeader_same
              by discriminate|].
    split.
    + rewrite !getHeader_removeHeader_other by discriminate.
      apply getHeader_header_same.
    + intros n H1 H2 H3 H4. rewrite !getHeader_removeHeader_other by assumption.
      cbn [headers status]. unfold res2, res1.
      rewrite !getHeader_header_other by assumption. now apply Hother0.
  - assert (Hbare : ((statusCode res2 =? 204) || (statusCode res2 =? 304))%nat = false)
      by (unfold res2, res1; rewrite !statusCode_header, Hst0; reflexivity).
    rewrite Hbare. cbn [resStatus resBody resHeaders]. unfold res2, res1.
    rewrite !statusCode_header.
    split; [exact Hst0|]. split; [reflexivity|].
    split; [now rewrite !getHeader_header_other by discriminate|].
    split; [now rewrite getHeader_header_other, getHeader_header_same by discriminate|].
    split; [apply getHeader_header_same|].
    intros n H1 H2 H3 _. rewrite !getHeader_header_other by assumption.
    now apply Hother0.
Qed.

Section App.
Variable hostsTable : string -> option Host.
Variable typesTable : string -> option FileTypeEntry.
Variable world : World.

(** With an empty list there is nothing to negotiate. *)
Lemma chooseEncoding_guard (accepted : list string) (encs : list Encoding)
  (basePath : string) :
  (if Nat.ltb 0 (List.length encs)
   then chooseEncoding world accepted encs basePath else ret None)
  = chooseEncoding world accepted encs basePath.
Proof. destruct encs; reflexivity. Qed.

(** Negotiation never throws. *)
Lemma chooseEncoding_returns (accepted : list string) (encs : list Encoding)
  (basePath : string) (log : list FsCall) :
  exists best log', chooseEncoding world accepted encs basePath log = (Ok best, log').
Proof.
  revert log. induction encs as [|e encs IH]; intros log; cbn [chooseEncoding].
  - now exists None, log.
  - destruct (negb (includes (name e) accepted)); [apply IH|].
    unfold bind, tryCatch, statFile, ret.
    destruct (world (List.length log) _) as [node|].
    + destruct (isFile (stats node)); [eauto | apply IH].
    + apply IH.
Qed.

(** A chosen variant is a configured one that the client accepts. *)
Lemma chooseEncoding_some (accepted : list string) (encs : list Encoding)
  (basePath : string) (log log' : list FsCall) (b : Encoded) :
  chooseEncoding world accepted encs basePath log = (Ok (Some b), log') ->
  exists e, In e encs /\ includes (name e) accepted = true
            /\ encodedName b = name e
            /\ encodedPath b = basePath ++ "." ++ extension e
            /\ isFile (encodedStat b) = true.
Proof.
  revert log. induction encs as [|e encs IH]; intros log; cbn [chooseEncoding].
  - discriminate.
  - destruct (includes (name e) accepted) eqn:Ea; cbn [negb].
    + unfold bind, tryCatch, statFile, ret.
      match goal with
      | |- context [world ?n ?p] => destruct (world n p) as [node|]
      end.
      * destruct (isFile (stats node)) eqn:Ef.
        -- intros [= <- _]. exists e. simpl. auto.
        -- intros H. destruct (IH _ H) as (e' & Hin & Hrest).
           exists e'. split; [now right | exact Hrest].
      * intros H. destruct (IH _ H) as (e' & Hin & Hrest).
        exists e'. split; [now right | exact Hrest].
    + intros H. destruct (IH _ H) as (e' & Hin & Hrest).
      exists e'. split; [now right | exact Hrest].
Qed.

(** What [fs.readFile] returned. *)
Lemma readFile_ok (p contents : string) (log log' : list FsCall) :
  readFile world p log = (Ok contents, log') ->
  log' = (log ++ [ReadCall p])%list /\
  exists node, world (List.length log) p = Some node /\ data node = Some contents.
Proof.
  unfold readFile. destruct (world (List.length log) p) as [node|]; [|discriminate].
  destruct (data node) as [d|] eqn:Ed; [|discriminate].
  intros [= <- <-]. split; [reflexivity|]. now exists node.
Qed.

(** The directory case of [findFile]: the index file is what is returned. *)
Lemma findFile_directory_index (candidate : string) (dnode inode : Node)
  (log : list FsCall) :
  world (List.length log) candidate = Some dnode ->
  isDirectory (stats dnode) = true ->
  world (S (List.length log)) (NodePath.join candidate "index.html") = Some inode ->
  isFile (stats inode) = true ->
  findFile world candidate log
  = (Ok (Some {| filePath := NodePath.join candidate "index.html";
                 fileStat := stats inode |}),
     (log ++ [StatCall candidate; StatCall (NodePath.join candidate "index.html")])%list).
Proof.
  intros Hd Hdir Hi Hfile. unfold findFile, tryCatch, bind, statFile, ret.
  rewrite Hd, Hdir, last_length, Hi, Hfile. now rewrite <- app_assoc.
Qed.

(** A directory whose index file is missing or is not a regular file. *)
Lemma findFile_directory_no_index (candidate : string) (dnode : Node)
  (log : list FsCall) :
  world (List.length log) candidate = Some dnode ->
  isDirectory (stats dnode) = true ->
  (world (S (List.length log)) (NodePath.join candidate "index.html") = None \/
   exists n, world (S (List.length log)) (NodePath.join candidate "index.html") = Some n
             /\ isFile (stats n) = false) ->
  findFile world candidate log
  = (Ok None,
     (log ++ [StatCall candidate; StatCall (NodePath.join candidate "index.html")])%list).
Proof.
  intros Hd Hdir Hi. unfold findFile, tryCatch, bind, statFile, ret.
  rewrite Hd, Hdir, last_length, <- app_assoc.
  destruct Hi as [-> | (n & -> & ->)]; reflexivity.
Qed.

(** A failing [stat] of the candidate. *)
Lemma findFile_missing (candidate : string) (log : list FsCall) :
  world (List.length log) candidate = None ->
  findFile world candidate log = (Ok None, (log ++ [StatCall candidate])%list).
Proof.
  intros Hd. unfold findFile, tryCatch, bind, statFile, ret. now rewrite Hd.
Qed.

(** A candidate that is a regular file. *)
Lemma findFile_regular (candidate : string) (node : Node) (log : list FsCall) :
  world (List.length log) candidate = Some node ->
  isFile (stats node) = true ->
  findFile world candidate log
  = (Ok (Some {| filePath := candidate; fileStat := stats node |}),
     (log ++ [StatCall candidate])%list).
Proof.
  intros Hd Hfile. unfold findFile, tryCatch, bind, statFile, ret. rewrite Hd.
  assert (Hdir : isDirectory (stats node) = false)
    by (unfold isFile, isDirectory in *; destruct (kind (stats node)); congruence).
  now rewrite Hdir, Hfile.
Qed.

(** A candidate that is neither a directory nor a regular file. *)
Lemma findFile_special (candidate : string) (node : Node) (log : list FsCall) :
  world (List.length log) candidate = Some node ->
  isFile (stats node) = false -> isDirectory (stats node) = false ->
  findFile world candidate log = (Ok None, (log ++ [StatCall candidate])%list).
Proof.
  intros Hd Hfile Hdir. unfold findFile, tryCatch, bind, statFile, ret.
  now rewrite Hd, Hdir, Hfile.
Qed.

End App.

(** On a disk that does not change, negotiation finds the first servable
    variant of the configured list. *)
Lemma chooseEncoding_stable (disk : Disk) (accepted : list string)
  (configured : list Encoding) (basePath : string) (log : list FsCall) :
  fst (chooseEncoding (fun _ => disk) accepted configured basePath log)
  = Ok match Spec.firstServable disk accepted basePath configured with
       | Some e => variantOf disk basePath e
       | None => None
       end.
Proof.
  revert log. unfold Spec.firstServable.
  induction configured as [|e es IH]; intros log; [reflexivity|].
  cbn [chooseEncoding find]. unfold Spec.servable at 1.
  destruct (includes (name e) accepted); cbn [negb andb]; [|apply IH].
  unfold bind, tryCatch, statFile, ret.
  destruct (disk (basePath ++ "." ++ extension e)) as [node|] eqn:Ed; [|apply IH].
  destruct (isFile (stats node)); [|apply IH].
  unfold variantOf. now rewrite Ed.
Qed.

End ServerFacts.
(** ** Every way through the pipeline *)

Module RunFacts.
Import JsString StringFacts PathFacts RouteFacts ServerFacts.

Lemma normalize_nonempty (x : string) : NodePath.normalize x <> "".
Proof.
  unfold NodePath.normalize.
  destruct (String.eqb x ""); [discriminate|].
  destruct (String.eqb_spec (NodePath.normalizeString x (negb (NodePath.isAbsolute x))) "")
    as [E|Hne].
  - destruct (NodePath.isAbsolute x); [discriminate|].
    destruct (endsWithChar "/" x); discriminate.
  - destruct (NodePath.isAbsolute x); [discriminate|].
    destruct (endsWithChar "/" x); [|exact Hne].
    intros E. now apply append_eq_empty in E as [E _].
Qed.

Lemma join_nonempty (a b : string) : NodePath.join a b <> "".
Proof.
  unfold NodePath.join.
  destruct (String.eqb a ""), (String.eqb b "");
    [discriminate | apply normalize_nonempty..].
Qed.

Section Runs.
Variable hostsTable : string -> option Host.
Variable typesTable : string -> option FileTypeEntry.
Variable world : World.

(** [findFile] never throws; what it returns and the calls it makes. *)
Lemma findFile_cases (candidate : string) (log : list FsCall) :
  let indexFile := NodePath.join candidate "index.html" in
  (exists found,
     findFile world candidate log = (Ok found, (log ++ [StatCall candidate])%list) /\
     match found with
     | Some f =>
         exists node, world (List.length log) candidate = Some node /\
                      isFile (stats node) = true /\
                      f = {| filePath := candidate; fileStat := stats node |}
     | None =>
         world (List.length log) candidate = None \/
         exists node, world (List.length log) candidate = Some node /\
                      isFile (stats node) = false /\ isDirectory (stats node) = false
     end) \/
  (exists found dnode,
     findFile world candidate log
     = (Ok found, (log ++ [StatCall candidate; StatCall indexFile])%list) /\
     world (List.length log) candidate = Some dnode /\
     isDirectory (stats dnode) = true /\
     match found with
     | Some f =>
         exists node, world (S (List.length log)) indexFile = Some node /\
                      isFile (stats node) = true /\
                      f = {| filePath := indexFile; fileStat := stats node |}
     | None =>
         world (S (List.length log)) indexFile = None \/
         exists node, world (S (List.length log)) indexFile = Some node /\
                      isFile (stats node) = false
     end).
Proof.
  intros indexFile. unfold findFile, tryCatch, bind, statFile, ret.
  destruct (world (List.length log) candidate) as [node|] eqn:Ec.
  - destruct (isDirectory (stats node)) eqn:Ed.
    + right. rewrite last_length. fold indexFile.
      destruct (world (S (List.length log)) indexFile) as [inode|] eqn:Ei.
      * destruct (isFile (stats inode)) eqn:Ef.
        -- exists (Some {| filePath := indexFile; fileStat := stats inode |}), node.
           rewrite <- app_assoc. repeat split; auto. now exists inode.
        -- exists None, node. rewrite <- app_assoc. repeat split; auto.
           right. now exists inode.
      * exists None, node. rewrite <- app_assoc. repeat split; auto.
    + left. destruct (isFile (stats node)) eqn:Ef.
      * exists (Some {| filePath := candidate; fileStat := stats node |}).
        split; [reflexivity|]. now exists node.
      * exists None. split; [reflexivity|]. right. now exists node.
  - left. exists None. split; [reflexivity | now left].
Qed.

(** A path that [findFile] returns is never empty. *)
Lemma findFile_path_nonempty (root file candidate : string) (log log' : list FsCall)
  (f : File) :
  safeJoin root file = Some candidate ->
  findFile world candidate log = (Ok (Some f), log') ->
  filePath f <> "".
Proof.
  intros Hjoin Hfind.
  apply ConfinementFacts.safeJoin_some in Hjoin as [Ecand _].
  destruct (findFile_cases candidate log)
    as [(found & E & Hf) | (found & dnode & E & _ & _ & Hf)];
    rewrite E in Hfind; injection Hfind as -> _;
    destruct Hf as (node & _ & _ & ->); cbn [filePath].
  - rewrite Ecand. apply join_nonempty.
  - apply join_nonempty.
Qed.

(** The handler from the point where the file and its type are known. *)
Lemma fileHandler_resolved (req : Request) (host : Host) (candidate : string)
  (file : File) (ft : FileType) (best : option Encoded) (log1 log2 : list FsCall)
  (res : Res) :
  Regex.test false Patterns.forbiddenRe (pathName req (resolvedFor host req)) = false ->
  safeJoin (root host) (pathName req (resolvedFor host req)) = Some candidate ->
  findFile world candidate [] = (Ok (Some file), log1) ->
  getFileType typesTable (filePath file) = Some ft ->
  chooseEncoding world (acceptsEncodings req) (encodings ft) (filePath file) log1
    = (Ok best, log2) ->
  fileHandler typesTable world req (resolvedFor host req) res []
  = (match fst (readFile world (servedPath file best) log2) with
     | Ok contents =>
         Ok (Some (sendBuffer req contents
                     (fileHeaders ft (mtime (fileStat file)) (servedEncoding best) res)))
     | Throw _ => Ok None
     end, (log2 ++ [ReadCall (servedPath file best)])%list).
Proof.
  intros Hfilter Hjoin Hfind Htype Hchoose.
  pose proof (findFile_path_nonempty _ _ _ _ _ _ Hjoin Hfind) as Hne.
  apply String.eqb_neq in Hne.
  unfold fileHandler. cbv zeta. cbn [reqRoot resolvedFor].
  fold (resolvedFor host req). rewrite Hfilter, Hjoin.
  unfold bind at 1. rewrite Hfind, Hne, Htype.
  rewrite chooseEncoding_guard. unfold bind at 1. rewrite Hchoose.
  assert (Hlog : snd (readFile world (servedPath file best) log2)
                 = (log2 ++ [ReadCall (servedPath file best)])%list) by reflexivity.
  unfold servedPath, servedEncoding in *.
  destruct best as [b|]; unfold bind, tryCatch, ret;
    match goal with
    | |- context [readFile world ?p log2] =>
        destruct (readFile world p log2) as [[contents|e] log3]
    end; cbn [fst snd] in *; subst log3; reflexivity.
Qed.

(** The chain ends in exactly one of the ways of [Run]. *)
Lemma app_run (req : Request) :
  Run hostsTable typesTable world req
    (fst (app hostsTable typesTable world req))
    (snd (app hostsTable typesTable world req)).
Proof.
  destruct (app hostsTable typesTable world req) as [resp log] eqn:Happ.
  cbn [fst snd]. revert Happ. unfold app, hostMiddleware.
  destruct (hosts hostsTable (hostname req)) as [host|] eqn:Ehost;
    [|intros [= <- <-]; now apply RunUnknownHost].
  cbv zeta. fold (routeRes req). fold (routeError req). fold (resolvedFor host req).
  destruct (routeLayer "/" req (routeError req)) as [|[err|]] eqn:Eroute;
    [| intros [= <- <-]; now apply RunUndecodable with host
     | intros [= <- <-]; now apply RunNotRouted with host].
  destruct (Regex.test false Patterns.forbiddenRe (pathName req (resolvedFor host req)))
    eqn:Efilter.
  { unfold fileHandler. cbv zeta. rewrite Efilter.
    intros [= <- <-]. apply RunRejected with host; auto. }
  destruct (safeJoin (root host) (pathName req (resolvedFor host req)))
    as [candidate|] eqn:Ejoin.
  2:{ unfold fileHandler. cbv zeta. cbn [reqRoot resolvedFor].
      fold (resolvedFor host req). rewrite Efilter, Ejoin.
      intros [= <- <-]. apply RunRejected with host; auto. }
  destruct (findFile world candidate []) as [[[file|]|err] log1] eqn:Efind.
  - destruct (getFileType typesTable (filePath file)) as [ft|] eqn:Etype.
    + destruct (chooseEncoding_returns world (acceptsEncodings req) (encodings ft)
                  (filePath file) log1) as (best & log2 & Echoose).
      rewrite (fileHandler_resolved req host candidate file ft best log1 log2
                 (routeRes req) Efilter Ejoin Efind Etype Echoose).
      assert (Hlog : forall r l, readFile world (servedPath file best) log2 = (r, l) ->
                       l = (log2 ++ [ReadCall (servedPath file best)])%list)
        by (unfold readFile; now intros r l [= _ <-]).
      destruct (readFile world (servedPath file best) log2) as [[contents|e] log3]
        eqn:Eread; pose proof (Hlog _ _ eq_refl) as ->; cbn [fst];
        intros [= <- <-].
      * eapply RunServed with (host := host) (candidate := candidate) (log1 := log1);
          eassumption.
      * eapply RunReadFailed with (host := host) (candidate := candidate) (log1 := log1);
          eassumption.
    + pose proof (findFile_path_nonempty _ _ _ _ _ _ Ejoin Efind) as Hne.
      apply String.eqb_neq in Hne.
      unfold fileHandler. cbv zeta. cbn [reqRoot resolvedFor].
      fold (resolvedFor host req). rewrite Efilter, Ejoin.
      unfold bind at 1. rewrite Efind, Hne, Etype.
      intros [= <- <-].
      now apply RunUnsupportedType with (host := host) (candidate := candidate)
                                        (file := file).
  - unfold fileHandler. cbv zeta. cbn [reqRoot resolvedFor].
    fold (resolvedFor host req). rewrite Efilter, Ejoin.
    unfold bind at 1. rewrite Efind.
    intros [= <- <-].
    now apply RunResolutionFailed with (host := host) (candidate := candidate).
  - exfalso.
    destruct (findFile_cases candidate [])
      as [(found & E & _) | (found & dnode & E & _)];
      rewrite E in Efind; discriminate.
Qed.

End Runs.

End RunFacts.
(** ** The filter and the router *)

Module FilterFacts.
Import Regex StringFacts RegexFacts PatternFacts MapperFacts RouteFacts.

Lemma occurs_append (c : ascii) (a b : string) :
  occurs c (a ++ b) = occurs c a || occurs c b.
Proof.
  induction a as [|x a IH]; simpl; [reflexivity | now rewrite IH, orb_assoc].
Qed.

Lemma occurs_allChars (f : ascii -> bool) (c : ascii) (s : string) :
  occurs c s = true -> allChars f s = true -> f c = true.
Proof.
  induction s as [|x s IH]; simpl; [discriminate|].
  intros Hc Hall. apply andb_true_iff in Hall as [Hx Hs].
  apply orb_true_iff in Hc as [Hc | Hc]; [|now apply IH].
  apply Ascii.eqb_eq in Hc. now subst.
Qed.

(** The branch prefix and the remaining path make up the request path. *)
Lemma splitBranch_append (branches : bool) (p : string) :
  p = fst (splitBranch branches p) ++ snd (splitBranch branches p).
Proof.
  destruct branches; [|reflexivity].
  destruct (Regex.matchGroup1 branchRe p) as [g|] eqn:E.
  - destruct (PatternFacts.matchGroup1_branch_inv _ _ E) as (r & Hg & ->).
    now rewrite (MapperFacts.splitBranch_branch g r Hg).
  - unfold splitBranch. now rewrite E.
Qed.

(** The paths the alias rules match consist of characters of the filter. *)
Lemma alias_paths_pass_the_filter (rest : string) :
  indexShape rest \/ aliasShape "editor" rest \/ aliasShape "fullscreen" rest ->
  allChars pathChar rest = true.
Proof.
  assert (Hdigits : forall ds, allChars isDigit ds = true -> allChars pathChar ds = true).
  { induction ds as [|a ds IH]; simpl; [reflexivity|].
    intros H. apply andb_true_iff in H as [Ha Hds].
    rewrite (IH Hds), andb_true_r. unfold pathChar. rewrite Ha.
    now rewrite !orb_true_r. }
  assert (Hslash : forall t, optionalSlash t -> allChars pathChar t = true)
    by (intros t [-> | ->]; reflexivity).
  assert (Hletter : forall a c, canonicalize a = canonicalize c ->
                                isLower c || isUpper c = true -> pathChar a = true).
  { assert (Hup : forall c, isLower c || isUpper c = true ->
                              isUpper (canonicalize c) = true).
    { intros [c0 c1 c2 c3 c4 c5 c6 c7].
      destruct c0, c1, c2, c3, c4, c5, c6, c7; intros Hc;
        (discriminate Hc || reflexivity). }
    assert (Hdown : forall a, isUpper (canonicalize a) = true -> pathChar a = true).
    { intros [a0 a1 a2 a3 a4 a5 a6 a7].
      destruct a0, a1, a2, a3, a4, a5, a6, a7; intros Ha;
        (discriminate Ha || reflexivity). }
    intros a c Ha Hc. apply Hdown. rewrite Ha. now apply Hup. }
  assert (Hword : forall w w', toUpperCase w' = toUpperCase w ->
                    allChars (fun c => isLower c || isUpper c) w = true ->
                    allChars pathChar w' = true).
  { induction w as [|c w IH]; intros w' Hw Hall.
    - destruct w'; [reflexivity | discriminate].
    - destruct w' as [|a w']; [discriminate|].
      simpl in Hw. injection Hw as Ha Hw'.
      simpl in Hall. apply andb_true_iff in Hall as [Hc Hall].
      simpl. rewrite (Hletter a c Ha Hc). now apply IH. }
  assert (Halias : forall w, allChars (fun c => isLower c || isUpper c) w = true ->
                             aliasShape w rest -> allChars pathChar rest = true).
  { intros w Hall (w' & t & Hw & Ht & Hp).
    pose proof (Hword _ _ Hw Hall) as Hw'.
    destruct Hp as [-> | (ds & (_ & Hds) & ->)]; simpl;
      rewrite ?StringFacts.allChars_append; simpl;
      rewrite ?StringFacts.allChars_append, ?Hw', ?(Hslash t Ht), ?(Hdigits ds Hds);
      reflexivity. }
  intros [Hi | [He | Hf]].
  - destruct Hi as [-> | (ds & t & (_ & Hds) & Ht & ->)]; [reflexivity|].
    simpl. now rewrite StringFacts.allChars_append, (Hdigits ds Hds), (Hslash t Ht).
  - now apply (Halias "editor").
  - now apply (Halias "fullscreen").
Qed.

(** A character outside the filter survives the mapping of the path. *)
Lemma forbidden_character_survives (branches : bool) (req : Request) (rootDir : string)
  (c : ascii) :
  occurs c (path req) = true -> pathChar c = false ->
  occurs c (pathName req {| logicalPath := mapLogicalPath branches (path req);
                            reqRoot := rootDir |}) = true.
Proof.
  intros Hc Hforbidden. unfold pathName. cbn [logicalPath].
  destruct (mapLogicalPath branches (path req)) as [l|] eqn:El; [|exact Hc].
  pose proof (splitBranch_append branches (path req)) as Hsplit.
  unfold mapLogicalPath in El.
  destruct (splitBranch branches (path req)) as [prefix rest]. cbn [fst snd] in Hsplit.
  assert (Hrest : allChars pathChar rest = true -> occurs c prefix = true).
  { intros Hall. rewrite Hsplit, occurs_append in Hc.
    apply orb_true_iff in Hc as [Hc | Hc]; [exact Hc|].
    pose proof (occurs_allChars _ _ _ Hc Hall). congruence. }
  assert (Hl : forall target, l = prefix ++ target ->
                              allChars pathChar rest = true -> occurs c l = true).
  { intros target -> Hall. now rewrite occurs_append, (Hrest Hall). }
  destruct (Regex.test false indexRe rest) eqn:Ei.
  - injection El as <-. eapply Hl; [reflexivity|].
    apply alias_paths_pass_the_filter. left. now apply PatternFacts.test_indexRe.
  - destruct (Regex.test true editorRe rest) eqn:Ee.
    + injection El as <-. eapply Hl; [reflexivity|].
      apply alias_paths_pass_the_filter. right. left.
      now apply PatternFacts.test_editorRe.
    + destruct (Regex.test true fullscreenRe rest) eqn:Ef; [|discriminate].
      injection El as <-. eapply Hl; [reflexivity|].
      apply alias_paths_pass_the_filter. right. right.
      now apply PatternFacts.test_fullscreenRe.
Qed.

(** A request whose path name passes the filter has a path of filter
    characters. *)
Lemma filter_passes_path (branches : bool) (req : Request) (rootDir : string) :
  Regex.test false forbiddenRe
    (pathName req {| logicalPath := mapLogicalPath branches (path req);
                     reqRoot := rootDir |}) = false ->
  allChars pathChar (path req) = true.
Proof.
  rewrite test_forbiddenRe, negb_false_iff. intros Hname.
  destruct (allChars pathChar (path req)) eqn:Hpath; [reflexivity|].
  apply allChars_false in Hpath as (c & Hc & Hout).
  pose proof (forbidden_character_survives branches req rootDir c Hc Hout) as Hin.
  pose proof (occurs_allChars _ _ _ Hin Hname). congruence.
Qed.

(** A path of filter characters is never undecodable, and a GET or HEAD
    request for such a path that begins with a slash reaches the main
    handler. *)
Lemma filtered_path_decodes (p : string) :
  allChars pathChar p = true -> Uri.decodable p = true /\ undecodable p = false.
Proof.
  intros Hp. destruct (pathChars_plain p Hp) as [Hpct _].
  pose proof (UriFacts.decodable_plain p Hpct) as Hd.
  split; [exact Hd|]. unfold undecodable. now rewrite Hd, andb_false_r.
Qed.

Lemma filtered_path_handled (req : Request) :
  isGetOrHead (method req) = true ->
  startsWith "/" (path req) = true ->
  allChars pathChar (path req) = true ->
  routeLayer "/" req (routeError req) = Handle.
Proof.
  intros Hm Hslash Hp. rewrite routeLayer_main.
  destruct (filtered_path_decodes _ Hp) as [Hd ->].
  destruct (pathChars_plain _ Hp) as [_ Hnlt].
  unfold handled. now rewrite Hm, Hd, underRoute_root, Hslash, Hnlt.
Qed.

(** The handler runs only for GET and HEAD requests whose path begins with
    a slash. *)
Lemma handle_inv (req : Request) :
  routeLayer "/" req (routeError req) = Handle ->
  isGetOrHead (method req) = true /\ startsWith "/" (path req) = true
  /\ Uri.decodable (path req) = true /\ undecodable (path req) = false.
Proof.
  rewrite routeLayer_main. destruct (undecodable (path req)) eqn:Eu; [discriminate|].
  destruct (handled "/" req) eqn:Eh; [intros _ | discriminate].
  unfold handled in Eh. rewrite underRoute_root in Eh.
  apply andb_true_iff in Eh as [Eh Hd]. apply andb_true_iff in Eh as [Hm Hu].
  apply andb_true_iff in Hu as [Hs _]. auto.
Qed.

End FilterFacts.

(** ** The responses of the chain *)

Module ResponseFacts.
Import RouteFacts ServerFacts.

Lemma invalidHost_facts (req : Request) :
  let resp := send req "Invalid Host" (contentType "text/plain" (status 400 newRes)) in
  resStatus resp = 400 /\
  resBody resp = match method req with HEAD => "" | _ => "Invalid Host" end /\
  getHeader "Content-Type" (resHeaders resp) = Some (Text "text/plain; charset=utf-8") /\
  getHeader "Content-Length" (resHeaders resp) = Some (Length 12) /\
  getHeader "ETag" (resHeaders resp) = Some (ETagOf "Invalid Host") /\
  (forall n, n <> "Content-Type" -> n <> "Content-Length" -> n <> "ETag" ->
             getHeader n (resHeaders resp) = None).
Proof.
  apply (message_response req 400 "Invalid Host" newRes); [auto | reflexivity].
Qed.

Lemma notFound_facts (req : Request) (res : Res) :
  getHeader "ETag" (headers res) = None ->
  let resp := notFound req res in
  resStatus resp = 404 /\
  resBody resp = match method req with HEAD => "" | _ => "404 Not Found" end /\
  getHeader "Content-Type" (resHeaders resp) = Some (Text "text/plain; charset=utf-8") /\
  getHeader "Content-Length" (resHeaders resp) = Some (Length 13) /\
  getHeader "ETag" (resHeaders resp) = Some (ETagOf "404 Not Found") /\
  (forall n, n <> "Content-Type" -> n <> "Content-Length" -> n <> "ETag" ->
             getHeader n (resHeaders resp) = getHeader n (headers res)).
Proof.
  intros Hetag. apply (message_response req 404 "404 Not Found" res); auto.
Qed.

Lemma errorHandler_facts (req : Request) (err : Error) (res : Res) :
  getHeader "ETag" (headers res) = None ->
  let resp := errorHandler req err res in
  resStatus resp = 500 /\
  resBody resp = match method req with HEAD => "" | _ => "Internal server error" end /\
  getHeader "Content-Type" (resHeaders resp) = Some (Text "text/plain; charset=utf-8") /\
  getHeader "Content-Length" (resHeaders resp) = Some (Length 21) /\
  getHeader "ETag" (resHeaders resp) = Some (ETagOf "Internal server error") /\
  (forall n, n <> "Content-Type" -> n <> "Content-Length" -> n <> "ETag" ->
             getHeader n (resHeaders resp) = getHeader n (headers res)).
Proof.
  intros Hetag. apply (message_response req 500 "Internal server error" res); auto.
Qed.

Lemma routeRes_etag (req : Request) : getHeader "ETag" (headers (routeRes req)) = None.
Proof. apply routeRes_other. discriminate. Qed.

(** The response that carries a file. *)
Lemma served_facts (req : Request) (ft : FileType) (file : File) (best : option Encoded)
  (contents : string) :
  let resp := sendBuffer req contents
                (fileHeaders ft (mtime (fileStat file)) (servedEncoding best)
                   (routeRes req)) in
  let isFresh := isGetOrHead (method req)
                 && freshFor req (Some (ETagOf contents))
                      (Some (HttpDate (mtime (fileStat file)))) in
  resStatus resp = (if isFresh then 304 else 200) /\
  resBody resp = (if isFresh then ""
                  else match method req with HEAD => "" | _ => contents end) /\
  getHeader "Content-Type" (resHeaders resp)
    = (if isFresh then None
       else Some (Text (if String.eqb (type ft) "" then "application/octet-stream"
                        else type ft))) /\
  getHeader "Content-Length" (resHeaders resp)
    = (if isFresh then None else Some (Length (String.length contents))) /\
  getHeader "ETag" (resHeaders resp) = Some (ETagOf contents) /\
  getHeader "Last-Modified" (resHeaders resp) = Some (HttpDate (mtime (fileStat file))) /\
  getHeader "Content-Encoding" (resHeaders resp)
    = match best with
      | Some b => Some (Text (encodedName b))
      | None => None
      end /\
  getHeader "Vary" (resHeaders resp)
    = match encodings ft with
      | [] => None
      | _ :: _ => Some (Text "Accept-Encoding")
      end /\
  getHeader "Cache-Control" (resHeaders resp)
    = Some match cachePolicy req with
           | Some policy => policy
           | None => Text "no-cache"
           end.
Proof.
  cbv zeta.
  set (res := fileHeaders ft (mtime (fileStat file)) (servedEncoding best) (routeRes req)).
  destruct (fileHeaders_spec ft (mtime (fileStat file)) (servedEncoding best)
              (routeRes req)) as (Hst & Hct & Hlm & Hce & Hvary & Hcc).
  cbv zeta in Hst, Hct, Hlm, Hce, Hvary, Hcc. fold res in Hst, Hct, Hlm, Hce, Hvary, Hcc.
  rewrite routeRes_status in Hst.
  rewrite routeRes_other in Hce by discriminate.
  rewrite routeRes_other in Hvary by discriminate.
  rewrite routeRes_cache in Hcc.
  assert (Hetag : getHeader "ETag" (headers res) = None).
  { unfold res. rewrite fileHeaders_other by discriminate. apply routeRes_etag. }
  destruct (file_response req contents (type ft) res Hst Hetag Hct)
    as (Rst & Rbody & Rct & Rcl & Retag & Rother).
  cbv zeta in Rst, Rbody, Rct, Rcl, Retag, Rother. rewrite Hlm in Rst, Rbody, Rct, Rcl.
  repeat (split; [assumption|]).
  rewrite !Rother by discriminate.
  rewrite Hlm, Hce, Hvary, Hcc. unfold servedEncoding.
  destruct best, (encodings ft); repeat split; reflexivity.
Qed.

End ResponseFacts.
(** ** The calls of encoding negotiation *)

Module NegotiationFacts.

(** [chooseEncoding] stats the accepted variants in configured order, every
    one it passes over is not a regular file when it is looked at, and it
    stops at the first that is. *)
Lemma chooseEncoding_calls
  (world : World) (accepted : list string) (configured : list Encoding)
  (basePath : string) (log : list FsCall) :
  exists best tried,
    chooseEncoding world accepted configured basePath log
    = (Ok best, (log ++ map (fun e => StatCall (variantPath basePath e)) tried)%list) /\
    initialPart tried (acceptedOf accepted configured) /\
    match best with
    | Some b =>
        exists earlier e node,
          tried = (earlier ++ [e])%list /\
          (forall i e', nth_error earlier i = Some e' ->
             regularOn (world (List.length log + i)) (variantPath basePath e') = false) /\
          world (List.length log + List.length earlier) (variantPath basePath e)
            = Some node /\
          isFile (stats node) = true /\
          b = {| encodedName := name e;
                 encodedPath := variantPath basePath e;
                 encodedStat := stats node |}
    | None =>
        tried = acceptedOf accepted configured /\
        (forall i e', nth_error tried i = Some e' ->
           regularOn (world (List.length log + i)) (variantPath basePath e') = false)
    end.
Proof.
  revert log. induction configured as [|e es IH]; intros log.
  - exists None, []. cbn. rewrite app_nil_r. repeat split; [now exists []|].
    intros [|i] e'; discriminate.
  - cbn [chooseEncoding acceptedOf filter].
    destruct (includes (name e) accepted) eqn:Ea; cbn [negb]; [|apply IH].
    unfold bind, tryCatch, statFile, ret. fold (variantPath basePath e).
    assert (Hnext : regularOn (world (List.length log)) (variantPath basePath e) = false ->
      exists best tried,
        chooseEncoding world accepted es basePath
          (log ++ [StatCall (variantPath basePath e)])%list
        = (Ok best,
           (log ++ map (fun e0 => StatCall (variantPath basePath e0)) tried)%list) /\
        initialPart tried (e :: filter (fun e0 => includes (name e0) accepted) es) /\
        match best with
        | Some b =>
            exists earlier e0 node,
              tried = (earlier ++ [e0])%list /\
              (forall i e', nth_error earlier i = Some e' ->
                 regularOn (world (List.length log + i)) (variantPath basePath e')
                 = false) /\
              world (List.length log + List.length earlier) (variantPath basePath e0)
                = Some node /\
              isFile (stats node) = true /\
              b = {| encodedName := name e0;
                     encodedPath := variantPath basePath e0;
                     encodedStat := stats node |}
        | None =>
            tried = e :: filter (fun e0 => includes (name e0) accepted) es /\
            (forall i e', nth_error tried i = Some e' ->
               regularOn (world (List.length log + i)) (variantPath basePath e') = false)
        end).
    { intros Hnot.
      destruct (IH (log ++ [StatCall (variantPath basePath e)])%list)
        as (best & tried & Hrun & (rest & Hrest) & Hbest).
      exists best, (e :: tried). rewrite Hrun, <- app_assoc.
      split; [reflexivity|]. fold (acceptedOf accepted es).
      split; [exists rest; now rewrite Hrest|].
      rewrite last_length in Hbest.
      destruct best as [b|].
      - destruct Hbest as (earlier & e0 & node & -> & Hskip & Hw & Hf & ->).
        exists (e :: earlier), e0, node. split; [reflexivity|]. split.
        + intros [|i] e' Hi.
          * injection Hi as <-. now rewrite Nat.add_0_r.
          * rewrite Nat.add_succ_r. now apply Hskip.
        + cbn [List.length]. rewrite Nat.add_succ_r. auto.
      - destruct Hbest as (-> & Hskip). split; [reflexivity|].
        intros [|i] e' Hi.
        + injection Hi as <-. now rewrite Nat.add_0_r.
        + rewrite Nat.add_succ_r. now apply Hskip. }
    destruct (world (List.length log) (variantPath basePath e)) as [node|] eqn:Ew.
    + destruct (isFile (stats node)) eqn:Ef.
      * exists (Some {| encodedName := name e;
                        encodedPath := variantPath basePath e;
                        encodedStat := stats node |}), [e].
        split; [reflexivity|]. split; [now exists (acceptedOf accepted es)|].
        exists [], e, node. cbn [List.length app]. rewrite Nat.add_0_r.
        repeat split; auto. intros [|i] e'; discriminate.
      * apply Hnext. unfold regularOn. now rewrite Ew.
    + apply Hnext. unfold regularOn. now rewrite Ew.
Qed.

End NegotiationFacts.
(** ** Successful responses *)

Module SuccessFacts.
Import RouteFacts ServerFacts RunFacts FilterFacts ResponseFacts.

Section Success.
Variable hostsTable : string -> option Host.
Variable typesTable : string -> option FileTypeEntry.
Variable world : World.

(** The status of each way through the chain. *)
Lemma run_status (req : Request) (resp : Response) (log : list FsCall) :
  Run hostsTable typesTable world req resp log ->
  resStatus resp = 200 \/ resStatus resp = 304 ->
  exists host candidate file ft best log1 log2 contents,
    hosts hostsTable (hostname req) = Some host /\
    routeLayer "/" req (routeError req) = Handle /\
    Regex.test false forbiddenRe (pathName req (resolvedFor host req)) = false /\
    safeJoin (root host) (pathName req (resolvedFor host req)) = Some candidate /\
    findFile world candidate [] = (Ok (Some file), log1) /\
    getFileType typesTable (filePath file) = Some ft /\
    chooseEncoding world (acceptsEncodings req) (encodings ft) (filePath file) log1
      = (Ok best, log2) /\
    readFile world (servedPath file best) log2 = (Ok contents, log) /\
    resp = sendBuffer req contents
             (fileHeaders ft (mtime (fileStat file)) (servedEncoding best) (routeRes req)).
Proof.
  intros Hrun Hst.
  destruct Hrun as [Hh | host err Hh Hr | host Hh Hr | host Hh Hr Hrej
                   | host c l Hh Hr Hf Hj Hfind
                   | host c f l Hh Hr Hf Hj Hfind Htype
                   | host c f ft b l1 l2 e Hh Hr Hf Hj Hfind Htype Hchoose Hread
                   | host c f ft b l1 l2 contents Hh Hr Hf Hj Hfind Htype Hchoose Hread].
  - destruct (invalidHost_facts req) as (E & _). cbv zeta in E. rewrite E in Hst.
    destruct Hst; discriminate.
  - destruct (errorHandler_facts req err (routeRes req) (routeRes_etag req)) as (E & _).
    cbv zeta in E. rewrite E in Hst. destruct Hst; discriminate.
  - destruct (notFound_facts req (routeRes req) (routeRes_etag req)) as (E & _).
    cbv zeta in E. rewrite E in Hst. destruct Hst; discriminate.
  - destruct (notFound_facts req (routeRes req) (routeRes_etag req)) as (E & _).
    cbv zeta in E. rewrite E in Hst. destruct Hst; discriminate.
  - destruct (errorHandler_facts req TypeError (routeRes req) (routeRes_etag req))
      as (E & _).
    cbv zeta in E. rewrite E in Hst. destruct Hst; discriminate.
  - destruct (notFound_facts req (routeRes req) (routeRes_etag req)) as (E & _).
    cbv zeta in E. rewrite E in Hst. destruct Hst; discriminate.
  - destruct (notFound_facts req (routeRes req) (routeRes_etag req)) as (E & _).
    cbv zeta in E. rewrite E in Hst. destruct Hst; discriminate.
  - exists host, c, f, ft, b, l1, l2, contents. repeat split; assumption.
Qed.

(** Every 200 response comes from the main handler, at the end of a
    complete resolution. *)
Lemma app_success (req : Request) (resp : Response) (log : list FsCall) :
  app hostsTable typesTable world req = (resp, log) ->
  resStatus resp = 200 ->
  exists host candidate file ft best log1 log2 contents,
    hosts hostsTable (hostname req) = Some host /\
    safeJoin (root host) (pathName req (resolvedFor host req)) = Some candidate /\
    findFile world candidate [] = (Ok (Some file), log1) /\
    getFileType typesTable (filePath file) = Some ft /\
    chooseEncoding world (acceptsEncodings req) (encodings ft) (filePath file) log1
      = (Ok best, log2) /\
    readFile world (servedPath file best) log2 = (Ok contents, log) /\
    resBody resp = match method req with HEAD => "" | _ => contents end /\
    getHeader "Content-Type" (resHeaders resp)
      = Some (Text (if String.eqb (type ft) "" then "application/octet-stream"
                    else type ft)) /\
    getHeader "Last-Modified" (resHeaders resp)
      = Some (HttpDate (mtime (fileStat file))) /\
    getHeader "Content-Encoding" (resHeaders resp)
      = match best with
        | Some b => Some (Text (encodedName b))
        | None => None
        end /\
    getHeader "Vary" (resHeaders resp)
      = match encodings ft with
        | [] => None
        | _ :: _ => Some (Text "Accept-Encoding")
        end /\
    getHeader "Cache-Control" (resHeaders resp)
      = Some match cachePolicy req with
             | Some policy => policy
             | None => Text "no-cache"
             end.
Proof.
  intros Happ Hst.
  pose proof (app_run hostsTable typesTable world req) as Hrun.
  rewrite Happ in Hrun. cbn [fst snd] in Hrun.
  destruct (run_status req resp log Hrun (or_introl Hst))
    as (host & c & f & ft & b & l1 & l2 & contents
        & Hh & Hr & Hf & Hj & Hfind & Htype & Hchoose & Hread & ->).
  destruct (served_facts req ft f b contents)
    as (Rst & Rbody & Rct & _ & _ & Rlm & Rce & Rvary & Rcc).
  cbv zeta in Rst, Rbody, Rct.
  destruct (isGetOrHead (method req) && freshFor req _ _); [rewrite Rst in Hst; discriminate|].
  exists host, c, f, ft, b, l1, l2, contents. repeat split; assumption.
Qed.

(** The chain when the router hands the request to the main handler. *)
Lemma app_handled (req : Request) (host : Host) :
  hosts hostsTable (hostname req) = Some host ->
  routeLayer "/" req (routeError req) = Handle ->
  app hostsTable typesTable world req
  = match fileHandler typesTable world req (resolvedFor host req) (routeRes req) [] with
    | (Ok (Some response), log) => (response, log)
    | (Ok None, log) => (notFound req (routeRes req), log)
    | (Throw err, log) => (errorHandler req err (routeRes req), log)
    end.
Proof.
  intros Hhost Hroute. unfold app, hostMiddleware. rewrite Hhost. cbv zeta.
  fold (routeRes req). fold (routeError req). fold (resolvedFor host req).
  now rewrite Hroute.
Qed.

(** A request that is resolved, typed and read is answered with the file. *)
Lemma app_serves (req : Request) (host : Host) (candidate : string) (file : File)
  (ft : FileType) (best : option Encoded) (log1 log2 log3 : list FsCall)
  (contents : string) :
  hosts hostsTable (hostname req) = Some host ->
  routeLayer "/" req (routeError req) = Handle ->
  Regex.test false forbiddenRe (pathName req (resolvedFor host req)) = false ->
  safeJoin (root host) (pathName req (resolvedFor host req)) = Some candidate ->
  findFile world candidate [] = (Ok (Some file), log1) ->
  getFileType typesTable (filePath file) = Some ft ->
  chooseEncoding world (acceptsEncodings req) (encodings ft) (filePath file) log1
    = (Ok best, log2) ->
  readFile world (servedPath file best) log2 = (Ok contents, log3) ->
  app hostsTable typesTable world req
  = (sendBuffer req contents
       (fileHeaders ft (mtime (fileStat file)) (servedEncoding best) (routeRes req)),
     (log2 ++ [ReadCall (servedPath file best)])%list).
Proof.
  intros Hhost Hroute Hfilter Hjoin Hfind Htype Hchoose Hread.
  rewrite (app_handled req host Hhost Hroute).
  rewrite (fileHandler_resolved typesTable world req host candidate file ft best
             log1 log2 (routeRes req) Hfilter Hjoin Hfind Htype Hchoose).
  now rewrite Hread.
Qed.

(** A request whose file cannot be read is answered 404. *)
Lemma app_read_fails (req : Request) (host : Host) (candidate : string) (file : File)
  (ft : FileType) (best : option Encoded) (log1 log2 log3 : list FsCall) (err : Error) :
  hosts hostsTable (hostname req) = Some host ->
  routeLayer "/" req (routeError req) = Handle ->
  Regex.test false forbiddenRe (pathName req (resolvedFor host req)) = false ->
  safeJoin (root host) (pathName req (resolvedFor host req)) = Some candidate ->
  findFile world candidate [] = (Ok (Some file), log1) ->
  getFileType typesTable (filePath file) = Some ft ->
  chooseEncoding world (acceptsEncodings req) (encodings ft) (filePath file) log1
    = (Ok best, log2) ->
  readFile world (servedPath file best) log2 = (Throw err, log3) ->
  app hostsTable typesTable world req
  = (notFound req (routeRes req), (log2 ++ [ReadCall (servedPath file best)])%list).
Proof.
  intros Hhost Hroute Hfilter Hjoin Hfind Htype Hchoose Hread.
  rewrite (app_handled req host Hhost Hroute).
  rewrite (fileHandler_resolved typesTable world req host candidate file ft best
             log1 log2 (routeRes req) Hfilter Hjoin Hfind Htype Hchoose).
  now rewrite Hread.
Qed.

(** A request whose file has no registered type is answered 404. *)
Lemma app_unsupported (req : Request) (host : Host) (candidate : string) (file : File)
  (log1 : list FsCall) :
  hosts hostsTable (hostname req) = Some host ->
  routeLayer "/" req (routeError req) = Handle ->
  Regex.test false forbiddenRe (pathName req (resolvedFor host req)) = false ->
  safeJoin (root host) (pathName req (resolvedFor host req)) = Some candidate ->
  findFile world candidate [] = (Ok (Some file), log1) ->
  getFileType typesTable (filePath file) = None ->
  app hostsTable typesTable world req = (notFound req (routeRes req), log1).
Proof.
  intros Hhost Hroute Hfilter Hjoin Hfind Htype.
  pose proof (findFile_path_nonempty world _ _ _ _ _ _ Hjoin Hfind) as Hne.
  apply String.eqb_neq in Hne.
  rewrite (app_handled req host Hhost Hroute).
  unfold fileHandler. cbv zeta. cbn [reqRoot resolvedFor].
  fold (resolvedFor host req). rewrite Hfilter, Hjoin.
  unfold bind at 1. now rewrite Hfind, Hne, Htype.
Qed.

(** A failed resolution reaches the error-handling middleware. *)
Lemma app_resolution_failure (req : Request) (host : Host) (candidate : string)
  (log : list FsCall) :
  hosts hostsTable (hostname req) = Some host ->
  routeLayer "/" req (routeError req) = Handle ->
  Regex.test false forbiddenRe (pathName req (resolvedFor host req)) = false ->
  safeJoin (root host) (pathName req (resolvedFor host req)) = Some candidate ->
  findFile world candidate [] = (Ok None, log) ->
  app hostsTable typesTable world req
  = (errorHandler req TypeError (routeRes req), log).
Proof.
  intros Hhost Hroute Hfilter Hjoin Hfind.
  rewrite (app_handled req host Hhost Hroute).
  unfold fileHandler. cbv zeta. cbn [reqRoot resolvedFor].
  fold (resolvedFor host req). rewrite Hfilter, Hjoin.
  unfold bind. now rewrite Hfind.
Qed.

(** A GET or HEAD request whose path begins with a slash and whose path
    name passes the filter reaches the main handler. *)
Lemma filtered_request_handled (req : Request) (host : Host) :
  method req = GET \/ method req = HEAD ->
  startsWith "/" (path req) = true ->
  Regex.test false forbiddenRe (pathName req (resolvedFor host req)) = false ->
  routeLayer "/" req (routeError req) = Handle.
Proof.
  intros Hm Hslash Hfilter. apply filtered_path_handled.
  - now destruct Hm as [-> | ->].
  - exact Hslash.
  - exact (filter_passes_path (branches host) req (root host) Hfilter).
Qed.

Lemma allChars_substringFrom (f : ascii -> bool) (n : nat) (s : string) :
  allChars f s = true -> allChars f (substringFrom n s) = true.
Proof.
  revert s. induction n as [|n IH]; intros s H; [exact H|].
  destruct s as [|a s]; [reflexivity|]. simpl in H.
  apply andb_true_iff in H as [_ H]. now apply IH.
Qed.

(** A request on whose path the router fails. *)
Lemma app_undecodable (req : Request) (host : Host) :
  hosts hostsTable (hostname req) = Some host ->
  undecodable (path req) = true ->
  app hostsTable typesTable world req = (errorHandler req URIError newRes, []).
Proof.
  intros Hhost Hu. unfold app, hostMiddleware. rewrite Hhost. cbv zeta.
  fold (routeRes req). fold (routeError req).
  rewrite routeLayer_main, Hu, routeRes_policy.
  unfold undecodable in Hu. apply andb_true_iff in Hu as [_ Hd].
  apply negb_true_iff in Hd.
  unfold cachePolicy, handled. now rewrite Hd, !andb_false_r.
Qed.

(** A request that no route serves and on which the router does not fail. *)
Lemma app_not_routed (req : Request) (host : Host) :
  hosts hostsTable (hostname req) = Some host ->
  undecodable (path req) = false ->
  handled "/" req = false ->
  app hostsTable typesTable world req = (notFound req newRes, []).
Proof.
  intros Hhost Hu Hh. unfold app, hostMiddleware. rewrite Hhost. cbv zeta.
  fold (routeRes req). fold (routeError req).
  rewrite routeLayer_main, Hu, Hh, routeRes_policy.
  assert (Hnone : forall prefix, literal prefix -> handled prefix req = false).
  { intros prefix Hlit. unfold handled in *.
    destruct (isGetOrHead (method req)); [|reflexivity].
    destruct (Uri.decodable (path req)); [|now rewrite andb_false_r].
    destruct (underRoute prefix (path req)) eqn:E; [|reflexivity].
    now rewrite (underRoute_weaken prefix _ Hlit E) in Hh. }
  destruct literal_routes as (_ & L1 & L2 & L3).
  unfold cachePolicy. now rewrite !Hnone by assumption.
Qed.

End Success.

End SuccessFacts.
(** ** Properties of the request pipeline *)

(** C1: requests whose file resolution fails, once for a path that does not
    exist and once for a directory without [index.html].  [findFile] returns
    [null], the handler destructures that [null] before it tests it, and the
    error-handling middleware answers: the client receives status 500 with
    body [Internal server error], where the specification promises status
    404 with body [404 Not Found]. *)
Theorem C1_missing_file_internal_error :
  Demo.serve (Demo.get "example.com" "/no/such/file.png" ["gzip"; "identity"])
  = ({| resStatus := 500;
        resHeaders := [("Content-Type", Text "text/plain; charset=utf-8");
                       ("Content-Length", Length 21);
                       ("ETag", ETagOf "Internal server error")];
        resBody := "Internal server error" |},
     [StatCall "/srv/www/no/such/file.png"]) /\
  Demo.serve (Demo.get "example.com" "/empty/" ["gzip"; "identity"])
  = ({| resStatus := 500;
        resHeaders := [("Content-Type", Text "text/plain; charset=utf-8");
                       ("Content-Length", Length 21);
                       ("ETag", ETagOf "Internal server error")];
        resBody := "Internal server error" |},
     [StatCall "/srv/www/empty/"; StatCall "/srv/www/empty/index.html"]).
Proof. split; vm_compute; reflexivity. Qed.

(** C6, as the specification states it, fails for a HEAD request: the host
    [evil.example.com] is not in the host table, the answer has status 400,
    and it has no body. *)
Lemma C6_head_request_has_no_body :
  Demo.hostsTable "evil.example.com" = None /\
  resStatus (fst (Demo.serve (Demo.request HEAD "evil.example.com" "/" []))) = 400 /\
  resBody (fst (Demo.serve (Demo.request HEAD "evil.example.com" "/" []))) = "" /\
  resBody (fst (Demo.serve (Demo.request HEAD "evil.example.com" "/" [])))
  <> "Invalid Host".
Proof. repeat split. vm_compute. discriminate. Qed.

(** C6, amended: a request for a host that is not in the host table is
    answered with status 400 and content type [text/plain], whatever its
    path, and the filesystem is not consulted; the body is [Invalid Host],
    which the headers announce with its length, and which a HEAD request
    does not receive. *)
Theorem C6_unknown_host
  (hostsTable : string -> option Host) (typesTable : string -> option FileTypeEntry)
  (world : World) (req : Request) :
  hostsTable (hostname req) = None ->
  let resp := fst (app hostsTable typesTable world req) in
  resStatus resp = 400 /\
  getHeader "Content-Type" (resHeaders resp) = Some (Text "text/plain; charset=utf-8") /\
  getHeader "Content-Length" (resHeaders resp)
    = Some (Length (String.length "Invalid Host")) /\
  resBody resp = match method req with
                 | HEAD => ""
                 | _ => "Invalid Host"
                 end /\
  snd (app hostsTable typesTable world req) = [].
Proof.
  intros Hhost. cbv zeta. unfold app, hostMiddleware, hosts. rewrite Hhost.
  cbn [fst snd].
  destruct (ResponseFacts.invalidHost_facts req) as (Hst & Hbody & Hct & Hcl & _).
  cbv zeta in Hst, Hbody, Hct, Hcl. repeat split; assumption.
Qed.

Lemma C6_unknown_host_witness :
  resStatus (fst (Demo.serve (Demo.get "evil.example.com" "/../../etc/passwd" ["gzip"])))
  = 400 /\
  resBody (fst (Demo.serve (Demo.get "evil.example.com" "/../../etc/passwd" ["gzip"])))
  = "Invalid Host" /\
  snd (Demo.serve (Demo.get "evil.example.com" "/../../etc/passwd" ["gzip"])) = [].
Proof.
  destruct (C6_unknown_host Demo.hostsTable Demo.typesTable Demo.world
              (Demo.get "evil.example.com" "/../../etc/passwd" ["gzip"]) eq_refl)
    as (Hst & _ & _ & Hbody & Hlog).
  repeat split; assumption.
Defined.

(** C2, as the specification states it, fails for a path with an escape
    sequence that cannot be decoded: the normalized join of the root and
    [/../%zz] leaves the root and [safeJoin] returns [null] for it, but the
    request is answered 500, not 404: the router fails on the path before
    the handler runs. *)
Lemma C2_undecodable_path_is_an_error :
  hosts Demo.hostsTable "example.com" = Some {| root := "/srv/www/"; branches := false |} /\
  pathName (Demo.get "example.com" "/../%zz" [])
    (resolvedFor {| root := "/srv/www/"; branches := false |}
       (Demo.get "example.com" "/../%zz" [])) = "/../%zz" /\
  NodePath.join "/srv/www/" "/../%zz" = "/srv/%zz" /\
  startsWith "/srv/www/" (NodePath.join "/srv/www/" "/../%zz") = false /\
  safeJoin "/srv/www/" "/../%zz" = None /\
  resStatus (fst (Demo.serve (Demo.get "example.com" "/../%zz" []))) = 500 /\
  resBody (fst (Demo.serve (Demo.get "example.com" "/../%zz" [])))
  = "Internal server error".
Proof. repeat split. Qed.

(** C2, amended: the root the server uses for a host ends in a separator;
    every absolute path handed to [fs.stat] or [fs.readFile] has that root
    as a literal prefix, and for an absolute configured root that is every
    path handed to them; when the normalized join of root and path does not
    have the root as a prefix, [safeJoin] returns [null], the handler passes
    the request on at once and no filesystem call is made: the request is
    answered 404, unless the router could not decode an escape sequence of
    its path, in which case the handler does not run and the answer is
    500. *)
Theorem C2_paths_stay_below_root
  (hostsTable : string -> option Host) (typesTable : string -> option FileTypeEntry)
  (world : World) (req : Request) (host : Host) :
  hostsTable (hostname req) = Some host ->
  let rootDir := NodePath.join (root host) "/" in
  let rq := {| logicalPath := mapLogicalPath (branches host) (path req);
               reqRoot := rootDir |} in
  let name := pathName req rq in
  endsWithChar "/" rootDir = true /\
  Forall (fun c => NodePath.isAbsolute (callPath c) = true -> below rootDir c)
    (snd (app hostsTable typesTable world req)) /\
  (NodePath.isAbsolute (root host) = true ->
   Forall (below rootDir) (snd (app hostsTable typesTable world req))) /\
  (startsWith rootDir (NodePath.join rootDir name) = false ->
   safeJoin rootDir name = None /\
   (forall res, fileHandler typesTable world req rq res [] = (Ok None, [])) /\
   snd (app hostsTable typesTable world req) = [] /\
   resStatus (fst (app hostsTable typesTable world req))
   = if undecodable (path req) then 500 else 404).
Proof.
  intros Hhost rootDir rq name.
  assert (Hhosts : hosts hostsTable (hostname req)
                   = Some {| root := rootDir; branches := branches host |})
    by (unfold hosts; now rewrite Hhost).
  assert (Htrail : endsWithChar "/" rootDir = true)
    by apply PathFacts.join_root_trailing.
  assert (Hbelow : NodePath.isAbsolute rootDir = true ->
                   Forall (below rootDir) (snd (app hostsTable typesTable world req))).
  { intros Hroot.
    apply (ConfinementFacts.confined_app typesTable world
             (fun p => startsWith rootDir p = true)).
    - intros base suffix Hbase. apply StringFacts.startsWith_trans with base;
        [assumption | apply StringFacts.startsWith_append].
    - intros host' candidate Hhost' Hjoin.
      rewrite Hhosts in Hhost'. injection Hhost' as <-.
      exact (ConfinementFacts.candidate_below rootDir _ candidate Hroot Hjoin). }
  split; [exact Htrail|]. split; [|split].
  - destruct (NodePath.isAbsolute rootDir) eqn:Hroot.
    + eapply Forall_impl; [|exact (Hbelow eq_refl)]. auto.
    + assert (Hrel : NodePath.relative rootDir).
      { split; [|exact Hroot]. intros E. rewrite E in Htrail. discriminate. }
      eapply Forall_impl;
        [|apply (ConfinementFacts.confined_app typesTable world NodePath.relative
                   PathFacts.relative_append hostsTable req)].
      * intros c [_ Hc] Habs. unfold below. congruence.
      * intros host' candidate Hhost' Hjoin.
        rewrite Hhosts in Hhost'. injection Hhost' as <-.
        exact (ConfinementFacts.candidate_relative rootDir _ candidate Hrel Hjoin).
  - intros Habs. apply Hbelow.
    destruct (PathFacts.join_absolute (root host) "/" Habs) as (x & Hx & Ex).
    subst rootDir. rewrite Ex. now apply PathFacts.normalize_isAbsolute.
  - intros Hout.
    assert (Hjoin : safeJoin rootDir name = None)
      by (unfold safeJoin; now rewrite Hout).
    split; [exact Hjoin|]. split.
    { intros res. unfold fileHandler. cbv zeta. fold name. cbn [reqRoot rq].
      destruct (Regex.test false forbiddenRe name); [reflexivity|].
      now rewrite Hjoin. }
    pose proof (RunFacts.app_run hostsTable typesTable world req) as Hrun.
    destruct Hrun as [Hh | host' err Hh Hr | host' Hh Hr | host' Hh Hr Hrej
                     | host' c l Hh Hr Hf Hj Hfind
                     | host' c f l Hh Hr Hf Hj Hfind Htype
                     | host' c f ft b l1 l2 e Hh Hr Hf Hj Hfind Htype Hchoose Hread
                     | host' c f ft b l1 l2 contents Hh Hr Hf Hj Hfind Htype Hchoose Hread];
      try (rewrite Hhosts in Hh; injection Hh as <-;
           unfold resolvedFor in Hj; cbn [root branches] in Hj;
           fold rq in Hj; fold name in Hj; congruence).
    + congruence.
    + split; [reflexivity|].
      rewrite RouteFacts.routeLayer_main in Hr.
      destruct (undecodable (path req)).
      * now destruct (ResponseFacts.errorHandler_facts req err (routeRes req)
                        (ResponseFacts.routeRes_etag req)) as (E & _).
      * destruct (handled "/" req); discriminate.
    + split; [reflexivity|].
      rewrite RouteFacts.routeLayer_main in Hr.
      destruct (undecodable (path req)); [discriminate|].
      now destruct (ResponseFacts.notFound_facts req (routeRes req)
                      (ResponseFacts.routeRes_etag req)) as (E & _).
    + split; [reflexivity|].
      destruct (FilterFacts.handle_inv req Hr) as (_ & _ & _ & ->).
      now destruct (ResponseFacts.notFound_facts req (routeRes req)
                      (ResponseFacts.routeRes_etag req)) as (E & _).
Qed.

Lemma C2_paths_stay_below_root_witness :
  Forall (below "/srv/www/")
    (snd (Demo.serve (Demo.get "example.com" "/blog/" ["br"]))) /\
  safeJoin "/srv/www/" "/../www-secret/x" = None /\
  snd (Demo.serve (Demo.get "example.com" "/../www-secret/x" [])) = [] /\
  resStatus (fst (Demo.serve (Demo.get "example.com" "/../www-secret/x" []))) = 404.
Proof.
  split.
  - destruct (C2_paths_stay_below_root Demo.hostsTable Demo.typesTable Demo.world
                (Demo.get "example.com" "/blog/" ["br"])
                {| root := "/srv/www"; branches := false |} eq_refl)
      as (_ & _ & H & _).
    exact (H eq_refl).
  - destruct (C2_paths_stay_below_root Demo.hostsTable Demo.typesTable Demo.world
                (Demo.get "example.com" "/../www-secret/x" [])
                {| root := "/srv/www"; branches := false |} eq_refl)
      as (_ & _ & _ & H).
    destruct (H eq_refl) as (Hjoin & _ & Hlog & Hst).
    split; [exact Hjoin|]. split; [exact Hlog | exact Hst].
Defined.

(** C3: the request [GET /my_branch/] on a host with branches.  The branch
    pattern takes [my_branch] as the branch, the mapper yields the logical
    path [/my_branch/index.html], all of whose characters are in the set
    [a-zA-Z0-9._-/~] of the specification, and that file is on the disk; the
    class of the filter lacks the underscore, so the filter turns the path
    away and the client receives 404 without any filesystem call, where the
    specification lets the path through to resolution. *)
Theorem C3_underscore_path_is_not_served :
  hosts Demo.hostsTable "dev.example.com"
    = Some {| root := "/srv/dev/"; branches := true |} /\
  splitBranch true "/my_branch/" = ("/my_branch", "/") /\
  mapLogicalPath true "/my_branch/" = Some "/my_branch/index.html" /\
  allChars (fun c => occurs c claimedAlphabet) "/my_branch/index.html" = true /\
  safeJoin "/srv/dev/" "/my_branch/index.html" = Some "/srv/dev/my_branch/index.html" /\
  regularOn Demo.disk "/srv/dev/my_branch/index.html" = true /\
  Regex.test false forbiddenRe "/my_branch/index.html" = true /\
  resStatus (fst (Demo.serve (Demo.get "dev.example.com" "/my_branch/" []))) = 404 /\
  resBody (fst (Demo.serve (Demo.get "dev.example.com" "/my_branch/" [])))
  = "404 Not Found" /\
  snd (Demo.serve (Demo.get "dev.example.com" "/my_branch/" [])) = [].
Proof. repeat split. Qed.

(** C5: the logical path mapper.  The prefix is the stripped branch segment
    (empty when branches are disabled or no branch segment leads the path);
    on the remaining path, [/] or [/<digits>] with an optional slash maps to
    [<prefix>/index.html], [/editor] or [/<digits>/editor] (optional slash,
    any case) to [<prefix>/editor.html], the same with [fullscreen] to
    [<prefix>/fullscreen.html]; when no rule applies the request path is
    used as it is. *)
Theorem C5_alias_rules (branches : bool) (p : string) :
  let prefix := fst (splitBranch branches p) in
  let rest := snd (splitBranch branches p) in
  ((branches = true /\
    exists b r, branchName b /\ p = "/" ++ b ++ "/" ++ r
                /\ prefix = "/" ++ b /\ rest = "/" ++ r)
   \/ ((branches = false \/ ~ branchShape p) /\ prefix = "" /\ rest = p)) /\
  (indexShape rest -> mapLogicalPath branches p = Some (prefix ++ "/index.html")) /\
  (aliasShape "editor" rest ->
     mapLogicalPath branches p = Some (prefix ++ "/editor.html")) /\
  (aliasShape "fullscreen" rest ->
     mapLogicalPath branches p = Some (prefix ++ "/fullscreen.html")) /\
  (~ indexShape rest -> ~ aliasShape "editor" rest -> ~ aliasShape "fullscreen" rest ->
     mapLogicalPath branches p = None /\
     forall req rootDir, path req = p ->
       pathName req {| logicalPath := mapLogicalPath branches p; reqRoot := rootDir |}
       = path req).
Proof.
  cbv zeta. split.
  - destruct branches.
    + destruct (Regex.matchGroup1 branchRe p) as [g|] eqn:E.
      * left. split; [reflexivity|].
        destruct (PatternFacts.matchGroup1_branch_inv _ _ E) as (r & Hg & ->).
        exists g, r. rewrite (MapperFacts.splitBranch_branch g r Hg). auto.
      * right. assert (Hn : ~ branchShape p).
        { intros (b & r & Hb & ->).
          rewrite (PatternFacts.matchGroup1_branch b r Hb) in E. discriminate. }
        rewrite (MapperFacts.splitBranch_no_branch _ Hn). auto.
    + right. rewrite MapperFacts.splitBranch_disabled. auto.
  - destruct (MapperFacts.mapLogicalPath_aliases branches p) as (Hi & He & Hf & Hn).
    cbv zeta in *. repeat split; auto.
    intros req rootDir _. unfold pathName. cbn [logicalPath]. now rewrite Hn.
Qed.

Lemma C5_alias_rules_witness :
  mapLogicalPath true "/feature-x/3/" = Some "/feature-x/index.html" /\
  mapLogicalPath false "/12/Editor" = Some "/editor.html" /\
  mapLogicalPath true "/feature-x/FULLSCREEN/" = Some "/feature-x/fullscreen.html".
Proof.
  assert (Hb : branchName "feature-x") by (split; [discriminate | reflexivity]).
  assert (H3 : digits "3") by (split; [discriminate | reflexivity]).
  assert (H12 : digits "12") by (split; [discriminate | reflexivity]).
  split; [|split].
  - destruct (C5_alias_rules true "/feature-x/3/") as (_ & Hi & _).
    apply Hi. right. exists "3", "/".
    split; [exact H3|]. split; [now right | reflexivity].
  - destruct (C5_alias_rules false "/12/Editor") as (_ & _ & He & _).
    apply He. exists "Editor", "".
    split; [reflexivity|]. split; [now left|].
    right. exists "12". split; [exact H12 | reflexivity].
  - destruct (C5_alias_rules true "/feature-x/FULLSCREEN/") as (_ & _ & _ & Hf & _).
    apply Hf. exists "FULLSCREEN", "/".
    split; [reflexivity|]. split; [now right | now left].
Defined.

(** C10: with branches enabled, a leading all-digit segment followed by a
    slash is taken as the branch prefix and kept in the path the server
    resolves: [/<digits>/] maps to [/<digits>/index.html] and
    [/<digits>/editor] to [/<digits>/editor.html]; with branches disabled
    the same two paths map to [/index.html] and [/editor.html]. *)
Theorem C10_digit_segment_is_branch (ds rest : string) :
  digits ds ->
  splitBranch true ("/" ++ ds ++ "/" ++ rest) = ("/" ++ ds, "/" ++ rest) /\
  (forall req rootDir,
     path req = "/" ++ ds ++ "/" ++ rest ->
     startsWith ("/" ++ ds ++ "/")
       (pathName req {| logicalPath := mapLogicalPath true (path req);
                        reqRoot := rootDir |}) = true) /\
  mapLogicalPath true ("/" ++ ds ++ "/") = Some ("/" ++ ds ++ "/index.html") /\
  mapLogicalPath true ("/" ++ ds ++ "/editor") = Some ("/" ++ ds ++ "/editor.html") /\
  mapLogicalPath false ("/" ++ ds ++ "/") = Some "/index.html" /\
  mapLogicalPath false ("/" ++ ds ++ "/editor") = Some "/editor.html".
Proof.
  intros Hds. pose proof (PatternFacts.digits_branchName _ Hds) as Hb.
  assert (Hsplit : forall r, splitBranch true ("/" ++ ds ++ "/" ++ r)
                             = ("/" ++ ds, "/" ++ r))
    by (intros r; now apply MapperFacts.splitBranch_branch).
  assert (Heditor : forall t, optionalSlash t -> aliasShape "editor" ("/editor" ++ t))
    by (intros t Ht; exists "editor", t; repeat split; auto).
  split; [apply Hsplit|]. split; [|repeat split].
  - intros req rootDir Hp. unfold pathName. cbn [logicalPath].
    destruct (mapLogicalPath true (path req)) as [l|] eqn:El.
    + rewrite Hp in El. unfold mapLogicalPath in El. rewrite Hsplit in El.
      assert (Hpre : forall target,
                startsWith ("/" ++ ds ++ "/") (("/" ++ ds) ++ String "/" target) = true).
      { intros target.
        replace (("/" ++ ds) ++ String "/" target)
          with (("/" ++ ds ++ "/") ++ target)
          by (simpl; now rewrite StringFacts.append_assoc).
        apply StringFacts.startsWith_append. }
      destruct (Regex.test false indexRe _); [injection El as <-; apply Hpre|].
      destruct (Regex.test true editorRe _); [injection El as <-; apply Hpre|].
      destruct (Regex.test true fullscreenRe _); [injection El as <-; apply Hpre|].
      discriminate.
    + rewrite Hp.
      replace ("/" ++ ds ++ "/" ++ rest) with (("/" ++ ds ++ "/") ++ rest)
        by (simpl; now rewrite StringFacts.append_assoc).
      apply StringFacts.startsWith_append.
  - destruct (MapperFacts.mapLogicalPath_aliases true ("/" ++ ds ++ "/" ++ ""))
      as (Hi & _).
    rewrite (Hsplit "") in Hi. cbn [fst snd] in Hi.
    exact (Hi (or_introl eq_refl)).
  - destruct (MapperFacts.mapLogicalPath_aliases true ("/" ++ ds ++ "/" ++ "editor"))
      as (_ & He & _).
    rewrite (Hsplit "editor") in He. cbn [fst snd] in He.
    exact (He (Heditor "" (or_introl eq_refl))).
  - destruct (MapperFacts.mapLogicalPath_aliases false ("/" ++ ds ++ "/")) as (Hi & _).
    rewrite MapperFacts.splitBranch_disabled in Hi. cbn [fst snd] in Hi.
    apply Hi. right. exists ds, "/". repeat split; try apply Hds. now right.
  - destruct (MapperFacts.mapLogicalPath_aliases false ("/" ++ ds ++ "/editor"))
      as (_ & He & _).
    rewrite MapperFacts.splitBranch_disabled in He. cbn [fst snd] in He.
    apply He. exists "editor", "". repeat split; [now left|].
    right. exists ds. split; [exact Hds | reflexivity].
Qed.

Lemma C10_digit_segment_is_branch_witness :
  mapLogicalPath true "/123/" = Some "/123/index.html" /\
  mapLogicalPath true "/123/editor" = Some "/123/editor.html" /\
  mapLogicalPath false "/123/" = Some "/index.html" /\
  mapLogicalPath false "/123/editor" = Some "/editor.html".
Proof.
  assert (H123 : digits "123") by (split; [discriminate | reflexivity]).
  destruct (C10_digit_segment_is_branch "123" "" H123) as (_ & _ & H1 & H2 & H3 & H4).
  repeat split; assumption.
Defined.

(** C8: on every successful response the [Last-Modified] header carries the
    modification time of the file that [findFile] resolved, while the body
    is read from the chosen encoded variant when there is one. *)
Theorem C8_last_modified_of_base_file
  (hostsTable : string -> option Host) (typesTable : string -> option FileTypeEntry)
  (world : World) (req : Request) (resp : Response) (log : list FsCall) :
  app hostsTable typesTable world req = (resp, log) ->
  resStatus resp = 200 ->
  exists host candidate file ft best log1 log2 contents,
    hosts hostsTable (hostname req) = Some host /\
    safeJoin (root host)
      (pathName req {| logicalPath := mapLogicalPath (branches host) (path req);
                       reqRoot := root host |}) = Some candidate /\
    findFile world candidate [] = (Ok (Some file), log1) /\
    getFileType typesTable (filePath file) = Some ft /\
    chooseEncoding world (acceptsEncodings req) (encodings ft) (filePath file) log1
      = (Ok best, log2) /\
    readFile world (match best with
                    | Some b => encodedPath b
                    | None => filePath file
                    end) log2 = (Ok contents, log) /\
    resBody resp = match method req with
                   | HEAD => ""
                   | _ => contents
                   end /\
    getHeader "Last-Modified" (resHeaders resp)
      = Some (HttpDate (mtime (fileStat file))).
Proof.
  intros Happ Hstatus.
  destruct (SuccessFacts.app_success _ _ _ _ _ _ Happ Hstatus)
    as (host & candidate & file & ft & best & log1 & log2 & contents
        & Hhost & Hjoin & Hfind & Htype & Hchoose & Hread & Hbody & _ & Hlm & _).
  exists host, candidate, file, ft, best, log1, log2, contents.
  repeat split; assumption.
Qed.

Lemma C8_last_modified_of_base_file_witness :
  resBody (fst (Demo.serve (Demo.get "example.com" "/blog/" ["br"]))) = "BR(blog)" /\
  getHeader "Last-Modified"
    (resHeaders (fst (Demo.serve (Demo.get "example.com" "/blog/" ["br"]))))
  = Some (HttpDate 7).
Proof.
  split; [reflexivity|].
  destruct (C8_last_modified_of_base_file Demo.hostsTable Demo.typesTable Demo.world
              (Demo.get "example.com" "/blog/" ["br"])
              (fst (Demo.serve (Demo.get "example.com" "/blog/" ["br"])))
              (snd (Demo.serve (Demo.get "example.com" "/blog/" ["br"])))
              eq_refl eq_refl)
    as (host & candidate & file & ft & best & log1 & log2 & contents
        & Hhost & Hjoin & Hfind & _ & _ & _ & _ & Hlm).
  rewrite Hlm. vm_compute in Hhost. injection Hhost as <-.
  vm_compute in Hjoin. injection Hjoin as <-.
  vm_compute in Hfind. injection Hfind as <- _. reflexivity.
Defined.

(** C9: on a successful response [Vary: Accept-Encoding] is present exactly
    when the type of the resolved file has at least one configured encoding,
    whether or not a variant was chosen, and [Content-Encoding] is present
    exactly when negotiation chose a variant, whose name it carries. *)
Theorem C9_vary_and_content_encoding
  (hostsTable : string -> option Host) (typesTable : string -> option FileTypeEntry)
  (world : World) (req : Request) (resp : Response) (log : list FsCall) :
  app hostsTable typesTable world req = (resp, log) ->
  resStatus resp = 200 ->
  exists host candidate file ft best log1 log2,
    hosts hostsTable (hostname req) = Some host /\
    safeJoin (root host)
      (pathName req {| logicalPath := mapLogicalPath (branches host) (path req);
                       reqRoot := root host |}) = Some candidate /\
    findFile world candidate [] = (Ok (Some file), log1) /\
    getFileType typesTable (filePath file) = Some ft /\
    chooseEncoding world (acceptsEncodings req) (encodings ft) (filePath file) log1
      = (Ok best, log2) /\
    (getHeader "Vary" (resHeaders resp) = Some (Text "Accept-Encoding")
     <-> encodings ft <> []) /\
    (getHeader "Vary" (resHeaders resp) = None <-> encodings ft = []) /\
    (getHeader "Content-Encoding" (resHeaders resp) = None <-> best = None) /\
    (forall b, best = Some b ->
       getHeader "Content-Encoding" (resHeaders resp) = Some (Text (encodedName b))).
Proof.
  intros Happ Hstatus.
  destruct (SuccessFacts.app_success _ _ _ _ _ _ Happ Hstatus)
    as (host & candidate & file & ft & best & log1 & log2 & contents
        & Hhost & Hjoin & Hfind & Htype & Hchoose & _ & _ & _ & _ & Hce & Hvary & _).
  exists host, candidate, file, ft, best, log1, log2.
  repeat (split; [assumption|]).
  rewrite Hvary, Hce. destruct (encodings ft), best; repeat split;
    intros; try discriminate; try congruence.
Qed.

Lemma C9_vary_and_content_encoding_witness :
  getHeader "Vary"
    (resHeaders (fst (Demo.serve (Demo.get "example.com" "/blog/" ["identity"]))))
  = Some (Text "Accept-Encoding") /\
  getHeader "Content-Encoding"
    (resHeaders (fst (Demo.serve (Demo.get "example.com" "/blog/" ["identity"]))))
  = None.
Proof.
  destruct (C9_vary_and_content_encoding Demo.hostsTable Demo.typesTable Demo.world
              (Demo.get "example.com" "/blog/" ["identity"])
              (fst (Demo.serve (Demo.get "example.com" "/blog/" ["identity"])))
              (snd (Demo.serve (Demo.get "example.com" "/blog/" ["identity"])))
              eq_refl eq_refl)
    as (host & candidate & file & ft & best & log1 & log2
        & Hhost & Hjoin & Hfind & Htype & Hchoose & Hvary & _ & Hce & _).
  vm_compute in Hhost. injection Hhost as <-.
  vm_compute in Hjoin. injection Hjoin as <-.
  vm_compute in Hfind. injection Hfind as <- <-.
  vm_compute in Htype. injection Htype as <-.
  vm_compute in Hchoose. injection Hchoose as <- _.
  split; [apply Hvary; discriminate | now apply Hce].
Defined.

(** C4: encoding negotiation on a disk that does not change during the
    request.  [chooseEncoding] returns the first variant, in configured
    order, whose name the client accepts and whose file
    [<basePath>.<suffix>] is a regular file: variants before it that are not
    accepted or not on disk are passed over, whatever the order of the
    client's list.  A request that resolves to a file of a known type is
    answered with that variant: its file is the one read, its name is in
    [Content-Encoding] and its bytes are the entity of the response (the
    body of a 200 response to GET); when there is no such variant the base
    file is read and sent without [Content-Encoding]. *)
Theorem C4_encoding_negotiation
  (hostsTable : string -> option Host) (typesTable : string -> option FileTypeEntry)
  (disk : Disk) :
  let world : World := fun _ => disk in
  (forall accepted configured basePath log,
     fst (chooseEncoding world accepted configured basePath log)
     = Ok match firstServable disk accepted basePath configured with
          | Some e => variantOf disk basePath e
          | None => None
          end) /\
  (forall accepted basePath skipped e later,
     Forall (fun e' => servable disk accepted basePath e' = false) skipped ->
     servable disk accepted basePath e = true ->
     firstServable disk accepted basePath (skipped ++ e :: later) = Some e) /\
  (forall accepted basePath configured,
     Forall (fun e' => servable disk accepted basePath e' = false) configured ->
     firstServable disk accepted basePath configured = None) /\
  (forall req host candidate file ft log1 contents,
     hosts hostsTable (hostname req) = Some host ->
     method req = GET \/ method req = HEAD ->
     startsWith "/" (path req) = true ->
     Regex.test false forbiddenRe (pathName req (resolvedFor host req)) = false ->
     safeJoin (root host) (pathName req (resolvedFor host req)) = Some candidate ->
     findFile world candidate [] = (Ok (Some file), log1) ->
     getFileType typesTable (filePath file) = Some ft ->
     let chosen :=
       firstServable disk (acceptsEncodings req) (filePath file) (encodings ft) in
     let served := match chosen with
                   | Some e => variantPath (filePath file) e
                   | None => filePath file
                   end in
     (exists node, disk served = Some node /\ data node = Some contents) ->
     let resp := fst (app hostsTable typesTable world req) in
     let log := snd (app hostsTable typesTable world req) in
     (exists statCalls,
        log = (statCalls ++ [ReadCall served])%list /\
        Forall (fun c => exists p, c = StatCall p) statCalls) /\
     getHeader "Content-Encoding" (resHeaders resp)
       = match chosen with
         | Some e => Some (Text (name e))
         | None => None
         end /\
     getHeader "ETag" (resHeaders resp) = Some (ETagOf contents) /\
     (freshFor req (Some (ETagOf contents)) (Some (HttpDate (mtime (fileStat file))))
      = false ->
      resStatus resp = 200 /\
      resBody resp = match method req with
                     | HEAD => ""
                     | _ => contents
                     end)).
Proof.
  intros world. split; [|split; [|split]].
  - intros. apply ServerFacts.chooseEncoding_stable.
  - intros accepted basePath skipped e later Hskip He. unfold firstServable.
    induction Hskip as [|e' skipped He' _ IH]; simpl.
    + now rewrite He.
    + now rewrite He'.
  - intros accepted basePath configured Hnone. unfold firstServable.
    induction Hnone as [|e' configured He' _ IH]; simpl; [reflexivity|].
    now rewrite He'.
  - intros req host candidate file ft log1 contents
      Hhost Hmethod Hslash Hfilter Hjoin Hfind Htype chosen served
      (node & Hnode & Hdata) resp log.
    pose proof (SuccessFacts.filtered_request_handled req host Hmethod Hslash Hfilter)
      as Hroute.
    destruct (NegotiationFacts.chooseEncoding_calls world (acceptsEncodings req)
                (encodings ft) (filePath file) log1)
      as (best & tried & Hchoose & _ & _).
    pose proof (ServerFacts.chooseEncoding_stable disk (acceptsEncodings req)
                  (encodings ft) (filePath file) log1) as Hstable.
    fold world in Hstable. rewrite Hchoose in Hstable. cbn [fst] in Hstable.
    injection Hstable as Hbest. fold chosen in Hbest.
    assert (Hserved : servedPath file best = served /\
                      servedEncoding best = match chosen with
                                            | Some e => Some (name e)
                                            | None => None
                                            end).
    { subst served. destruct chosen as [e|] eqn:Echosen.
      - unfold chosen in Echosen. apply find_some in Echosen as [_ Hserv].
        unfold servable in Hserv. apply andb_true_iff in Hserv as [_ Hserv].
        unfold variantOf in Hbest. unfold variantPath.
        destruct (disk (filePath file ++ "." ++ extension e)); [|discriminate].
        now subst best.
      - now subst best. }
    destruct Hserved as [Epath Eenc].
    set (log2 := (log1 ++ map (fun e => StatCall (variantPath (filePath file) e))
                            tried)%list) in *.
    assert (Hread : readFile world (servedPath file best) log2
                    = (Ok contents, (log2 ++ [ReadCall (servedPath file best)])%list)).
    { unfold readFile, world. now rewrite Epath, Hnode, Hdata. }
    pose proof (SuccessFacts.app_serves hostsTable typesTable world req host candidate
                  file ft best log1 log2 _ contents
                  Hhost Hroute Hfilter Hjoin Hfind Htype Hchoose Hread) as Happ.
    subst resp log. rewrite Happ. cbn [fst snd]. rewrite Epath.
    destruct (ResponseFacts.served_facts req ft file best contents)
      as (Rst & Rbody & _ & _ & Retag & _ & Rce & _).
    cbv zeta in Rst, Rbody.
    split; [|split; [|split]].
    + exists log2. split; [reflexivity|].
      apply Forall_app. split.
      * destruct (RunFacts.findFile_cases world candidate [])
          as [(found & E & _) | (found & dnode & E & _)];
          rewrite E in Hfind; injection Hfind as _ <-; repeat constructor; eauto.
      * apply Forall_forall. intros c Hc. apply in_map_iff in Hc as (e & <- & _). eauto.
    + rewrite Rce. unfold servedEncoding in Eenc.
      destruct best as [b|], chosen as [e|]; try discriminate; [|reflexivity].
      now injection Eenc as ->.
    + exact Retag.
    + intros Hstale. rewrite Hstale, andb_false_r in Rst, Rbody. now split.
Qed.

Lemma C4_encoding_negotiation_witness :
  firstServable Demo.disk ["gzip"; "br"] "/srv/www/index.html" [Demo.br; Demo.gzip]
  = Some Demo.gzip /\
  resBody (fst (Demo.serve (Demo.get "example.com" "/" ["gzip"; "br"]))) = "GZ(home)" /\
  getHeader "Content-Encoding"
    (resHeaders (fst (Demo.serve (Demo.get "example.com" "/" ["gzip"; "br"]))))
  = Some (Text "gzip") /\
  firstServable Demo.disk ["br"] "/srv/www/index.html" [Demo.br; Demo.gzip] = None /\
  resBody (fst (Demo.serve (Demo.get "example.com" "/" ["br"]))) = "<html>home</html>" /\
  getHeader "Content-Encoding"
    (resHeaders (fst (Demo.serve (Demo.get "example.com" "/" ["br"])))) = None.
Proof.
  destruct (C4_encoding_negotiation Demo.hostsTable Demo.typesTable Demo.disk)
    as (_ & Hfirst & Hnone & Hserve).
  split; [|split; [|split; [|split; [|split]]]].
  - apply (Hfirst ["gzip"; "br"] "/srv/www/index.html" [Demo.br] Demo.gzip []);
      [repeat constructor | reflexivity].
  - destruct (Hserve (Demo.get "example.com" "/" ["gzip"; "br"])
                {| root := "/srv/www/"; branches := false |} "/srv/www/index.html"
                {| filePath := "/srv/www/index.html";
                   fileStat := {| kind := RegularFile; mtime := 1000 |} |}
                {| type := "text/html"; encodings := [Demo.br; Demo.gzip] |}
                [StatCall "/srv/www/index.html"] "GZ(home)"
                eq_refl (or_introl eq_refl) eq_refl eq_refl eq_refl eq_refl eq_refl
                (ex_intro _ _ (conj eq_refl eq_refl)))
      as (_ & _ & _ & Hbody).
    exact (proj2 (Hbody eq_refl)).
  - destruct (Hserve (Demo.get "example.com" "/" ["gzip"; "br"])
                {| root := "/srv/www/"; branches := false |} "/srv/www/index.html"
                {| filePath := "/srv/www/index.html";
                   fileStat := {| kind := RegularFile; mtime := 1000 |} |}
                {| type := "text/html"; encodings := [Demo.br; Demo.gzip] |}
                [StatCall "/srv/www/index.html"] "GZ(home)"
                eq_refl (or_introl eq_refl) eq_refl eq_refl eq_refl eq_refl eq_refl
                (ex_intro _ _ (conj eq_refl eq_refl)))
      as (_ & Hce & _).
    exact Hce.
  - apply Hnone. repeat constructor.
  - destruct (Hserve (Demo.get "example.com" "/" ["br"])
                {| root := "/srv/www/"; branches := false |} "/srv/www/index.html"
                {| filePath := "/srv/www/index.html";
                   fileStat := {| kind := RegularFile; mtime := 1000 |} |}
                {| type := "text/html"; encodings := [Demo.br; Demo.gzip] |}
                [StatCall "/srv/www/index.html"] "<html>home</html>"
                eq_refl (or_introl eq_refl) eq_refl eq_refl eq_refl eq_refl eq_refl
                (ex_intro _ _ (conj eq_refl eq_refl)))
      as (_ & _ & _ & Hbody).
    exact (proj2 (Hbody eq_refl)).
  - destruct (Hserve (Demo.get "example.com" "/" ["br"])
                {| root := "/srv/www/"; branches := false |} "/srv/www/index.html"
                {| filePath := "/srv/www/index.html";
                   fileStat := {| kind := RegularFile; mtime := 1000 |} |}
                {| type := "text/html"; encodings := [Demo.br; Demo.gzip] |}
                [StatCall "/srv/www/index.html"] "<html>home</html>"
                eq_refl (or_introl eq_refl) eq_refl eq_refl eq_refl eq_refl eq_refl
                (ex_intro _ _ (conj eq_refl eq_refl)))
      as (_ & Hce & _).
    exact Hce.
Defined.

(** C7, as the specification states it, fails: [/srv/www/blog/] is a
    directory, [/srv/www/blog/index.html] is a regular file, and for a client
    that accepts [br] the body of the response is the content of
    [index.html.br], not the content of the index file. *)
Lemma C7_body_of_a_variant :
  (exists n, Demo.disk "/srv/www/blog/" = Some n /\ isDirectory (stats n) = true) /\
  (exists n, Demo.disk "/srv/www/blog/index.html" = Some n
             /\ isFile (stats n) = true /\ data n = Some "<html>blog</html>") /\
  safeJoin "/srv/www/" "/blog/" = Some "/srv/www/blog/" /\
  resStatus (fst (Demo.serve (Demo.get "example.com" "/blog/" ["br"]))) = 200 /\
  resBody (fst (Demo.serve (Demo.get "example.com" "/blog/" ["br"]))) = "BR(blog)" /\
  resBody (fst (Demo.serve (Demo.get "example.com" "/blog/" ["br"])))
  <> "<html>blog</html>".
Proof.
  split; [eexists; split; reflexivity|].
  split; [eexists; repeat split; reflexivity|].
  repeat split; try reflexivity. vm_compute. discriminate.
Qed.

(** C7, amended: when the joined candidate path is a directory and
    [<candidate>/index.html] is a regular file, resolution returns that index
    file with its own stats; a successful response then carries the index
    file's modification time in [Last-Modified], and its body, which a HEAD
    request does not receive, is the content of the index file or, when
    [Content-Encoding] is set, of the pre-encoded variant of the index file
    that negotiation chose.  When the candidate is a directory whose index
    file is missing or is not a regular file, resolution returns nothing. *)
Theorem C7_directory_index
  (hostsTable : string -> option Host) (typesTable : string -> option FileTypeEntry)
  (world : World) (req : Request) (host : Host) (candidate : string) (dnode : Node) :
  hosts hostsTable (hostname req) = Some host ->
  safeJoin (root host)
    (pathName req {| logicalPath := mapLogicalPath (branches host) (path req);
                     reqRoot := root host |}) = Some candidate ->
  world 0 candidate = Some dnode ->
  isDirectory (stats dnode) = true ->
  let indexFile := NodePath.join candidate "index.html" in
  (forall inode,
     world 1 indexFile = Some inode -> isFile (stats inode) = true ->
     findFile world candidate []
     = (Ok (Some {| filePath := indexFile; fileStat := stats inode |}),
        [StatCall candidate; StatCall indexFile]) /\
     forall resp log,
       app hostsTable typesTable world req = (resp, log) ->
       resStatus resp = 200 ->
       getHeader "Last-Modified" (resHeaders resp)
       = Some (HttpDate (mtime (stats inode))) /\
       exists served tick node contents,
         world tick served = Some node /\ data node = Some contents /\
         resBody resp = match method req with
                        | HEAD => ""
                        | _ => contents
                        end /\
         match getHeader "Content-Encoding" (resHeaders resp) with
         | None => served = indexFile
         | Some enc =>
             exists ft e,
               getFileType typesTable indexFile = Some ft /\
               In e (encodings ft) /\
               includes (name e) (acceptsEncodings req) = true /\
               enc = Text (name e) /\
               served = indexFile ++ "." ++ extension e
         end) /\
  ((world 1 indexFile = None \/
    exists n, world 1 indexFile = Some n /\ isFile (stats n) = false) ->
   findFile world candidate []
   = (Ok None, [StatCall candidate; StatCall indexFile])).
Proof.
  intros Hhost Hjoin Hdir Hisdir indexFile. split.
  - intros inode Hindex Hisfile.
    pose proof (ServerFacts.findFile_directory_index world candidate dnode inode []
                  Hdir Hisdir Hindex Hisfile) as Hfind.
    split; [exact Hfind|].
    intros resp log Happ Hstatus.
    destruct (SuccessFacts.app_success _ _ _ _ _ _ Happ Hstatus)
      as (host' & candidate' & file & ft & best & log1 & log2 & contents
          & Hhost' & Hjoin' & Hfind' & Htype & Hchoose & Hread & Hbody & _ & Hlm & Hce & _).
    rewrite Hhost in Hhost'. injection Hhost' as <-.
    unfold resolvedFor in Hjoin'. rewrite Hjoin in Hjoin'. injection Hjoin' as <-.
    rewrite Hfind in Hfind'. injection Hfind' as <- <-.
    split; [exact Hlm|].
    apply ServerFacts.readFile_ok in Hread as (_ & node & Hnode & Hdata).
    rewrite Hce. destruct best as [b|].
    + destruct (ServerFacts.chooseEncoding_some _ _ _ _ _ _ _ Hchoose)
        as (e & Hin & Hacc & Hname & Hpath & _).
      exists (encodedPath b), (List.length log2), node, contents.
      repeat split; try assumption.
      exists ft, e. rewrite Hname. repeat split; assumption.
    + exists indexFile, (List.length log2), node, contents. repeat split; assumption.
  - intros Hno.
    now apply (ServerFacts.findFile_directory_no_index world candidate dnode []).
Qed.

Lemma C7_directory_index_witness :
  findFile Demo.world "/srv/www/blog/" []
  = (Ok (Some {| filePath := "/srv/www/blog/index.html";
                 fileStat := {| kind := RegularFile; mtime := 7 |} |}),
     [StatCall "/srv/www/blog/"; StatCall "/srv/www/blog/index.html"]) /\
  getHeader "Last-Modified"
    (resHeaders (fst (Demo.serve (Demo.get "example.com" "/blog/" ["identity"]))))
  = Some (HttpDate 7) /\
  findFile Demo.world "/srv/www/empty/" []
  = (Ok None, [StatCall "/srv/www/empty/"; StatCall "/srv/www/empty/index.html"]).
Proof.
  split; [|split].
  - destruct (C7_directory_index Demo.hostsTable Demo.typesTable Demo.world
                (Demo.get "example.com" "/blog/" ["identity"])
                {| root := "/srv/www/"; branches := false |} "/srv/www/blog/"
                {| stats := {| kind := Directory; mtime := 5 |}; data := None |}
                eq_refl eq_refl eq_refl eq_refl) as (Hindex & _).
    exact (proj1 (Hindex {| stats := {| kind := RegularFile; mtime := 7 |};
                            data := Some "<html>blog</html>" |} eq_refl eq_refl)).
  - destruct (C7_directory_index Demo.hostsTable Demo.typesTable Demo.world
                (Demo.get "example.com" "/blog/" ["identity"])
                {| root := "/srv/www/"; branches := false |} "/srv/www/blog/"
                {| stats := {| kind := Directory; mtime := 5 |}; data := None |}
                eq_refl eq_refl eq_refl eq_refl) as (Hindex & _).
    destruct (Hindex {| stats := {| kind := RegularFile; mtime := 7 |};
                        data := Some "<html>blog</html>" |} eq_refl eq_refl)
      as (_ & Hresp).
    exact (proj1 (Hresp (fst (Demo.serve (Demo.get "example.com" "/blog/" ["identity"])))
                        (snd (Demo.serve (Demo.get "example.com" "/blog/" ["identity"])))
                        eq_refl eq_refl)).
  - destruct (C7_directory_index Demo.hostsTable Demo.typesTable Demo.world
                (Demo.get "example.com" "/empty/" [])
                {| root := "/srv/www/"; branches := false |} "/srv/www/empty/"
                {| stats := {| kind := Directory; mtime := 6 |}; data := None |}
                eq_refl eq_refl eq_refl eq_refl) as (_ & Hnone).
    apply Hnone. now left.
Defined.

(** ** Further properties of the responses *)



(** X2: status 500 is sent in exactly two cases: the router cannot decode
    an escape sequence of the path, or file resolution fails, that is the
    request reaches [findFile] and [findFile] returns nothing.  No other
    failure (rejected path, unknown type, failed read) reaches the
    error-handling middleware. *)
Theorem X2_internal_error_cases
  (hostsTable : string -> option Host) (typesTable : string -> option FileTypeEntry)
  (world : World) (req : Request) :
  resStatus (fst (app hostsTable typesTable world req)) = 500 <->
  exists host,
    hosts hostsTable (hostname req) = Some host /\
    (undecodable (path req) = true \/
     exists candidate log1,
       (method req = GET \/ method req = HEAD) /\
       startsWith "/" (path req) = true /\
       Regex.test false forbiddenRe (pathName req (resolvedFor host req)) = false /\
       safeJoin (root host) (pathName req (resolvedFor host req)) = Some candidate /\
       findFile world candidate [] = (Ok None, log1)).
Proof.
  pose proof (ResponseFacts.routeRes_etag req) as Hetag.
  split.
  - destruct (RunFacts.app_run hostsTable typesTable world req)
      as [Hh | host err Hh Hr | host Hh _ | host Hh _ _ | host c l Hh Hr Hf Hj Hfind
          | host c f l Hh _ _ _ _ _ | host c f ft b l1 l2 e Hh _ _ _ _ _ _ _
          | host c f ft b l1 l2 contents Hh _ _ _ _ _ _ _].
    + destruct (ResponseFacts.invalidHost_facts req) as (E & _). cbv zeta in E.
      rewrite E. discriminate.
    + intros _. exists host. split; [exact Hh|]. left.
      rewrite RouteFacts.routeLayer_main in Hr.
      destruct (undecodable (path req)); [reflexivity|].
      destruct (handled "/" req); discriminate.
    + destruct (ResponseFacts.notFound_facts req _ Hetag) as (E & _).
      cbv zeta in E. rewrite E. discriminate.
    + destruct (ResponseFacts.notFound_facts req _ Hetag) as (E & _).
      cbv zeta in E. rewrite E. discriminate.
    + intros _. exists host. split; [exact Hh|]. right. exists c, l.
      destruct (FilterFacts.handle_inv req Hr) as (Hm & Hs & _).
      repeat split; try assumption.
      destruct (method req); try discriminate; auto.
    + destruct (ResponseFacts.notFound_facts req _ Hetag) as (E & _).
      cbv zeta in E. rewrite E. discriminate.
    + destruct (ResponseFacts.notFound_facts req _ Hetag) as (E & _).
      cbv zeta in E. rewrite E. discriminate.
    + destruct (ResponseFacts.served_facts req ft f b contents) as (Rst & _).
      cbv zeta in Rst. rewrite Rst.
      destruct (isGetOrHead (method req) && freshFor req _ _); discriminate.
  - intros (host & Hh & [Hu | (candidate & log1 & Hm & Hs & Hf & Hj & Hfind)]).
    + rewrite (SuccessFacts.app_undecodable hostsTable typesTable world req host Hh Hu).
      now destruct (ResponseFacts.errorHandler_facts req URIError newRes eq_refl)
        as (E & _).
    + pose proof (SuccessFacts.filtered_request_handled req host Hm Hs Hf) as Hr.
      rewrite (SuccessFacts.app_resolution_failure hostsTable typesTable world
                 req host candidate log1 Hh Hr Hf Hj Hfind).
      now destruct (ResponseFacts.errorHandler_facts req TypeError _ Hetag) as (E & _).
Qed.

Lemma X2_internal_error_cases_witness :
  resStatus (fst (Demo.serve (Demo.get "example.com" "/empty/" []))) = 500 /\
  resStatus (fst (Demo.serve (Demo.get "example.com" "/%zz" []))) = 500.
Proof.
  split.
  - apply (X2_internal_error_cases Demo.hostsTable Demo.typesTable Demo.world
             (Demo.get "example.com" "/empty/" [])).
    exists {| root := "/srv/www/"; branches := false |}. split; [reflexivity|]. right.
    exists "/srv/www/empty/",
      [StatCall "/srv/www/empty/"; StatCall "/srv/www/empty/index.html"].
    repeat split; try reflexivity. now left.
  - apply (X2_internal_error_cases Demo.hostsTable Demo.typesTable Demo.world
             (Demo.get "example.com" "/%zz" [])).
    exists {| root := "/srv/www/"; branches := false |}. split; [reflexivity|].
    left. reflexivity.
Defined.

(** X3: a response with status 400, 404 or 500 is a plain-text message: its
    content type is [text/plain], its body is the fixed text of its status
    (announced by [Content-Length], not sent to a HEAD request), and it
    carries none of [Content-Encoding], [Vary] and [Last-Modified]. *)
Theorem X3_error_responses_are_plain
  (hostsTable : string -> option Host) (typesTable : string -> option FileTypeEntry)
  (world : World) (req : Request) :
  let resp := fst (app hostsTable typesTable world req) in
  let message := if Nat.eqb (resStatus resp) 400 then "Invalid Host"
                 else if Nat.eqb (resStatus resp) 404 then "404 Not Found"
                 else "Internal server error" in
  resStatus resp = 400 \/ resStatus resp = 404 \/ resStatus resp = 500 ->
  getHeader "Content-Type" (resHeaders resp) = Some (Text "text/plain; charset=utf-8") /\
  getHeader "Content-Length" (resHeaders resp) = Some (Length (String.length message)) /\
  resBody resp = match method req with
                 | HEAD => ""
                 | _ => message
                 end /\
  getHeader "Content-Encoding" (resHeaders resp) = None /\
  getHeader "Vary" (resHeaders resp) = None /\
  getHeader "Last-Modified" (resHeaders resp) = None.
Proof.
  cbv zeta.
  pose proof (ResponseFacts.routeRes_etag req) as Hetag.
  assert (Hnf : let resp := notFound req (routeRes req) in
    resStatus resp = 404 /\
    getHeader "Content-Type" (resHeaders resp) = Some (Text "text/plain; charset=utf-8") /\
    getHeader "Content-Length" (resHeaders resp) = Some (Length 13) /\
    resBody resp = match method req with HEAD => "" | _ => "404 Not Found" end /\
    getHeader "Content-Encoding" (resHeaders resp) = None /\
    getHeader "Vary" (resHeaders resp) = None /\
    getHeader "Last-Modified" (resHeaders resp) = None).
  { destruct (ResponseFacts.notFound_facts req _ Hetag)
      as (Hst & Hbody & Hct & Hcl & _ & Hother).
    cbv zeta in *.
    rewrite (Hother "Content-Encoding"), (Hother "Vary"), (Hother "Last-Modified")
      by discriminate.
    rewrite !ServerFacts.routeRes_other by discriminate. auto 10. }
  assert (Herr : forall err, let resp := errorHandler req err (routeRes req) in
    resStatus resp = 500 /\
    getHeader "Content-Type" (resHeaders resp) = Some (Text "text/plain; charset=utf-8") /\
    getHeader "Content-Length" (resHeaders resp) = Some (Length 21) /\
    resBody resp = match method req with HEAD => "" | _ => "Internal server error" end /\
    getHeader "Content-Encoding" (resHeaders resp) = None /\
    getHeader "Vary" (resHeaders resp) = None /\
    getHeader "Last-Modified" (resHeaders resp) = None).
  { intros err. destruct (ResponseFacts.errorHandler_facts req err _ Hetag)
      as (Hst & Hbody & Hct & Hcl & _ & Hother).
    cbv zeta in *.
    rewrite (Hother "Content-Encoding"), (Hother "Vary"), (Hother "Last-Modified")
      by discriminate.
    rewrite !ServerFacts.routeRes_other by discriminate. auto 10. }
  cbv zeta in Hnf, Herr.
  destruct (RunFacts.app_run hostsTable typesTable world req)
    as [Hh | host err Hh _ | host Hh _ | host Hh _ _ | host c l Hh _ _ _ _
        | host c f l Hh _ _ _ _ _ | host c f ft b l1 l2 e Hh _ _ _ _ _ _ _
        | host c f ft b l1 l2 contents Hh _ _ _ _ _ _ _];
    intros Hcode;
    try (destruct Hnf as (-> & H1 & H2 & H3 & H4 & H5 & H6); cbn [Nat.eqb];
         repeat split; assumption);
    try (destruct (Herr err) as (-> & H1 & H2 & H3 & H4 & H5 & H6); cbn [Nat.eqb];
         repeat split; assumption);
    try (destruct (Herr TypeError) as (-> & H1 & H2 & H3 & H4 & H5 & H6); cbn [Nat.eqb];
         repeat split; assumption).
  - destruct (ResponseFacts.invalidHost_facts req)
      as (Hst & Hbody & Hct & Hcl & _ & Hother).
    cbv zeta in *. rewrite Hst. cbn [Nat.eqb].
    rewrite (Hother "Content-Encoding"), (Hother "Vary"), (Hother "Last-Modified")
      by discriminate.
    repeat split; assumption.
  - exfalso. destruct (ResponseFacts.served_facts req ft f b contents) as (Rst & _).
    cbv zeta in Rst. rewrite Rst in Hcode.
    destruct (isGetOrHead (method req) && freshFor req _ _);
      destruct Hcode as [H | [H | H]]; discriminate.
Qed.

Lemma X3_error_responses_are_plain_witness :
  getHeader "Content-Type"
    (resHeaders (fst (Demo.serve (Demo.get "example.com" "/js/a b.js" []))))
  = Some (Text "text/plain; charset=utf-8") /\
  resBody (fst (Demo.serve (Demo.get "example.com" "/js/a b.js" []))) = "404 Not Found" /\
  getHeader "Vary"
    (resHeaders (fst (Demo.serve (Demo.get "example.com" "/js/a b.js" [])))) = None.
Proof.
  destruct (X3_error_responses_are_plain Demo.hostsTable Demo.typesTable Demo.world
              (Demo.get "example.com" "/js/a b.js" []))
    as (Hct & _ & Hbody & _ & Hvary & _).
  - right. left. reflexivity.
  - split; [exact Hct|]. split; [exact Hbody | exact Hvary].
Defined.

(** X4: a request whose method is neither GET nor HEAD never reaches a
    handler of the server: for every known host it is answered without any
    filesystem call and without [Cache-Control], with 404, or with 500 when
    the router cannot decode its path. *)
Theorem X4_other_methods_are_not_served
  (hostsTable : string -> option Host) (typesTable : string -> option FileTypeEntry)
  (world : World) (req : Request) (host : Host) :
  hostsTable (hostname req) = Some host ->
  method req <> GET -> method req <> HEAD ->
  let resp := fst (app hostsTable typesTable world req) in
  snd (app hostsTable typesTable world req) = [] /\
  getHeader "Cache-Control" (resHeaders resp) = None /\
  resStatus resp = (if undecodable (path req) then 500 else 404) /\
  resBody resp = (if undecodable (path req) then "Internal server error"
                  else "404 Not Found").
Proof.
  intros Hhost Hget Hhead. cbv zeta.
  assert (Hhosts : hosts hostsTable (hostname req)
                   = Some {| root := NodePath.join (root host) "/";
                             branches := branches host |})
    by (unfold hosts; now rewrite Hhost).
  destruct (undecodable (path req)) eqn:Hu.
  - rewrite (SuccessFacts.app_undecodable hostsTable typesTable world req _ Hhosts Hu).
    destruct (ResponseFacts.errorHandler_facts req URIError newRes eq_refl)
      as (Hst & Hbody & _ & _ & _ & Hother).
    cbv zeta in *. cbn [fst snd]. rewrite Hother by discriminate.
    repeat split; try assumption. rewrite Hbody. destruct (method req); congruence.
  - assert (Hh : handled "/" req = false)
      by (unfold handled; destruct (method req); congruence || reflexivity).
    rewrite (SuccessFacts.app_not_routed hostsTable typesTable world req _ Hhosts Hu Hh).
    destruct (ResponseFacts.notFound_facts req newRes eq_refl)
      as (Hst & Hbody & _ & _ & _ & Hother).
    cbv zeta in *. cbn [fst snd]. rewrite Hother by discriminate.
    repeat split; try assumption. rewrite Hbody. destruct (method req); congruence.
Qed.

Lemma X4_other_methods_are_not_served_witness :
  snd (Demo.serve (Demo.request POST "example.com" "/js/app.js" [])) = [] /\
  resStatus (fst (Demo.serve (Demo.request POST "example.com" "/js/app.js" []))) = 404 /\
  resStatus (fst (Demo.serve (Demo.request POST "example.com" "/%zz" []))) = 500.
Proof.
  destruct (X4_other_methods_are_not_served Demo.hostsTable Demo.typesTable Demo.world
              (Demo.request POST "example.com" "/js/app.js" [])
              {| root := "/srv/www"; branches := false |} eq_refl)
    as (Hlog & _ & Hst & _); [discriminate | discriminate|].
  destruct (X4_other_methods_are_not_served Demo.hostsTable Demo.typesTable Demo.world
              (Demo.request POST "example.com" "/%zz" [])
              {| root := "/srv/www"; branches := false |} eq_refl)
    as (_ & _ & Hst' & _); [discriminate | discriminate|].
  split; [exact Hlog|]. split; [exact Hst | exact Hst'].
Defined.

(** X5: when the extension of the resolved file is not in the type table,
    the answer is 404 and the file is not read: the only filesystem calls
    are the one or two [stat] calls of the resolution. *)
Theorem X5_unsupported_type_is_not_read
  (hostsTable : string -> option Host) (typesTable : string -> option FileTypeEntry)
  (world : World) (req : Request) (host : Host) (candidate : string) (file : File)
  (log1 : list FsCall) :
  hosts hostsTable (hostname req) = Some host ->
  method req = GET \/ method req = HEAD ->
  startsWith "/" (path req) = true ->
  Regex.test false forbiddenRe (pathName req (resolvedFor host req)) = false ->
  safeJoin (root host) (pathName req (resolvedFor host req)) = Some candidate ->
  findFile world candidate [] = (Ok (Some file), log1) ->
  fileTypes typesTable (NodePath.extname (filePath file)) = None ->
  app hostsTable typesTable world req = (notFound req (routeRes req), log1) /\
  resStatus (notFound req (routeRes req)) = 404 /\
  (log1 = [StatCall candidate] \/
   log1 = [StatCall candidate; StatCall (NodePath.join candidate "index.html")]).
Proof.
  intros Hhost Hmethod Hslash Hfilter Hjoin Hfind Htype.
  pose proof (SuccessFacts.filtered_request_handled req host Hmethod Hslash Hfilter)
    as Hroute.
  split; [|split].
  - now apply SuccessFacts.app_unsupported with (host := host) (candidate := candidate)
                                                (file := file).
  - now destruct (ResponseFacts.notFound_facts req _ (ResponseFacts.routeRes_etag req))
      as (E & _).
  - destruct (RunFacts.findFile_cases world candidate [])
      as [(found & E & _) | (found & dnode & E & _)];
      rewrite E in Hfind; injection Hfind as _ <-; auto.
Qed.

Lemma X5_unsupported_type_is_not_read_witness :
  Demo.serve (Demo.get "example.com" "/index.html.gz" [])
  = (notFound (Demo.get "example.com" "/index.html.gz" []) newRes,
     [StatCall "/srv/www/index.html.gz"]).
Proof.
  exact (proj1 (X5_unsupported_type_is_not_read Demo.hostsTable Demo.typesTable
                  Demo.world (Demo.get "example.com" "/index.html.gz" [])
                  {| root := "/srv/www/"; branches := false |}
                  "/srv/www/index.html.gz"
                  {| filePath := "/srv/www/index.html.gz";
                     fileStat := {| kind := RegularFile; mtime := 1001 |} |}
                  [StatCall "/srv/www/index.html.gz"]
                  eq_refl (or_introl eq_refl) eq_refl eq_refl eq_refl eq_refl eq_refl)).
Defined.

(** X6: when the file to serve can no longer be read after it was resolved
    (it vanished, or reading it fails), the answer is 404, not an error
    status, and the failed read is the last filesystem call. *)
Theorem X6_failed_read_is_not_found
  (hostsTable : string -> option Host) (typesTable : string -> option FileTypeEntry)
  (world : World) (req : Request) (host : Host) (candidate : string) (file : File)
  (ft : FileType) (best : option Encoded) (log1 log2 : list FsCall) :
  hosts hostsTable (hostname req) = Some host ->
  method req = GET \/ method req = HEAD ->
  startsWith "/" (path req) = true ->
  Regex.test false forbiddenRe (pathName req (resolvedFor host req)) = false ->
  safeJoin (root host) (pathName req (resolvedFor host req)) = Some candidate ->
  findFile world candidate [] = (Ok (Some file), log1) ->
  getFileType typesTable (filePath file) = Some ft ->
  chooseEncoding world (acceptsEncodings req) (encodings ft) (filePath file) log1
    = (Ok best, log2) ->
  (world (List.length log2) (servedPath file best) = None \/
   exists node, world (List.length log2) (servedPath file best) = Some node
                /\ data node = None) ->
  app hostsTable typesTable world req
  = (notFound req (routeRes req),
     (log2 ++ [ReadCall (servedPath file best)])%list) /\
  resStatus (notFound req (routeRes req)) = 404.
Proof.
  intros Hhost Hmethod Hslash Hfilter Hjoin Hfind Htype Hchoose Hgone.
  pose proof (SuccessFacts.filtered_request_handled req host Hmethod Hslash Hfilter)
    as Hroute.
  split.
  - assert (Hread : readFile world (servedPath file best) log2
                    = (Throw FsError, (log2 ++ [ReadCall (servedPath file best)])%list)).
    { unfold readFile. destruct Hgone as [-> | (node & -> & ->)]; reflexivity. }
    exact (SuccessFacts.app_read_fails hostsTable typesTable world req host candidate
             file ft best log1 log2 _ FsError
             Hhost Hroute Hfilter Hjoin Hfind Htype Hchoose Hread).
  - now destruct (ResponseFacts.notFound_facts req _ (ResponseFacts.routeRes_etag req))
      as (E & _).
Qed.

Lemma X6_failed_read_is_not_found_witness :
  app Demo.hostsTable Demo.typesTable
    (fun tick => if Nat.ltb tick 1 then Demo.disk else fun _ => None)
    (Demo.get "example.com" "/logo.png" [])
  = (notFound (Demo.get "example.com" "/logo.png" []) newRes,
     [StatCall "/srv/www/logo.png"; ReadCall "/srv/www/logo.png"]).
Proof.
  exact (proj1 (X6_failed_read_is_not_found Demo.hostsTable Demo.typesTable
                  (fun tick => if Nat.ltb tick 1 then Demo.disk else fun _ => None)
                  (Demo.get "example.com" "/logo.png" [])
                  {| root := "/srv/www/"; branches := false |}
                  "/srv/www/logo.png"
                  {| filePath := "/srv/www/logo.png";
                     fileStat := {| kind := RegularFile; mtime := 9 |} |}
                  {| type := "image/png"; encodings := [] |} None
                  [StatCall "/srv/www/logo.png"] [StatCall "/srv/www/logo.png"]
                  eq_refl (or_introl eq_refl) eq_refl eq_refl eq_refl eq_refl eq_refl
                  eq_refl (or_introl eq_refl))).
Defined.

(** X7: the filesystem calls of encoding negotiation.  [chooseEncoding]
    never throws; it stats the variants of the configured encodings that the
    client accepts, in configured order, and nothing else; it stops at the
    first one that is a regular file and returns it with the stats it saw:
    every variant it passed over was not a regular file when it was looked
    at, and it returns nothing only when that holds of all of them. *)
Theorem X7_negotiation_calls
  (world : World) (accepted : list string) (configured : list Encoding)
  (basePath : string) (log : list FsCall) :
  exists best tried,
    chooseEncoding world accepted configured basePath log
    = (Ok best, (log ++ map (fun e => StatCall (variantPath basePath e)) tried)%list) /\
    initialPart tried (acceptedOf accepted configured) /\
    match best with
    | Some b =>
        exists earlier e node,
          tried = (earlier ++ [e])%list /\
          (forall i e', nth_error earlier i = Some e' ->
             regularOn (world (List.length log + i)) (variantPath basePath e') = false) /\
          world (List.length log + List.length earlier) (variantPath basePath e)
            = Some node /\
          isFile (stats node) = true /\
          b = {| encodedName := name e;
                 encodedPath := variantPath basePath e;
                 encodedStat := stats node |}
    | None =>
        tried = acceptedOf accepted configured /\
        (forall i e', nth_error tried i = Some e' ->
           regularOn (world (List.length log + i)) (variantPath basePath e') = false)
    end.
Proof. apply NegotiationFacts.chooseEncoding_calls. Qed.

Lemma X7_negotiation_calls_witness :
  chooseEncoding Demo.world ["gzip"; "br"] [Demo.br; Demo.gzip] "/srv/www/index.html" []
  = (Ok (Some {| encodedName := "gzip";
                 encodedPath := "/srv/www/index.html.gz";
                 encodedStat := {| kind := RegularFile; mtime := 1001 |} |}),
     [StatCall "/srv/www/index.html.br"; StatCall "/srv/www/index.html.gz"]) /\
  regularOn (Demo.world 0) "/srv/www/index.html.br" = false.
Proof.
  destruct (X7_negotiation_calls Demo.world ["gzip"; "br"] [Demo.br; Demo.gzip]
              "/srv/www/index.html" [])
    as (best & tried & Hrun & _ & Hbest).
  assert (Hval : chooseEncoding Demo.world ["gzip"; "br"] [Demo.br; Demo.gzip]
                   "/srv/www/index.html" []
                 = (Ok (Some {| encodedName := "gzip";
                                encodedPath := "/srv/www/index.html.gz";
                                encodedStat := {| kind := RegularFile; mtime := 1001 |} |}),
                    [StatCall "/srv/www/index.html.br";
                     StatCall "/srv/www/index.html.gz"]))
    by reflexivity.
  split; [exact Hval|].
  rewrite Hval in Hrun. injection Hrun as <- Htried.
  destruct Hbest as (earlier & e & node & -> & Hskip & _).
  destruct earlier as [|e0 [|e1 earlier]]; cbn [app map] in Htried.
  - discriminate Htried.
  - injection Htried as H0 _. rewrite H0. exact (Hskip 0 e0 eq_refl).
  - injection Htried as _ _ Htried. destruct earlier; discriminate Htried.
Defined.

(** X8: negotiation looks at the client's list only to ask whether a name is
    in it: two lists with the same members, in any order and with any
    repetition, give the same result and the same filesystem calls. *)
Theorem X8_negotiation_ignores_client_order
  (world : World) (accepted accepted' : list string) (configured : list Encoding)
  (basePath : string) (log : list FsCall) :
  (forall n, In n accepted <-> In n accepted') ->
  chooseEncoding world accepted configured basePath log
  = chooseEncoding world accepted' configured basePath log.
Proof.
  intros Hsame.
  assert (Hin : forall l n, includes n l = true <-> In n l).
  { induction l as [|y l IHl]; intros n; simpl; [split; [discriminate | tauto]|].
    rewrite orb_true_iff, String.eqb_eq, IHl. reflexivity. }
  assert (Hinc : forall n, includes n accepted = includes n accepted').
  { intros n. destruct (includes n accepted) eqn:E1, (includes n accepted') eqn:E2;
      try reflexivity.
    - apply Hin, Hsame, Hin in E1. congruence.
    - apply Hin, Hsame, Hin in E2. congruence. }
  revert log. induction configured as [|e es IH]; intros log; [reflexivity|].
  cbn [chooseEncoding]. rewrite <- Hinc.
  destruct (negb (includes (name e) accepted)); [apply IH|].
  unfold bind. destruct (tryCatch _ _ log) as [[[b|]|err] log']; auto.
Qed.

Lemma X8_negotiation_ignores_client_order_witness :
  chooseEncoding Demo.world ["gzip"; "br"] [Demo.br; Demo.gzip]
    "/srv/www/blog/index.html" []
  = chooseEncoding Demo.world ["br"; "br"; "gzip"] [Demo.br; Demo.gzip]
      "/srv/www/blog/index.html" [].
Proof.
  apply X8_negotiation_ignores_client_order.
  intros n. simpl. tauto.
Defined.

(** X9: [findFile] never throws, and what it does is settled by what
    [fs.stat] reports.  A candidate that is a regular file is returned with
    its stats after one call.  For a candidate that is a directory a second
    call looks at its [index.html], which is returned with its own stats
    when it is a regular file; otherwise nothing is returned.  A candidate
    that does not exist, or is neither a regular file nor a directory (a
    socket, a device), yields nothing after one call. *)
Theorem X9_findFile_by_cases
  (world : World) (candidate : string) (log : list FsCall) :
  let indexFile := NodePath.join candidate "index.html" in
  let tick := List.length log in
  (world tick candidate = None ->
   findFile world candidate log = (Ok None, (log ++ [StatCall candidate])%list)) /\
  (forall node,
     world tick candidate = Some node -> isFile (stats node) = true ->
     findFile world candidate log
     = (Ok (Some {| filePath := candidate; fileStat := stats node |}),
        (log ++ [StatCall candidate])%list)) /\
  (forall node,
     world tick candidate = Some node ->
     isFile (stats node) = false -> isDirectory (stats node) = false ->
     findFile world candidate log = (Ok None, (log ++ [StatCall candidate])%list)) /\
  (forall dnode,
     world tick candidate = Some dnode -> isDirectory (stats dnode) = true ->
     (forall inode,
        world (S tick) indexFile = Some inode -> isFile (stats inode) = true ->
        findFile world candidate log
        = (Ok (Some {| filePath := indexFile; fileStat := stats inode |}),
           (log ++ [StatCall candidate; StatCall indexFile])%list)) /\
     (regularOn (world (S tick)) indexFile = false ->
      findFile world candidate log
      = (Ok None, (log ++ [StatCall candidate; StatCall indexFile])%list))).
Proof.
  cbv zeta. split; [|split; [|split]].
  - apply ServerFacts.findFile_missing.
  - intros node. apply ServerFacts.findFile_regular.
  - intros node. apply ServerFacts.findFile_special.
  - intros dnode Hd Hdir. split.
    + intros inode. now apply ServerFacts.findFile_directory_index with dnode.
    + intros Hno. apply ServerFacts.findFile_directory_no_index with dnode; auto.
      unfold regularOn in Hno.
      destruct (world (S (List.length log)) (NodePath.join candidate "index.html"))
        as [n|]; [right; now exists n | now left].
Qed.

Lemma X9_findFile_by_cases_witness :
  findFile Demo.world "/srv/www/logo.png" []
  = (Ok (Some {| filePath := "/srv/www/logo.png";
                 fileStat := {| kind := RegularFile; mtime := 9 |} |}),
     [StatCall "/srv/www/logo.png"]) /\
  findFile Demo.world "/srv/www/blog/" []
  = (Ok (Some {| filePath := "/srv/www/blog/index.html";
                 fileStat := {| kind := RegularFile; mtime := 7 |} |}),
     [StatCall "/srv/www/blog/"; StatCall "/srv/www/blog/index.html"]) /\
  findFile Demo.world "/srv/www/empty/" []
  = (Ok None, [StatCall "/srv/www/empty/"; StatCall "/srv/www/empty/index.html"]) /\
  findFile Demo.world "/srv/www/nothing" [] = (Ok None, [StatCall "/srv/www/nothing"]).
Proof.
  split; [|split; [|split]].
  - destruct (X9_findFile_by_cases Demo.world "/srv/www/logo.png" [])
      as (_ & Hfile & _).
    exact (Hfile {| stats := {| kind := RegularFile; mtime := 9 |}; data := Some "PNG" |}
             eq_refl eq_refl).
  - destruct (X9_findFile_by_cases Demo.world "/srv/www/blog/" [])
      as (_ & _ & _ & Hdir).
    destruct (Hdir {| stats := {| kind := Directory; mtime := 5 |}; data := None |}
                eq_refl eq_refl) as (Hindex & _).
    exact (Hindex {| stats := {| kind := RegularFile; mtime := 7 |};
                     data := Some "<html>blog</html>" |} eq_refl eq_refl).
  - destruct (X9_findFile_by_cases Demo.world "/srv/www/empty/" [])
      as (_ & _ & _ & Hdir).
    destruct (Hdir {| stats := {| kind := Directory; mtime := 6 |}; data := None |}
                eq_refl eq_refl) as (_ & Hnone).
    exact (Hnone eq_refl).
  - destruct (X9_findFile_by_cases Demo.world "/srv/www/nothing" []) as (Hmissing & _).
    exact (Hmissing eq_refl).
Defined.

(** The calls of a request: [stat] calls only, or [stat] calls followed
    by one read of a path that one of them reported as a regular file. *)
Lemma app_calls
  (hostsTable : string -> option Host) (typesTable : string -> option FileTypeEntry)
  (world : World) (req : Request) :
  let log := snd (app hostsTable typesTable world req) in
  (Forall (fun c => exists p, c = StatCall p) log /\ List.length log <= 2) \/
  (exists statCalls served tick node,
     log = (statCalls ++ [ReadCall served])%list /\
     Forall (fun c => exists p, c = StatCall p) statCalls /\
     (forall N,
        (forall ext ft, fileTypes typesTable ext = Some ft ->
                        List.length (encodings ft) <= N) ->
        List.length statCalls <= N + 2) /\
     nth_error statCalls tick = Some (StatCall served) /\
     world tick served = Some node /\
     isFile (stats node) = true).
Proof.
  cbv zeta.
  assert (Hresolved : forall candidate file log1,
    findFile world candidate [] = (Ok (Some file), log1) ->
    Forall (fun c => exists p, c = StatCall p) log1 /\ List.length log1 <= 2 /\
    exists tick node, nth_error log1 tick = Some (StatCall (filePath file)) /\
                      world tick (filePath file) = Some node /\
                      isFile (stats node) = true).
  { intros candidate file log1 Hfind.
    destruct (RunFacts.findFile_cases world candidate [])
      as [(found & E & Hf) | (found & dnode & E & _ & _ & Hf)];
      rewrite E in Hfind; injection Hfind as -> <-;
      destruct Hf as (node & Hw & Hfile & ->); cbn [filePath List.length app].
    - split; [repeat constructor; eauto|]. split; [lia|].
      now exists 0, node.
    - split; [repeat constructor; eauto|]. split; [lia|].
      now exists 1, node. }
  assert (Hfailed : forall candidate log1,
    findFile world candidate [] = (Ok None, log1) ->
    Forall (fun c => exists p, c = StatCall p) log1 /\ List.length log1 <= 2).
  { intros candidate log1 Hfind.
    destruct (RunFacts.findFile_cases world candidate [])
      as [(found & E & _) | (found & dnode & E & _)];
      rewrite E in Hfind; injection Hfind as _ <-;
      (split; [repeat constructor; eauto | cbn; lia]). }
  assert (Hread : forall candidate file ft best log1 log2,
    findFile world candidate [] = (Ok (Some file), log1) ->
    getFileType typesTable (filePath file) = Some ft ->
    chooseEncoding world (acceptsEncodings req) (encodings ft) (filePath file) log1
      = (Ok best, log2) ->
    exists tick node,
      Forall (fun c => exists p, c = StatCall p) log2 /\
      (forall N,
         (forall ext ft, fileTypes typesTable ext = Some ft ->
                         List.length (encodings ft) <= N) ->
         List.length log2 <= N + 2) /\
      nth_error log2 tick = Some (StatCall (servedPath file best)) /\
      world tick (servedPath file best) = Some node /\
      isFile (stats node) = true).
  { intros candidate file ft best log1 log2 Hfind Htype Hchoose.
    destruct (Hresolved _ _ _ Hfind) as (Hstats & Hlen & tick & node & Hnth & Hw & Hf).
    destruct (NegotiationFacts.chooseEncoding_calls world (acceptsEncodings req)
                (encodings ft) (filePath file) log1)
      as (best' & tried & Hrun & (rest & Hrest) & Hbest).
    rewrite Hrun in Hchoose. injection Hchoose as -> <-.
    assert (Htried : List.length tried <= List.length (encodings ft)).
    { assert (Hfilter : List.length (acceptedOf (acceptsEncodings req) (encodings ft))
                        <= List.length (encodings ft))
        by apply filter_length_le.
      rewrite Hrest, length_app in Hfilter. lia. }
    assert (Hall : Forall (fun c => exists p, c = StatCall p)
                     (log1 ++ map (fun e => StatCall (variantPath (filePath file) e))
                                tried)).
    { apply Forall_app. split; [exact Hstats|].
      apply Forall_forall. intros c Hc. apply in_map_iff in Hc as (e & <- & _). eauto. }
    assert (Hlen2 : forall N,
      (forall ext ft, fileTypes typesTable ext = Some ft ->
                      List.length (encodings ft) <= N) ->
      List.length (log1 ++ map (fun e => StatCall (variantPath (filePath file) e)) tried)
      <= N + 2).
    { intros N Hbound. pose proof (Hbound _ _ Htype) as Hn.
      rewrite length_app, length_map. lia. }
    destruct best as [b|].
    - destruct Hbest as (earlier & e & vnode & -> & _ & Hvw & Hvf & ->).
      exists (List.length log1 + List.length earlier), vnode.
      cbn [servedPath encodedPath]. repeat split; auto.
      rewrite nth_error_app2 by lia.
      replace (List.length log1 + List.length earlier - List.length log1)
        with (List.length earlier) by lia.
      rewrite map_app, nth_error_app2 by (rewrite length_map; lia).
      rewrite length_map, Nat.sub_diag. reflexivity.
    - exists tick, node. cbn [servedPath]. repeat split; auto.
      rewrite nth_error_app1; [exact Hnth|].
      apply nth_error_Some. congruence. }
  destruct (RunFacts.app_run hostsTable typesTable world req)
    as [Hh | host err Hh _ | host Hh _ | host Hh _ _ | host c l Hh _ _ _ Hfind
        | host c f l Hh _ _ _ Hfind _
        | host c f ft b l1 l2 e Hh _ _ _ Hfind Htype Hchoose _
        | host c f ft b l1 l2 contents Hh _ _ _ Hfind Htype Hchoose _].
  - left. split; [constructor | cbn; lia].
  - left. split; [constructor | cbn; lia].
  - left. split; [constructor | cbn; lia].
  - left. split; [constructor | cbn; lia].
  - left. now apply Hfailed with c.
  - left. destruct (Hresolved _ _ _ Hfind) as (H1 & H2 & _). now split.
  - right. destruct (Hread _ _ _ _ _ _ Hfind Htype Hchoose)
      as (tick & node & H1 & H2 & H3 & H4 & H5).
    now exists l2, (servedPath f b), tick, node.
  - right. destruct (Hread _ _ _ _ _ _ Hfind Htype Hchoose)
      as (tick & node & H1 & H2 & H3 & H4 & H5).
    now exists l2, (servedPath f b), tick, node.
Qed.

(** X10: a request costs a bounded number of filesystem calls: when no file
    type has more than [N] configured encodings, at most [N + 3] calls are
    made, and a read, if there is one, is the last of them (so at most one
    file is read). *)
Theorem X10_bounded_filesystem_calls
  (hostsTable : string -> option Host) (typesTable : string -> option FileTypeEntry)
  (world : World) (req : Request) (N : nat) :
  (forall ext ft, fileTypes typesTable ext = Some ft ->
                  List.length (encodings ft) <= N) ->
  let log := snd (app hostsTable typesTable world req) in
  List.length log <= N + 3 /\
  (forall i p, nth_error log i = Some (ReadCall p) -> S i = List.length log).
Proof.
  intros Hbound log.
  destruct (app_calls hostsTable typesTable world req)
    as [(Hstats & Hlen)
       | (statCalls & served & tick & node & Hlog & Hstats & Hlen & _)];
    fold log in Hstats, Hlen || fold log in Hlog.
  - split; [lia|]. intros i p Hnth. apply nth_error_In in Hnth.
    rewrite Forall_forall in Hstats. destruct (Hstats _ Hnth) as (q & Hq). discriminate.
  - specialize (Hlen N Hbound). rewrite Hlog, last_length. split; [lia|].
    intros i p Hnth. destruct (Nat.lt_ge_cases i (List.length statCalls)) as [Hlt | Hge].
    + rewrite nth_error_app1 in Hnth by assumption. apply nth_error_In in Hnth.
      rewrite Forall_forall in Hstats. destruct (Hstats _ Hnth) as (q & Hq).
      discriminate.
    + assert (Hi : i < S (List.length statCalls)).
      { rewrite <- (last_length statCalls (ReadCall served)).
        apply nth_error_Some. congruence. }
      lia.
Qed.

Lemma X10_bounded_filesystem_calls_witness :
  List.length (snd (Demo.serve (Demo.get "example.com" "/blog/" ["gzip"]))) <= 2 + 3.
Proof.
  apply (X10_bounded_filesystem_calls Demo.hostsTable Demo.typesTable Demo.world
           (Demo.get "example.com" "/blog/" ["gzip"]) 2).
  intros ext ft. unfold fileTypes, Demo.typesTable.
  destruct (String.eqb ext ".html"); [intros [= <-]; cbn; lia|].
  destruct (String.eqb ext ".png"); [intros [= <-]; cbn; lia | discriminate].
Defined.

(** X11: the server only reads what it has seen as a regular file: every
    path handed to [fs.readFile] was handed to [fs.stat] earlier in the same
    request, and that call reported a regular file. *)
Theorem X11_reads_follow_a_regular_stat
  (hostsTable : string -> option Host) (typesTable : string -> option FileTypeEntry)
  (world : World) (req : Request) (i : nat) (p : string) :
  let log := snd (app hostsTable typesTable world req) in
  nth_error log i = Some (ReadCall p) ->
  exists tick node,
    tick < i /\ nth_error log tick = Some (StatCall p) /\
    world tick p = Some node /\ isFile (stats node) = true.
Proof.
  intros log Hnth.
  destruct (app_calls hostsTable typesTable world req)
    as [(Hstats & Hlen)
       | (statCalls & served & tick & node & Hlog & Hstats & _ & Htick & Hw & Hf)];
    fold log in Hstats, Hlen || fold log in Hlog.
  - apply nth_error_In in Hnth.
    rewrite Forall_forall in Hstats. destruct (Hstats _ Hnth) as (q & Hq). discriminate.
  - assert (Hlt : tick < List.length statCalls)
      by (apply nth_error_Some; congruence).
    rewrite Hlog in Hnth |- *.
    destruct (Nat.lt_ge_cases i (List.length statCalls)) as [Hi | Hi].
    + rewrite nth_error_app1 in Hnth by assumption. apply nth_error_In in Hnth.
      rewrite Forall_forall in Hstats. destruct (Hstats _ Hnth) as (q & Hq).
      discriminate.
    + rewrite nth_error_app2 in Hnth by assumption.
      destruct (i - List.length statCalls) as [|k] eqn:Ek;
        [|destruct k; discriminate].
      injection Hnth as <-.
      exists tick, node. repeat split; auto; [lia|].
      now rewrite nth_error_app1.
Qed.

Lemma X11_reads_follow_a_regular_stat_witness :
  exists tick node,
    tick < 2 /\
    nth_error (snd (Demo.serve (Demo.get "example.com" "/blog/" ["identity"]))) tick
    = Some (StatCall "/srv/www/blog/index.html") /\
    Demo.world tick "/srv/www/blog/index.html" = Some node /\
    isFile (stats node) = true.
Proof.
  exact (X11_reads_follow_a_regular_stat Demo.hostsTable Demo.typesTable Demo.world
           (Demo.get "example.com" "/blog/" ["identity"]) 2 "/srv/www/blog/index.html"
           eq_refl).
Defined.

(** X13: the [Cache-Control] header.  A response that carries a file always
    has one: an hour for [/static/blocks-media/*], ten years for
    [/static/assets/*] and [/js/*], the prefix compared without regard to
    letter case, and [no-cache] for every other path.  A 404 or 500 response
    has the header of its route when the handler of that route ran, that is
    for a GET or HEAD request whose path the router could decode, and none
    otherwise. *)
Theorem X13_cache_control
  (hostsTable : string -> option Host) (typesTable : string -> option FileTypeEntry)
  (world : World) (req : Request) :
  let resp := fst (app hostsTable typesTable world req) in
  (resStatus resp = 200 \/ resStatus resp = 304 ->
   getHeader "Cache-Control" (resHeaders resp)
   = Some (if beginsWith "/static/blocks-media/" (path req)
           then Text "public, max-age=3600, immutable"
           else if beginsWith "/static/assets/" (path req)
                   || beginsWith "/js/" (path req)
           then Text "public, max-age=315360000, immutable"
           else Text "no-cache")) /\
  (resStatus resp = 404 \/ resStatus resp = 500 ->
   getHeader "Cache-Control" (resHeaders resp)
   = if handled "/static/blocks-media/" req
     then Some (Text "public, max-age=3600, immutable")
     else if handled "/static/assets/" req || handled "/js/" req
     then Some (Text "public, max-age=315360000, immutable")
     else None).
Proof.
  cbv zeta.
  pose proof (ResponseFacts.routeRes_etag req) as Hetag.
  assert (Hnf : resStatus (notFound req (routeRes req)) = 404 /\
                getHeader "Cache-Control" (resHeaders (notFound req (routeRes req)))
                = cachePolicy req).
  { destruct (ResponseFacts.notFound_facts req _ Hetag) as (Hst & _ & _ & _ & _ & Hother).
    cbv zeta in *. rewrite Hother by discriminate.
    split; [exact Hst | apply ServerFacts.routeRes_cache]. }
  assert (Herr : forall err,
                resStatus (errorHandler req err (routeRes req)) = 500 /\
                getHeader "Cache-Control" (resHeaders (errorHandler req err (routeRes req)))
                = cachePolicy req).
  { intros err.
    destruct (ResponseFacts.errorHandler_facts req err _ Hetag)
      as (Hst & _ & _ & _ & _ & Hother).
    cbv zeta in *. rewrite Hother by discriminate.
    split; [exact Hst | apply ServerFacts.routeRes_cache]. }
  fold cacheHour. fold cacheForever. fold (cachePolicy req).
  destruct (RunFacts.app_run hostsTable typesTable world req)
    as [Hh | host err Hh _ | host Hh _ | host Hh _ _ | host c l Hh _ _ _ _
        | host c f l Hh _ _ _ _ _ | host c f ft b l1 l2 e Hh _ _ _ _ _ _ _
        | host c f ft b l1 l2 contents Hh Hr Hf _ _ _ _ _];
    try (destruct Hnf as (-> & ->);
         split; [intros [H | H]; discriminate | reflexivity]);
    try (destruct (Herr err) as (-> & ->);
         split; [intros [H | H]; discriminate | reflexivity]);
    try (destruct (Herr TypeError) as (-> & ->);
         split; [intros [H | H]; discriminate | reflexivity]).
  - destruct (ResponseFacts.invalidHost_facts req) as (Hst & _). cbv zeta in Hst.
    rewrite Hst. split; intros [H | H]; discriminate.
  - destruct (ResponseFacts.served_facts req ft f b contents)
      as (Rst & _ & _ & _ & _ & _ & _ & _ & Rcc).
    cbv zeta in Rst. split.
    + intros _. rewrite Rcc. f_equal.
      destruct (FilterFacts.handle_inv req Hr) as (Hm & _ & Hd & _).
      pose proof (FilterFacts.filter_passes_path _ _ _ Hf) as Hp.
      destruct (RouteFacts.pathChars_plain _ Hp) as [_ Hnlt].
      assert (Hh' : forall prefix, handled prefix req = beginsWith prefix (path req)).
      { intros prefix. unfold handled, underRoute.
        rewrite Hm, Hd, andb_true_r. cbn [andb].
        rewrite (SuccessFacts.allChars_substringFrom _ _ _ Hnlt). apply andb_true_r. }
      unfold cachePolicy. rewrite !Hh'.
      destruct (beginsWith "/static/blocks-media/" (path req)); [reflexivity|].
      now destruct (beginsWith "/static/assets/" (path req) || beginsWith "/js/" (path req)).
    + rewrite Rst. destruct (isGetOrHead (method req) && freshFor req _ _);
        intros [H | H]; discriminate.
Qed.

Lemma X13_cache_control_witness :
  getHeader "Cache-Control"
    (resHeaders (fst (Demo.serve (Demo.get "example.com" "/blog/" ["br"]))))
  = Some (Text "no-cache") /\
  getHeader "Cache-Control"
    (resHeaders (fst (Demo.serve (Demo.get "example.com" "/JS/missing.js" []))))
  = Some (Text "public, max-age=315360000, immutable") /\
  getHeader "Cache-Control"
    (resHeaders (fst (Demo.serve (Demo.get "example.com" "/js/%zz" []))))
  = None.
Proof.
  split; [|split].
  - exact (proj1 (X13_cache_control Demo.hostsTable Demo.typesTable Demo.world
                    (Demo.get "example.com" "/blog/" ["br"])) (or_introl eq_refl)).
  - exact (proj2 (X13_cache_control Demo.hostsTable Demo.typesTable Demo.world
                    (Demo.get "example.com" "/JS/missing.js" []))
                 (or_intror eq_refl)).
  - exact (proj2 (X13_cache_control Demo.hostsTable Demo.typesTable Demo.world
                    (Demo.get "example.com" "/js/%zz" []))
                 (or_intror eq_refl)).
Defined.

(** X14: the [Content-Type] of a successful response is the type registered
    for the extension of the file that [findFile] resolved (the index file
    for a directory), also when the body is read from a pre-encoded variant
    with another extension; for a registered type that is the empty string,
    [res.send] puts [application/octet-stream] in its place. *)
Theorem X14_content_type_of_base_file
  (hostsTable : string -> option Host) (typesTable : string -> option FileTypeEntry)
  (world : World) (req : Request) :
  let resp := fst (app hostsTable typesTable world req) in
  let log := snd (app hostsTable typesTable world req) in
  resStatus resp = 200 ->
  exists host candidate file ft best log1 log2,
    hosts hostsTable (hostname req) = Some host /\
    safeJoin (root host) (pathName req (resolvedFor host req)) = Some candidate /\
    findFile world candidate [] = (Ok (Some file), log1) /\
    fileTypes typesTable (NodePath.extname (filePath file)) = Some ft /\
    chooseEncoding world (acceptsEncodings req) (encodings ft) (filePath file) log1
      = (Ok best, log2) /\
    log = (log2 ++ [ReadCall (servedPath file best)])%list /\
    getHeader "Content-Type" (resHeaders resp)
    = Some (Text (if String.eqb (type ft) "" then "application/octet-stream"
                  else type ft)).
Proof.
  cbv zeta. intros Hst.
  destruct (app hostsTable typesTable world req) as [resp log] eqn:Happ.
  cbn [fst snd] in *.
  destruct (SuccessFacts.app_success _ _ _ _ _ _ Happ Hst)
    as (host & c & f & ft & b & l1 & l2 & contents
        & Hh & Hj & Hfind & Htype & Hchoose & Hread & _ & Hct & _).
  exists host, c, f, ft, b, l1, l2. repeat (split; [assumption|]).
  split; [|exact Hct].
  now apply ServerFacts.readFile_ok in Hread as (-> & _).
Qed.

Lemma X14_content_type_of_base_file_witness :
  exists host candidate file ft best log1 log2,
    hosts Demo.hostsTable "example.com" = Some host /\
    safeJoin (root host)
      (pathName (Demo.get "example.com" "/blog/" ["br"])
         (resolvedFor host (Demo.get "example.com" "/blog/" ["br"])))
    = Some candidate /\
    findFile Demo.world candidate [] = (Ok (Some file), log1) /\
    fileTypes Demo.typesTable (NodePath.extname (filePath file)) = Some ft /\
    chooseEncoding Demo.world ["br"] (encodings ft) (filePath file) log1
    = (Ok best, log2) /\
    snd (Demo.serve (Demo.get "example.com" "/blog/" ["br"]))
    = (log2 ++ [ReadCall (servedPath file best)])%list /\
    getHeader "Content-Type"
      (resHeaders (fst (Demo.serve (Demo.get "example.com" "/blog/" ["br"]))))
    = Some (Text (if String.eqb (type ft) "" then "application/octet-stream"
                  else type ft)).
Proof.
  exact (X14_content_type_of_base_file Demo.hostsTable Demo.typesTable Demo.world
           (Demo.get "example.com" "/blog/" ["br"]) eq_refl).
Defined.

(** X15: a request path that contains a character outside
    [a-zA-Z0-9.-/~] (a percent sign, a backslash, a space ...) is never
    followed by a filesystem call, whatever the branch and alias rules make
    of the path: the answer is 404, or 500 when the path holds an escape
    sequence that the router cannot decode. *)
Theorem X15_forbidden_character_in_request_path
  (hostsTable : string -> option Host) (typesTable : string -> option FileTypeEntry)
  (world : World) (req : Request) (host : Host) (c : ascii) :
  hostsTable (hostname req) = Some host ->
  occurs c (path req) = true ->
  occurs c filterAlphabet = false ->
  let resp := fst (app hostsTable typesTable world req) in
  snd (app hostsTable typesTable world req) = [] /\
  resStatus resp = (if undecodable (path req) then 500 else 404) /\
  resBody resp = match method req with
                 | HEAD => ""
                 | _ => if undecodable (path req) then "Internal server error"
                        else "404 Not Found"
                 end.
Proof.
  intros Hhost Hc Hout. cbv zeta.
  rewrite <- PatternFacts.pathChar_alphabet in Hout.
  assert (Hhosts : hosts hostsTable (hostname req)
                   = Some {| root := NodePath.join (root host) "/";
                             branches := branches host |})
    by (unfold hosts; now rewrite Hhost).
  assert (Hrej : forall host', hosts hostsTable (hostname req) = Some host' ->
            Regex.test false forbiddenRe (pathName req (resolvedFor host' req)) = true).
  { intros host' _. rewrite PatternFacts.test_forbiddenRe. apply negb_true_iff.
    apply PatternFacts.allChars_false. exists c. split; [|exact Hout].
    now apply FilterFacts.forbidden_character_survives. }
  pose proof (ResponseFacts.routeRes_etag req) as Hetag.
  destruct (RunFacts.app_run hostsTable typesTable world req)
    as [Hh | host' err Hh Hr | host' Hh Hr | host' Hh Hr _ | host' c' l Hh _ Hf _ _
        | host' c' f l Hh _ Hf _ _ _ | host' c' f ft b l1 l2 e Hh _ Hf _ _ _ _ _
        | host' c' f ft b l1 l2 contents Hh _ Hf _ _ _ _ _];
    try (rewrite (Hrej host' Hh) in Hf; discriminate Hf).
  - congruence.
  - rewrite RouteFacts.routeLayer_main in Hr.
    destruct (undecodable (path req)); [|destruct (handled "/" req); discriminate].
    destruct (ResponseFacts.errorHandler_facts req err _ Hetag) as (Hst & Hbody & _).
    cbv zeta in *. rewrite Hst, Hbody. repeat split.
  - rewrite RouteFacts.routeLayer_main in Hr.
    destruct (undecodable (path req)); [discriminate|].
    destruct (ResponseFacts.notFound_facts req _ Hetag) as (Hst & Hbody & _).
    cbv zeta in *. rewrite Hst, Hbody. repeat split.
  - destruct (FilterFacts.handle_inv req Hr) as (_ & _ & _ & ->).
    destruct (ResponseFacts.notFound_facts req _ Hetag) as (Hst & Hbody & _).
    cbv zeta in *. rewrite Hst, Hbody. repeat split.
Qed.

Lemma X15_forbidden_character_in_request_path_witness :
  snd (Demo.serve (Demo.get "example.com" "/%2e%2e/%2e%2e/etc/passwd" [])) = [] /\
  resStatus (fst (Demo.serve (Demo.get "example.com" "/%2e%2e/%2e%2e/etc/passwd" [])))
  = 404 /\
  resStatus (fst (Demo.serve (Demo.get "example.com" "/%zz" []))) = 500.
Proof.
  destruct (X15_forbidden_character_in_request_path Demo.hostsTable Demo.typesTable
              Demo.world (Demo.get "example.com" "/%2e%2e/%2e%2e/etc/passwd" [])
              {| root := "/srv/www"; branches := false |} "%"%char
              eq_refl eq_refl eq_refl) as (Hlog & Hst & _).
  destruct (X15_forbidden_character_in_request_path Demo.hostsTable Demo.typesTable
              Demo.world (Demo.get "example.com" "/%zz" [])
              {| root := "/srv/www"; branches := false |} "%"%char
              eq_refl eq_refl eq_refl) as (_ & Hst' & _).
  split; [exact Hlog|]. split; [exact Hst | exact Hst'].
Defined.

(** X16: with the separator that start-up appends to the root, the prefix
    test of [safeJoin] is a test on whole segments: the segments of every
    path it lets through begin with the segments of the root, so a sibling
    directory whose name merely begins like the root is never reached. *)
Theorem X16_candidate_extends_root_segments (r p candidate : string) :
  NodePath.isAbsolute r = true ->
  safeJoin (NodePath.join r "/") p = Some candidate ->
  initialPart (segments (NodePath.join r "/")) (segments candidate).
Proof.
  intros Habs Hjoin.
  destruct (JoinFacts.root_shape r Habs) as (Hplain & Hrabs & Hshape). cbv zeta in *.
  apply ConfinementFacts.safeJoin_some in Hjoin as [Ecand Hstart].
  destruct (PathFacts.join_absolute (NodePath.join r "/") p Hrabs) as (x & Hx & Ex).
  destruct (StringFacts.startsWith_split _ _ Hstart) as [tail Htail].
  unfold segments, initialPart.
  remember (NodePath.keptSegments false (NodePath.join r "/")) as K eqn:EK.
  destruct K as [|k kept]; [now exists (rev (NodePath.keptSegments false candidate))|].
  assert (Hrev : rev (k :: kept) <> [])
    by (simpl; intros E; now apply app_eq_nil in E as [_ E]).
  assert (Hsplit0 : NodePath.split (String.concat "/" (rev (k :: kept))) = rev (k :: kept)).
  { apply PathFacts.split_concat; [exact Hrev|]. apply Forall_rev.
    eapply Forall_impl; [|exact Hplain]. now intros a (Ha & _). }
  assert (Hcand : NodePath.split candidate
                  = ([""] ++ rev (k :: kept) ++ NodePath.split tail)%list).
  { rewrite Htail, Hshape.
    replace (("/" ++ String.concat "/" (rev (k :: kept)) ++ "/") ++ tail)
      with ("" ++ String "/" (String.concat "/" (rev (k :: kept)) ++ String "/" tail))
      by (cbn [append]; now rewrite StringFacts.append_assoc).
    now rewrite !PathFacts.split_append_sep, Hsplit0. }
  assert (Hsegs : Forall (fun s => s = "" \/ NodePath.plain s) (NodePath.split tail)).
  { pose proof (JoinFacts.split_normalize x Hx) as Hall.
    rewrite <- Ex, <- Ecand, Hcand in Hall.
    apply Forall_app in Hall as [_ Hall]. now apply Forall_app in Hall as [_ Hall]. }
  assert (Hkept : NodePath.keptSegments false candidate
                  = fold_left (NodePath.pushSegment false) (NodePath.split tail)
                      (k :: kept)).
  { unfold NodePath.keptSegments. rewrite Hcand, !fold_left_app.
    cbn [fold_left]. change (NodePath.pushSegment false [] "") with (@nil string).
    now rewrite PathFacts.fold_plain. }
  destruct (JoinFacts.fold_push_kept_or_dropped false _ (k :: kept) Hsegs) as [more Hmore].
  exists (rev more). now rewrite Hkept, Hmore, rev_app_distr.
Qed.

Lemma X16_candidate_extends_root_segments_witness :
  initialPart (segments "/srv/www/") (segments "/srv/www/blog/index.html").
Proof.
  exact (X16_candidate_extends_root_segments "/srv/www" "/x/../blog//index.html"
           "/srv/www/blog/index.html" eq_refl eq_refl).
Defined.

(** Without the trailing separator the same test lets a sibling through. *)
Example sibling_without_separator :
  safeJoin "/srv/www" "/../www-secret/x" = Some "/srv/www-secret/x" /\
  safeJoin "/srv/www/" "/../www-secret/x" = None.
Proof. split; reflexivity. Qed.

(** X17: a path made of plain segments (no empty, [.] or [..] segment) is
    never turned away by [safeJoin]: below an absolute root, [/a/b/c]
    resolves to the root followed by [a/b/c]. *)
Theorem X17_plain_paths_are_joined (r : string) (segs : list string) :
  NodePath.isAbsolute r = true ->
  Forall NodePath.plain segs ->
  safeJoin (NodePath.join r "/") ("/" ++ String.concat "/" segs)
  = Some (NodePath.join r "/" ++ String.concat "/" segs).
Proof.
  intros Habs Hsegs. unfold safeJoin.
  rewrite (JoinFacts.join_plain r segs Habs Hsegs).
  now rewrite StringFacts.startsWith_append.
Qed.

Lemma X17_plain_paths_are_joined_witness :
  safeJoin "/srv/www/" "/js/app.1f3a.js" = Some "/srv/www/js/app.1f3a.js".
Proof.
  apply (X17_plain_paths_are_joined "/srv/www" ["js"; "app.1f3a.js"]); [reflexivity|].
  repeat first [ apply Forall_nil
               | apply Forall_cons;
                 [repeat split; first [reflexivity | discriminate]|] ].
Defined.

(** X18: the start-up normalization of an absolute root is idempotent:
    normalizing a root that already went through it changes nothing. *)
Theorem X18_startup_normalization_is_idempotent (r : string) :
  NodePath.isAbsolute r = true ->
  NodePath.join (NodePath.join r "/") "/" = NodePath.join r "/".
Proof.
  intros Habs.
  pose proof (JoinFacts.join_plain r [] Habs (Forall_nil _)) as H.
  cbn [String.concat] in H. change ("/" ++ "") with "/" in H.
  now rewrite StringFacts.append_empty_r in H.
Qed.

Lemma X18_startup_normalization_is_idempotent_witness :
  NodePath.join (NodePath.join "/srv//www/./" "/") "/" = NodePath.join "/srv//www/./" "/".
Proof. apply X18_startup_normalization_is_idempotent. reflexivity. Defined.

(** X19: a directory is looked up the same way with and without a trailing
    slash: below an absolute root, the index file tried for [p] and for
    [p/] is the same path. *)
Theorem X19_index_file_ignores_trailing_slash (r p : string) :
  NodePath.isAbsolute r = true ->
  NodePath.join (NodePath.join r (p ++ "/")) "index.html"
  = NodePath.join (NodePath.join r p) "index.html".
Proof.
  intros Habs. destruct (PathFacts.isAbsolute_cons _ Habs) as [r' ->].
  assert (Hsame : forall x, NodePath.keptSegments false (x ++ String "/" "")
                            = NodePath.keptSegments false x).
  { intros x. unfold NodePath.keptSegments.
    now rewrite PathFacts.split_append_sep, fold_left_app. }
  assert (Hjoin : forall x y, NodePath.isAbsolute x = true -> NodePath.isAbsolute y = true ->
            NodePath.keptSegments false x = NodePath.keptSegments false y ->
            NodePath.join (NodePath.normalize x) "index.html"
            = NodePath.join (NodePath.normalize y) "index.html").
  { intros x y Hx Hy Hk. now rewrite !JoinFacts.join_index_path, Hk by assumption. }
  destruct p as [|c p].
  - change (NodePath.join (String "/" r') ("" ++ "/"))
      with (NodePath.normalize (String "/" r' ++ String "/" "/")).
    change (NodePath.join (String "/" r') "") with (NodePath.normalize (String "/" r')).
    apply Hjoin; [reflexivity..|]. unfold NodePath.keptSegments.
    now rewrite PathFacts.split_append_sep, fold_left_app.
  - change (NodePath.join (String "/" r') (String c p ++ "/"))
      with (NodePath.normalize (String "/" r' ++ "/" ++ String c p ++ "/")).
    change (NodePath.join (String "/" r') (String c p))
      with (NodePath.normalize (String "/" r' ++ "/" ++ String c p)).
    apply Hjoin; [reflexivity..|].
    replace (String "/" r' ++ "/" ++ String c p ++ "/")
      with ((String "/" r' ++ "/" ++ String c p) ++ String "/" "")
      by (now rewrite !StringFacts.append_assoc).
    apply Hsame.
Qed.

Lemma X19_index_file_ignores_trailing_slash_witness :
  NodePath.join (NodePath.join "/srv/www/" "/blog/") "index.html"
  = NodePath.join (NodePath.join "/srv/www/" "/blog") "index.html".
Proof.
  exact (X19_index_file_ignores_trailing_slash "/srv/www/" "/blog" eq_refl).
Defined.

(** A logical path that the mapper sets: a branch prefix, or none, and one
    of the three targets. *)
Lemma mapLogicalPath_some (branches : bool) (p l : string) :
  mapLogicalPath branches p = Some l ->
  exists prefix target,
    l = prefix ++ "/" ++ target /\
    (prefix = "" \/ exists b, branchName b /\ prefix = "/" ++ b) /\
    (target = "index.html" \/ target = "editor.html" \/ target = "fullscreen.html").
Proof.
  unfold mapLogicalPath.
  assert (Hprefix : fst (splitBranch branches p) = "" \/
                    exists b, branchName b /\ fst (splitBranch branches p) = "/" ++ b).
  { destruct branches; [|now left]. unfold splitBranch.
    destruct (Regex.matchGroup1 branchRe p) as [g|] eqn:E; [|now left].
    destruct (PatternFacts.matchGroup1_branch_inv _ _ E) as (r & Hg & _).
    right. now exists g. }
  destruct (splitBranch branches p) as [prefix rest]. cbn [fst] in Hprefix.
  destruct (Regex.test false indexRe rest);
    [intros [= <-]; exists prefix, "index.html"; auto|].
  destruct (Regex.test true editorRe rest);
    [intros [= <-]; exists prefix, "editor.html"; auto|].
  destruct (Regex.test true fullscreenRe rest); [|discriminate].
  intros [= <-]. exists prefix, "fullscreen.html". auto.
Qed.

(** A branch name is a plain segment. *)
Lemma branchName_plain (b : string) : branchName b -> NodePath.plain b.
Proof.
  intros (Hne & Hall).
  assert (Hchar : forall c, branchChar c = true ->
                            negb (Ascii.eqb c "/") = true /\ Ascii.eqb c "." = false).
  { intros [c0 c1 c2 c3 c4 c5 c6 c7].
    destruct c0, c1, c2, c3, c4, c5, c6, c7; intros Hc;
      (discriminate Hc || (split; reflexivity)). }
  repeat split; [| exact Hne | |].
  - unfold NodePath.noSep. clear Hne. induction b as [|c b IH]; [reflexivity|].
    simpl in *. apply andb_true_iff in Hall as [Hc Hb].
    destruct (Hchar c Hc) as [-> _]. now apply IH.
  - intros ->. discriminate Hall.
  - intros ->. discriminate Hall.
Qed.

(** X20: a logical path set by the mapper is never turned away by
    [safeJoin]: below an absolute root it resolves to the root followed by
    the logical path without its leading slash. *)
Theorem X20_logical_paths_are_joined (r : string) (branches : bool) (p l : string) :
  NodePath.isAbsolute r = true ->
  mapLogicalPath branches p = Some l ->
  exists rel, l = "/" ++ rel /\
              safeJoin (NodePath.join r "/") l = Some (NodePath.join r "/" ++ rel).
Proof.
  intros Habs Hmap.
  destruct (mapLogicalPath_some _ _ _ Hmap) as (prefix & target & -> & Hprefix & Htarget).
  assert (Hplain : NodePath.plain target).
  { destruct Htarget as [-> | [-> | ->]];
      repeat split; first [reflexivity | discriminate]. }
  destruct Hprefix as [-> | (b & Hb & ->)].
  - exists target. split; [reflexivity|].
    pose proof (JoinFacts.join_plain r [target] Habs
                  (Forall_cons _ Hplain (Forall_nil _))) as Hjoin.
    cbn [String.concat] in Hjoin. unfold safeJoin.
    change ("" ++ "/" ++ target) with ("/" ++ target).
    now rewrite Hjoin, StringFacts.startsWith_append.
  - exists (b ++ "/" ++ target). split; [reflexivity|].
    pose proof (JoinFacts.join_plain r [b; target] Habs
                  (Forall_cons _ (branchName_plain _ Hb)
                     (Forall_cons _ Hplain (Forall_nil _)))) as Hjoin.
    cbn [String.concat] in Hjoin. unfold safeJoin.
    change (("/" ++ b) ++ "/" ++ target) with ("/" ++ b ++ "/" ++ target).
    now rewrite Hjoin, StringFacts.startsWith_append.
Qed.

Lemma X20_logical_paths_are_joined_witness :
  exists rel, "/feature-x/editor.html" = "/" ++ rel /\
              safeJoin "/srv/dev/" "/feature-x/editor.html" = Some ("/srv/dev/" ++ rel).
Proof.
  exact (X20_logical_paths_are_joined "/srv/dev" true "/feature-x/12/Editor/"
           "/feature-x/editor.html" eq_refl eq_refl).
Defined.
